(** * CSV processing pipeline: profiling, cleaning and aggregation

    A shallow embedding of [recipes/csv_processing/csv_pipeline.py]
    (functions [profile_column], [profile_dataset], [clean_dataset] and
    [aggregate]) and of [recipes/api_ingestion/api_to_dataset.py]
    (functions [fetch_paginated], [normalize_records] and
    [save_dataset]), together with the properties stated for them.

    The model, in short:
    - a [str] is a [string] of code points below 256; a cell of a row is
      a [str] or [None]; a row is a [dict] with [str] keys, kept as the
      list of its items in insertion order;
    - a function that can raise returns a [result];
    - a [float] is a binary64 number of [SpecFloat]; [float(s)], [round],
      [min], [max] and [statistics.mean] are defined on it, whereas
      [sum], [statistics.median] and [statistics.stdev] are parameters
      ([NumericLib]), with the functions of CPython 3.11 as the instance
      of the examples;
    - of the text that the functions print, the model keeps the change
      log of [clean_dataset];
    - the functions are given twice: on the values of the rows, and as
      programs on a store of row objects, which say what is read, what
      is created and what is assigned to;
    - [fetch_json] and [time.sleep] are parameters of [fetch_paginated],
      whose model returns its requests and pauses with its outcome.

    Part I holds the definitions, in the order of the Python sources;
    Part II holds the lemmas and theorems. *)

From Stdlib Require Import ZArith QArith String Ascii DecimalString.
From Stdlib Require Import Floats.SpecFloat.
From stdpp Require Import base decidable option list sorting strings gmap.

Local Open Scope string_scope.
Local Open Scope list_scope.
Local Open Scope stdpp_scope.
Local Open Scope Z_scope.

(* ===================================================================== *)
(** * Part I. Definitions *)
(* ===================================================================== *)

(** ** Python strings

    A [str] is modelled by [string]; each [ascii] is read as the code
    point of one character, so the model covers text in the range
    U+0000..U+00FF. *)

Module PyStr.

(** [str.isspace] on one character, for code points below 256. *)
Definition isspace (c : ascii) : bool :=
  let n := N_of_ascii c in
  ((9 <=? n) && (n <=? 13) || (28 <=? n) && (n <=? 32)
   || (n =? 133) || (n =? 160))%N.

Fixpoint lstrip (s : string) : string :=
  match s with
  | EmptyString => EmptyString
  | String c s' => if isspace c then lstrip s' else s
  end.

Fixpoint rstrip (s : string) : string :=
  match s with
  | EmptyString => EmptyString
  | String c s' =>
      match rstrip s' with
      | EmptyString => if isspace c then EmptyString else String c EmptyString
      | r => String c r
      end
  end.

(** [s.strip()] *)
Definition strip (s : string) : string := rstrip (lstrip s).

(** Truth value of a [str]: the empty string is false. *)
Definition truthy (s : string) : bool :=
  match s with EmptyString => false | _ => true end.

(** [s.replace(",", "")] *)
Fixpoint remove_commas (s : string) : string :=
  match s with
  | EmptyString => EmptyString
  | String c s' =>
      if Ascii.eqb c ","%char then remove_commas s'
      else String c (remove_commas s')
  end.

End PyStr.

(** ** Python floats

    A [float] is an IEEE 754 binary64 number.  The operations are the
    ones of the specification of binary64 in [SpecFloat], instantiated
    at 53 bits of precision. *)

Module PyFloat.

Definition prec : Z := 53.
Definition emax : Z := 1024.

Definition float : Type := spec_float.

Definition add : float -> float -> float := SFadd prec emax.
Definition mul : float -> float -> float := SFmul prec emax.
Definition div : float -> float -> float := SFdiv prec emax.
Definition ltb : float -> float -> bool := SFltb.

(** The float nearest to [n / d] (ties to even), with sign [neg].  The
    quotient of the two integers is rounded once. *)
Definition of_ratio (neg : bool) (n d : positive) : float :=
  SFdiv prec emax (S754_finite neg n 0) (S754_finite false d 0).

(** [float(z)] for an [int] in the range of the floats. *)
Definition of_Z (z : Z) : float := binary_normalize prec emax z 0 false.

(** True division [a / b] of two [int]s with [b > 0].  Python raises
    for [b = 0]; the one call site tests its divisor first. *)
Definition truediv (a b : Z) : float :=
  match a with
  | Z0 => S754_zero false
  | Zpos n => of_ratio false n (Z.to_pos b)
  | Zneg n => of_ratio true n (Z.to_pos b)
  end.

(** The integer nearest to [num / den], ties to the even one. *)
Definition round_half_even (num : Z) (den : positive) : Z :=
  let q := num / Zpos den in
  let r := num mod Zpos den in
  match (2 * r ?= Zpos den) with
  | Lt => q
  | Gt => q + 1
  | Eq => if Z.even q then q else q + 1
  end.

(** [round(x, ndigits)] for a float [x] and [ndigits >= 0]: the exact
    value of [x] is rounded half-even to [ndigits] decimals, and the
    decimal result is converted back to the nearest float. *)
Definition round_ndigits (x : float) (ndigits : N) : float :=
  match x with
  | S754_finite s m e =>
      let p10 := Z.pow 10 (Z.of_N ndigits) in
      let k :=
        if 0 <=? e then Zpos m * Z.pow 2 e * p10
        else round_half_even (Zpos m * p10) (Z.to_pos (Z.pow 2 (- e))) in
      match k with
      | Zpos kp => of_ratio s kp (Z.to_pos p10)
      | _ => S754_zero s
      end
  | _ => x
  end.

(** *** [float(s)] for a string *)

(** The characters that [float] strips at both ends. *)
Definition is_float_space (c : ascii) : bool :=
  let n := N_of_ascii c in
  ((9 <=? n) && (n <=? 13) || (n =? 32) || (n =? 133) || (n =? 160))%N.

Definition is_digit (c : ascii) : bool :=
  let n := N_of_ascii c in ((48 <=? n) && (n <=? 57))%N.

Definition digit_val (c : ascii) : Z := Z.of_N (N_of_ascii c) - 48.

Fixpoint lstrip_space (s : list ascii) : list ascii :=
  match s with
  | c :: s' => if is_float_space c then lstrip_space s' else s
  | [] => []
  end.

Definition strip_space (s : list ascii) : list ascii :=
  rev (lstrip_space (rev (lstrip_space s))).

(** Removal of the digit-group underscores: an underscore is accepted
    only between two digits.  [prev] is the character before [s]. *)
Fixpoint strip_underscores (prev : option ascii) (s : list ascii)
  : option (list ascii) :=
  let prev_digit := from_option is_digit false prev in
  let prev_under := from_option (Ascii.eqb "_"%char) false prev in
  match s with
  | [] => if prev_under then None else Some []
  | c :: s' =>
      if Ascii.eqb c "_"%char then
        if prev_digit then strip_underscores (Some c) s' else None
      else if prev_under && negb (is_digit c) then None
      else cons c <$> strip_underscores (Some c) s'
  end.

(** The longest prefix of digits of [s]: its value appended to [acc],
    its length, and the rest of [s]. *)
Fixpoint take_digits (acc : Z) (s : list ascii) : Z * nat * list ascii :=
  match s with
  | c :: s' =>
      if is_digit c then
        let '(v, n, rest) := take_digits (10 * acc + digit_val c) s' in
        (v, S n, rest)
      else (acc, O, s)
  | [] => (acc, O, [])
  end.

Definition take_sign (s : list ascii) : bool * list ascii :=
  match s with
  | "-"%char :: s' => (true, s')
  | "+"%char :: s' => (false, s')
  | _ => (false, s)
  end.

Definition lower (c : ascii) : ascii :=
  let n := N_of_ascii c in
  if ((65 <=? n) && (n <=? 90))%N then ascii_of_N (n + 32) else c.

(** The float nearest to [mant * 10 ^ e10]. *)
Definition of_decimal (neg : bool) (mant : Z) (e10 : Z) : float :=
  match mant with
  | Zpos m =>
      if 0 <=? e10 then of_ratio neg (m * Z.to_pos (Z.pow 10 e10)) 1
      else of_ratio neg m (Z.to_pos (Z.pow 10 (- e10)))
  | _ => S754_zero neg
  end.

(** An exponent part [e], [E] with an optional sign and at least one
    digit, up to the end of the text. *)
Definition parse_exponent (s : list ascii) : option Z :=
  match s with
  | [] => Some 0
  | c :: s' =>
      if Ascii.eqb (lower c) "e"%char then
        let '(eneg, s'') := take_sign s' in
        match take_digits 0 s'' with
        | (v, S _, []) => Some (if eneg then - v else v)
        | _ => None
        end
      else None
  end.

Definition parse_decimal (neg : bool) (s : list ascii) : option float :=
  let '(v1, n1, rest1) := take_digits 0 s in
  let '(v2, n2, rest2) :=
    match rest1 with
    | "."%char :: r => take_digits v1 r
    | _ => (v1, O, rest1)
    end in
  match (n1 + n2)%nat with
  | O => None
  | S _ =>
      e ← parse_exponent rest2;
      Some (of_decimal neg v2 (e - Z.of_nat n2))
  end.

Definition parse_inf_nan (neg : bool) (s : list ascii) : option float :=
  let w := string_of_list_ascii (map lower s) in
  if decide (w = "inf" \/ w = "infinity") then Some (S754_infinity neg)
  else if decide (w = "nan") then Some S754_nan
  else None.

(** [float(s)]: [None] stands for [ValueError]. *)
Definition of_str (s : string) : option float :=
  body ← strip_underscores None (strip_space (list_ascii_of_string s));
  let '(neg, rest) := take_sign body in
  match parse_decimal neg rest with
  | Some x => Some x
  | None => parse_inf_nan neg rest
  end.

(** *** Exact values, as the [statistics] module computes with them *)

Definition is_finite (x : float) : bool :=
  match x with
  | S754_zero _ | S754_finite _ _ _ => true
  | _ => false
  end.

(** The value of a finite float as a fraction ([0] otherwise). *)
Definition to_Q (x : float) : Q :=
  match x with
  | S754_finite s m e =>
      let v := (inject_Z (Zpos m) * Qpower (2 # 1) e)%Q in
      if s then Qopp v else v
  | _ => 0%Q
  end.

(** [float(q)] for a [Fraction] in the range of the floats. *)
Definition of_Q (q : Q) : float :=
  match Qnum q with
  | Z0 => S754_zero false
  | Zpos n => of_ratio false n (Qden q)
  | Zneg n => of_ratio true n (Qden q)
  end.

End PyFloat.

(** ** Values, exceptions and dictionaries *)

(** A cell of a row, as [csv.DictReader] produces it: a [str], or
    [None] for a field that a short line does not have.  (A line with
    too many fields gives a row with the key [None]; the model has rows
    with [str] keys only.) *)
Inductive pyval : Type :=
| VNone
| VStr (s : string).

#[global] Instance pyval_eq_dec : EqDecision pyval.
Proof. solve_decision. Defined.

#[global] Instance pyval_countable : Countable pyval :=
  inj_countable'
    (fun v => match v with VNone => None | VStr s => Some s end)
    (fun o => match o with None => VNone | Some s => VStr s end)
    (fun v => match v with VNone => eq_refl | VStr _ => eq_refl end).

(** The exceptions that the modelled code can raise. *)
Inductive exn : Type :=
| AttributeError
| TypeError
| StatisticsError
| OverflowError
| ValueError (msg : string).

Inductive result (A : Type) : Type :=
| Ok (a : A)
| Raise (e : exn).
Arguments Ok {A} a.
Arguments Raise {A} e.

#[global] Instance result_ret : MRet result := fun _ a => Ok a.
#[global] Instance result_bind : MBind result := fun _ _ f m =>
  match m with
  | Ok a => f a
  | Raise e => Raise e
  end.
#[global] Instance result_fmap : FMap result := fun _ _ f m =>
  match m with
  | Ok a => Ok (f a)
  | Raise e => Raise e
  end.

(** A [dict] with [str] keys keeps its items in insertion order. *)
Abbreviation dict V := (list (string * V)).
Abbreviation row := (dict pyval).

(** The keys of a [dict] are distinct. *)
Definition dict_wf {V} (d : dict V) : Prop := NoDup d.*1.

Fixpoint dict_lookup {V} (k : string) (d : dict V) : option V :=
  match d with
  | [] => None
  | (k', v) :: d' => if decide (k = k') then Some v else dict_lookup k d'
  end.

(** [d.get(k, dflt)] *)
Definition dict_get {V} (d : dict V) (k : string) (dflt : V) : V :=
  default dflt (dict_lookup k d).

(** [d[k] = v]: an existing key keeps its place, a new one goes last. *)
Fixpoint dict_set {V} (k : string) (v : V) (d : dict V) : dict V :=
  match d with
  | [] => [(k, v)]
  | (k', v') :: d' =>
      if decide (k = k') then (k, v) :: d' else (k', v') :: dict_set k v d'
  end.

(** ** The cleaning configuration

    [config] is a [dict] of options, each of which may be missing. *)

(** A fill value is any Python object; [str] turns it into text. *)
Inductive fill_value : Type :=
| FStr (s : string)
| FInt (z : Z)
| FNone.

Definition py_str (v : fill_value) : string :=
  match v with
  | FStr s => s
  | FInt z => NilZero.string_of_int (Z.to_int z)
  | FNone => "None"
  end.

Record config : Type := Config {
  strip_whitespace : option bool;
  remove_duplicates : option bool;
  fill_nulls : option (dict fill_value);
  drop_columns : option (list string);
  rename_columns : option (dict string);
}.

(** [{}] *)
Definition empty_config : config := Config None None None None None.

(** The lines that [clean_dataset] prints at its end, one constructor
    per message. *)
Inductive change : Type :=
| Stripped
| RemovedDuplicates (removed : nat)
| FilledNulls (count : nat) (col : string) (fill : fill_value)
| DroppedColumns (cols : list string)
| RenamedColumns (rename : dict string).

(** ** [clean_dataset] *)

Definition strip_value (v : pyval) : pyval :=
  match v with
  | VStr s => VStr (PyStr.strip s)
  | VNone => VNone
  end.

(** [for k in row: if isinstance(row[k], str): row[k] = row[k].strip()] *)
Definition strip_row (r : row) : row := prod_map id strip_value <$> r.

(** Order of two items in [sorted(row.items())]: the keys of one [dict]
    differ, so the comparison of two items is decided by their keys. *)
Definition item_le (a b : string * pyval) : Prop := String.le a.1 b.1.

#[global] Instance item_le_dec : RelDecision item_le.
Proof. intros a b. unfold item_le. apply _. Defined.

(** [tuple(sorted(row.items()))] *)
Definition row_key (r : row) : list (string * pyval) := merge_sort item_le r.

(** One turn of the loop over [cleaned], on the pair [(seen, unique)]. *)
Definition dedup_step (st : gset (list (string * pyval)) * list row) (r : row)
  : gset (list (string * pyval)) * list row :=
  let key := row_key r in
  if decide (key ∈ st.1) then st else ({[key]} ∪ st.1, st.2 ++ [r]).

Definition remove_duplicate_rows (cleaned : list row) : list row :=
  (fold_left dedup_step cleaned (∅, [])).2.

(** [not row.get(col, "").strip()]; a cell that is not a [str] has no
    method [strip]. *)
Definition cell_is_null (col : string) (r : row) : result bool :=
  match dict_get r col (VStr "") with
  | VStr s => Ok (negb (PyStr.truthy (PyStr.strip s)))
  | VNone => Raise AttributeError
  end.

(** The loop over [cleaned] for one column: the rows and [count]. *)
Fixpoint fill_column (col : string) (fill : fill_value) (cleaned : list row)
  : result (list row * nat) :=
  match cleaned with
  | [] => Ok ([], O)
  | r :: rest =>
      null ← cell_is_null col r;
      '(rest', count) ← fill_column col fill rest;
      Ok (if null : bool
          then (dict_set col (VStr (py_str fill)) r :: rest', S count)
          else (r :: rest', count))
  end.

(** The loop over [fill_nulls.items()]. *)
Fixpoint fill_columns (fills : dict fill_value) (cleaned : list row)
    (changes : list change) : result (list row * list change) :=
  match fills with
  | [] => Ok (cleaned, changes)
  | (col, fill) :: fills' =>
      '(cleaned', count) ← fill_column col fill cleaned;
      fill_columns fills' cleaned'
        (match count with
         | O => changes
         | S _ => changes ++ [FilledNulls count col fill]
         end)
  end.

(** [{k: v for k, v in row.items() if k not in drop_cols}] *)
Definition drop_row (drop_cols : list string) (r : row) : row :=
  filter (fun kv => kv.1 ∉ drop_cols) r.

(** [{rename.get(k, k): v for k, v in row.items()}] *)
Definition rename_row (rename : dict string) (r : row) : row :=
  fold_left (fun acc kv => dict_set (dict_get rename kv.1 kv.1) kv.2 acc) r [].

(** The result is the list [cleaned] that the function returns, with
    the list [changes] that it prints before it returns.  On values,
    the copy [[dict(row) for row in rows]] is the list of rows itself;
    [clean_dataset_st] below has the copies as objects of their own. *)
Definition clean_dataset (headers : list string) (rows : list row)
    (config : option config) : result (list row * list change) :=
  let config := default empty_config config in
  let cleaned : list row := rows in
  let changes : list change := [] in
  let '(cleaned, changes) :=
    (if default true (strip_whitespace config)
     then (strip_row <$> cleaned, changes ++ [Stripped])
     else (cleaned, changes)) : list row * list change in
  let '(cleaned, changes) :=
    (if default true (remove_duplicates config)
     then
       let unique := remove_duplicate_rows cleaned in
       let removed := (length cleaned - length unique)%nat in
       (unique,
        match removed with
        | O => changes
        | S _ => changes ++ [RemovedDuplicates removed]
        end)
     else (cleaned, changes)) : list row * list change in
  '(cleaned, changes) ←
    fill_columns (default [] (fill_nulls config)) cleaned changes;
  let drop_cols := default [] (drop_columns config) in
  let '(cleaned, changes) :=
    match drop_cols with
    | [] => (cleaned, changes)
    | _ :: _ =>
        (drop_row drop_cols <$> cleaned, changes ++ [DroppedColumns drop_cols])
    end : list row * list change in
  let rename := default [] (rename_columns config) in
  let '(cleaned, changes) :=
    match rename with
    | [] => (cleaned, changes)
    | _ :: _ =>
        (rename_row rename <$> cleaned, changes ++ [RenamedColumns rename])
    end : list row * list change in
  Ok (cleaned, changes).

(** ** Numbers and the numeric library

    A number in a profile or in an aggregation record is an [int] or a
    [float]. *)

Inductive num : Type :=
| NInt (z : Z)
| NFloat (x : PyFloat.float).

(** [a < b] on exact values.  The test [len(numeric_values) >
    len(non_empty) * 0.5] compares an [int] with a float; the product
    is exact for every length below [2 ^ 53], and Python compares the
    two numbers by their exact values. *)
Definition Qltb (a b : Q) : bool := negb (Qle_bool b a).

(** [round(v, ndigits)]: an [int] is returned as it is. *)
Definition py_round (v : num) (ndigits : N) : num :=
  match v with
  | NInt z => NInt z
  | NFloat x => NFloat (PyFloat.round_ndigits x ndigits)
  end.

(** [min] and [max] of a list with first element [x]: a later element
    replaces the current one when it is strictly smaller (greater). *)
Definition py_min (x : PyFloat.float) (xs : list PyFloat.float) : PyFloat.float :=
  fold_left (fun m y => if PyFloat.ltb y m then y else m) xs x.

Definition py_max (x : PyFloat.float) (xs : list PyFloat.float) : PyFloat.float :=
  fold_left (fun m y => if PyFloat.ltb m y then y else m) xs x.

(** [statistics.mean] of a non-empty list of floats: the exact mean of
    the values, rounded once; when some value is not finite, the float
    sum of those values divided by the length. *)
Definition statistics_mean (data : list PyFloat.float) : PyFloat.float :=
  let n := Z.of_nat (length data) in
  if forallb PyFloat.is_finite data then
    let total := fold_left Qplus (PyFloat.to_Q <$> data) 0%Q in
    PyFloat.of_Q (Qred (total / inject_Z n))
  else
    let total :=
      fold_left PyFloat.add
        (filter (fun x => PyFloat.is_finite x = false) data) (PyFloat.of_Z 0) in
    PyFloat.div total (PyFloat.of_Z n).

(** The library functions whose result depends on the version of the
    interpreter are parameters of the model: [sum] (plain or compensated
    summation), [statistics.median] (it sorts its data) and
    [statistics.stdev] (which raises on some data). *)
Class NumericLib : Type := {
  py_sum : list PyFloat.float -> PyFloat.float;
  statistics_median : list PyFloat.float -> PyFloat.float;
  statistics_stdev : list PyFloat.float -> result PyFloat.float;
}.

(** *** The library of CPython 3.11, for the examples *)

Module CPython311.

Definition sum (values : list PyFloat.float) : PyFloat.float :=
  fold_left PyFloat.add values (PyFloat.of_Z 0).

Fixpoint insert_sorted (x : PyFloat.float) (l : list PyFloat.float)
  : list PyFloat.float :=
  match l with
  | [] => [x]
  | y :: l' => if PyFloat.ltb y x then y :: insert_sorted x l' else x :: l
  end.

(** [sorted(data)], for data without NaN. *)
Definition sorted (data : list PyFloat.float) : list PyFloat.float :=
  foldr insert_sorted [] data.

Definition median (data : list PyFloat.float) : PyFloat.float :=
  let data := sorted data in
  let n := length data in
  let i := (n / 2)%nat in
  let item k := nth k data S754_nan in
  if (n mod 2 =? 1)%nat then item i
  else PyFloat.div (PyFloat.add (item (i - 1)%nat) (item i)) (PyFloat.of_Z 2).

(** [_integer_sqrt_of_frac_rto] *)
Definition integer_sqrt_of_frac_rto (n m : Z) : Z :=
  let a := Z.sqrt (n / m) in
  Z.lor a (if a * a * m =? n then 0 else 1).

(** [_float_sqrt_of_frac]: the last line divides two [int]s, which
    raises when the quotient is beyond the floats. *)
Definition float_sqrt_of_frac (n m : Z) : result PyFloat.float :=
  let q := (Zdigits2 n - Zdigits2 m - 109) / 2 in
  let '(numerator, denominator) :=
    if 0 <=? q
    then (Z.shiftl (integer_sqrt_of_frac_rto n (Z.shiftl m (2 * q))) q, 1)
    else (integer_sqrt_of_frac_rto (Z.shiftl n (-2 * q)) m, Z.shiftl 1 (- q)) in
  match PyFloat.truediv numerator denominator with
  | S754_infinity _ => Raise OverflowError
  | x => Ok x
  end.

Definition stdev (data : list PyFloat.float) : result PyFloat.float :=
  let n := Z.of_nat (length data) in
  if n <? 2 then Raise StatisticsError
  else if forallb PyFloat.is_finite data then
    let xs := PyFloat.to_Q <$> data in
    let sx := fold_left Qplus xs 0%Q in
    let sxx := fold_left Qplus ((fun x => x * x)%Q <$> xs) 0%Q in
    let ssd := ((inject_Z n * sxx - sx * sx) / inject_Z n)%Q in
    let mss := Qred (ssd / inject_Z (n - 1)) in
    float_sqrt_of_frac (Qnum mss) (Zpos (Qden mss))
  else Raise AttributeError.

Definition lib : NumericLib :=
  {| py_sum := sum; statistics_median := median; statistics_stdev := stdev |}.

End CPython311.

(** ** [profile_column] and [profile_dataset] *)

(** The part of a profile that depends on the type of the column.  The
    key [stdev] is present only for two numeric values or more. *)
Inductive column_stats : Type :=
| Numeric (min max : PyFloat.float) (mean median : num) (stdev : option num)
| Categorical (top_5 : dict Z) (sample : list string).

Record profile : Type := Profile {
  column : string;
  total_rows : Z;
  non_null : Z;
  null_count : Z;
  null_pct : num;
  unique_count : Z;
  stats : column_stats;
}.

(** [profile["type"]] *)
Definition type_of (p : profile) : string :=
  match stats p with
  | Numeric _ _ _ _ _ => "numeric"
  | Categorical _ _ => "categorical"
  end.

(** [len(l)], an [int]. *)
Definition len {A} (l : list A) : Z := Z.of_nat (length l).

(** [v and v.strip()], as a truth value; on its success [v] is a [str]. *)
Definition non_empty_value (v : pyval) : option string :=
  match v with
  | VStr s => if PyStr.truthy s && PyStr.truthy (PyStr.strip s) then Some s else None
  | VNone => None
  end.

(** [float(v.replace(",", ""))], with [ValueError] caught. *)
Definition parse_number (v : string) : option PyFloat.float :=
  PyFloat.of_str (PyStr.remove_commas v).

(** [Counter(non_empty)]: the counts, in the order of first occurrence. *)
Definition counter (l : list string) : dict Z :=
  fold_left (fun c s => dict_set s (dict_get c s 0 + 1) c) l [].

Fixpoint insert_by_count (x : string * Z) (l : dict Z) : dict Z :=
  match l with
  | [] => [x]
  | y :: l' => if x.2 <? y.2 then y :: insert_by_count x l' else x :: l
  end.

(** [c.most_common(n)]: by decreasing count, equal counts in the order
    of [c]. *)
Definition most_common (n : nat) (c : dict Z) : dict Z :=
  take n (foldr insert_by_count [] c).

Section WithLibrary.
Context {lib : NumericLib}.

Definition profile_column (values : list pyval) (col_name : string)
  : result profile :=
  let total := len values in
  let non_empty := omap non_empty_value values in
  let null_count := total - len non_empty in
  let null_pct :=
    if total =? 0 then NInt 0
    else py_round
           (NFloat (PyFloat.mul (PyFloat.truediv null_count total)
                      (PyFloat.of_Z 100))) 1 in
  let unique_count := len (remove_dups non_empty) in
  let numeric_values := omap parse_number non_empty in
  let categorical :=
    Categorical (most_common 5 (counter non_empty)) (take 3 non_empty) in
  stats ←
    match numeric_values with
    | x :: xs =>
        if Qltb (inject_Z (len non_empty) * (1 # 2)) (inject_Z (len numeric_values))
        then
          let mean := py_round (NFloat (statistics_mean numeric_values)) 2 in
          let median := py_round (NFloat (statistics_median numeric_values)) 2 in
          stdev ←
            (if 1 <? len numeric_values
             then sd ← statistics_stdev numeric_values;
                  Ok (Some (py_round (NFloat sd) 2))
             else Ok None);
          Ok (Numeric (py_min x xs) (py_max x xs) mean median stdev)
        else Ok categorical
    | [] => Ok categorical
    end;
  Ok {| column := col_name; total_rows := total; non_null := len non_empty;
        null_count := null_count; null_pct := null_pct;
        unique_count := unique_count; stats := stats |}.

(** The loop over [headers], on the dictionary [profiles]. *)
Fixpoint profile_columns (headers : list string) (rows : list row)
    (profiles : dict profile) : result (dict profile) :=
  match headers with
  | [] => Ok profiles
  | col :: headers' =>
      let values := (fun r => dict_get r col (VStr "")) <$> rows in
      p ← profile_column values col;
      profile_columns headers' rows (dict_set col p profiles)
  end.

Definition profile_dataset (headers : list string) (rows : list row)
  : result (dict profile) :=
  profile_columns headers rows [].

(** ** [aggregate] *)

(** [float(row.get(agg_col, 0))] inside [try]; [None] stands for the
    [continue] of the handler of [ValueError] and [TypeError]. *)
Definition agg_value_of (agg_col : string) (r : row) : option PyFloat.float :=
  match dict_lookup agg_col r with
  | None => Some (PyFloat.of_Z 0)
  | Some (VStr s) => PyFloat.of_str s
  | Some VNone => None
  end.

(** [groups.setdefault(key, []).append(val)] *)
Fixpoint group_append (key : pyval) (val : PyFloat.float)
    (groups : list (pyval * list PyFloat.float))
  : list (pyval * list PyFloat.float) :=
  match groups with
  | [] => [(key, [val])]
  | (k, vs) :: groups' =>
      if decide (key = k) then (k, vs ++ [val]) :: groups'
      else (k, vs) :: group_append key val groups'
  end.

(** The first loop of [aggregate]. *)
Definition collect_groups (rows : list row) (group_by agg_col : string)
  : list (pyval * list PyFloat.float) :=
  fold_left
    (fun groups r =>
       let key := dict_get r group_by (VStr "") in
       match agg_value_of agg_col r with
       | Some val => group_append key val groups
       | None => groups
       end)
    rows [].

Definition group_le (a b : pyval * list PyFloat.float) : Prop :=
  match a.1, b.1 with
  | VStr x, VStr y => String.le x y
  | VNone, _ => True
  | VStr _, VNone => False
  end.

#[global] Instance group_le_dec : RelDecision group_le.
Proof. intros [[|x] ?] [[|y] ?]; unfold group_le; simpl; apply _. Defined.

(** [sorted(groups.items())]: the keys of the groups differ, so two
    items are compared by their keys; [None] cannot be compared with a
    [str], and a list of one item is sorted without a comparison. *)
Definition sorted_groups (groups : list (pyval * list PyFloat.float))
  : result (list (pyval * list PyFloat.float)) :=
  match groups with
  | [] | [_] => Ok groups
  | _ =>
      if bool_decide (Exists (fun g => g.1 = VNone) groups)
      then Raise TypeError
      else Ok (merge_sort group_le groups)
  end.

(** A value of a record of the result: the group key or a number. *)
Inductive agg_cell : Type :=
| CKey (k : pyval)
| CNum (n : num).

(** The dictionary of the five reductions and its [.get(agg_func,
    sum(values))]; all five are computed, and on an empty list the
    first one that raises is [statistics.mean]. *)
Definition reduce (agg_func : string) (values : list PyFloat.float)
  : result num :=
  match values with
  | [] => Raise StatisticsError
  | x :: xs =>
      Ok (dict_get
            [("sum", NFloat (py_sum values));
             ("mean", NFloat (statistics_mean values));
             ("count", NInt (len values));
             ("min", NFloat (py_min x xs));
             ("max", NFloat (py_max x xs))]
            agg_func (NFloat (py_sum values)))
  end.

(** The second loop of [aggregate]. *)
Fixpoint agg_records (group_by agg_col agg_func : string)
    (groups : list (pyval * list PyFloat.float))
  : result (list (dict agg_cell)) :=
  match groups with
  | [] => Ok []
  | (key, values) :: groups' =>
      agg_value ← reduce agg_func values;
      let record :=
        dict_set "count" (CNum (NInt (len values)))
          (dict_set (agg_func ++ "_" ++ agg_col) (CNum (py_round agg_value 2))
             (dict_set group_by (CKey key) [])) in
      rest ← agg_records group_by agg_col agg_func groups';
      Ok (record :: rest)
  end.

Definition aggregate (rows : list row) (group_by agg_col agg_func : string)
  : result (list (dict agg_cell)) :=
  let groups := collect_groups rows group_by agg_col in
  sorted ← sorted_groups groups;
  agg_records group_by agg_col agg_func sorted.

End WithLibrary.

(** ** [save_dataset]

    The file system keeps, for each path, what was written to it; the
    text of the file is determined by the records and by the layout.
    [parents_made] lists the paths whose parent directory [mkdir] has
    made, which happens before the format is looked at. *)

Inductive file_content (R : Type) : Type :=
| JsonLines (records : list R)
| JsonIndented (records : list R).
Arguments JsonLines {R} records.
Arguments JsonIndented {R} records.

Record file_system (R : Type) : Type := FileSystem {
  parents_made : list string;
  files : list (string * file_content R);
}.
Arguments FileSystem {R} parents_made files.
Arguments parents_made {R} f.
Arguments files {R} f.

Definition save_dataset {R} (records : list R) (output_path format : string)
    (fs : file_system R) : result unit * file_system R :=
  let fs := FileSystem (output_path :: parents_made fs) (files fs) in
  if decide (format = "jsonl") then
    (Ok (), FileSystem (parents_made fs)
              ((output_path, JsonLines records) :: files fs))
  else if decide (format = "json") then
    (Ok (), FileSystem (parents_made fs)
              ((output_path, JsonIndented records) :: files fs))
  else (Raise (ValueError ("Unknown format: " ++ format)), fs).

(** ** Row objects in the store

    A list of rows is a list of references to [dict] objects, and two
    entries may refer to one object.  The functions above compute on
    the values of the rows; the programs below are the same functions
    with the objects made explicit: which ones they read, which ones
    they create and which ones they assign to. *)

Abbreviation loc := positive.
Abbreviation heap := (gmap loc row).

(** A computation on the store; an exception leaves the store as it is
    at the point where it is raised. *)
Definition M (A : Type) : Type := heap -> result A * heap.

#[global] Instance M_ret : MRet M := fun _ a h => (Ok a, h).
#[global] Instance M_bind : MBind M := fun _ _ f m h =>
  match m h with
  | (Ok a, h') => f a h'
  | (Raise e, h') => (Raise e, h')
  end.

(** The value of a row object.  A reference to no object of the store
    reads as the empty [dict]; the theorems take rows of the store. *)
Definition load (l : loc) : M row := fun h => (Ok (default [] (h !! l)), h).

(** An assignment to an item of the object [l], which becomes [d]. *)
Definition store (l : loc) (d : row) : M unit := fun h => (Ok (), <[l := d]> h).

(** A new object. *)
Definition alloc (d : row) : M loc := fun h =>
  let l := fresh (dom h) in (Ok l, <[l := d]> h).

(** A computation on values, inside a program. *)
Definition lift {A} (r : result A) : M A := fun h => (r, h).

(** The values of a list of rows in a store. *)
Definition deref (h : heap) (ls : list loc) : list row :=
  (fun l => default [] (h !! l)) <$> ls.

(** [[f(row) for row in rows]], each value a new object *)
Fixpoint alloc_each (f : row -> row) (rows : list loc) : M (list loc) :=
  match rows with
  | [] => mret []
  | l :: rows' =>
      d ← load l;
      l' ← alloc (f d);
      ls ← alloc_each f rows';
      mret (l' :: ls)
  end.

(** [for row in cleaned: ... row[k] = row[k].strip()] *)
Fixpoint strip_each (cleaned : list loc) : M unit :=
  match cleaned with
  | [] => mret ()
  | l :: cleaned' =>
      d ← load l;
      _ ← store l (strip_row d);
      strip_each cleaned'
  end.

(** The loop that fills [seen] and [unique]. *)
Fixpoint dedup_each (cleaned : list loc)
    (seen : gset (list (string * pyval))) (unique : list loc) : M (list loc) :=
  match cleaned with
  | [] => mret unique
  | l :: cleaned' =>
      d ← load l;
      let key := row_key d in
      if decide (key ∈ seen) then dedup_each cleaned' seen unique
      else dedup_each cleaned' ({[key]} ∪ seen) (unique ++ [l])
  end.

(** The loop over [cleaned] for one column of [fill_nulls]. *)
Fixpoint fill_each (col : string) (fill : fill_value) (cleaned : list loc)
    (count : nat) : M nat :=
  match cleaned with
  | [] => mret count
  | l :: cleaned' =>
      d ← load l;
      null ← lift (cell_is_null col d);
      if null : bool then
        _ ← store l (dict_set col (VStr (py_str fill)) d);
        fill_each col fill cleaned' (S count)
      else fill_each col fill cleaned' count
  end.

Fixpoint fill_columns_st (fills : dict fill_value) (cleaned : list loc)
    (changes : list change) : M (list change) :=
  match fills with
  | [] => mret changes
  | (col, fill) :: fills' =>
      count ← fill_each col fill cleaned O;
      fill_columns_st fills' cleaned
        (match count with
         | O => changes
         | S _ => changes ++ [FilledNulls count col fill]
         end)
  end.

Definition clean_dataset_st (headers : list string) (rows : list loc)
    (config : option config) : M (list loc * list change) :=
  let config := default empty_config config in
  cleaned ← alloc_each id rows;
  let changes : list change := [] in
  '(cleaned, changes) ←
    (if default true (strip_whitespace config)
     then _ ← strip_each cleaned; mret (cleaned, changes ++ [Stripped])
     else mret (cleaned, changes));
  '(cleaned, changes) ←
    (if default true (remove_duplicates config)
     then
       unique ← dedup_each cleaned ∅ [];
       let removed := (length cleaned - length unique)%nat in
       mret (unique,
             match removed with
             | O => changes
             | S _ => changes ++ [RemovedDuplicates removed]
             end)
     else mret (cleaned, changes));
  changes ← fill_columns_st (default [] (fill_nulls config)) cleaned changes;
  let drop_cols := default [] (drop_columns config) in
  '(cleaned, changes) ←
    match drop_cols with
    | [] => mret (cleaned, changes)
    | _ :: _ =>
        cleaned' ← alloc_each (drop_row drop_cols) cleaned;
        mret (cleaned', changes ++ [DroppedColumns drop_cols])
    end;
  let rename := default [] (rename_columns config) in
  '(cleaned, changes) ←
    match rename with
    | [] => mret (cleaned, changes)
    | _ :: _ =>
        cleaned' ← alloc_each (rename_row rename) cleaned;
        mret (cleaned', changes ++ [RenamedColumns rename])
    end;
  mret (cleaned, changes).

(** [[row.get(col, "") for row in rows]] *)
Fixpoint column_values (col : string) (rows : list loc) : M (list pyval) :=
  match rows with
  | [] => mret []
  | l :: rows' =>
      d ← load l;
      vs ← column_values col rows';
      mret (dict_get d col (VStr "") :: vs)
  end.

Section ProgramsWithLibrary.
Context {lib : NumericLib}.

Fixpoint profile_columns_st (headers : list string) (rows : list loc)
    (profiles : dict profile) : M (dict profile) :=
  match headers with
  | [] => mret profiles
  | col :: headers' =>
      values ← column_values col rows;
      p ← lift (profile_column values col);
      profile_columns_st headers' rows (dict_set col p profiles)
  end.

Definition profile_dataset_st (headers : list string) (rows : list loc)
  : M (dict profile) :=
  profile_columns_st headers rows [].

Fixpoint collect_groups_st (rows : list loc) (group_by agg_col : string)
    (groups : list (pyval * list PyFloat.float))
  : M (list (pyval * list PyFloat.float)) :=
  match rows with
  | [] => mret groups
  | l :: rows' =>
      d ← load l;
      let key := dict_get d group_by (VStr "") in
      match agg_value_of agg_col d with
      | Some val => collect_groups_st rows' group_by agg_col (group_append key val groups)
      | None => collect_groups_st rows' group_by agg_col groups
      end
  end.

Definition aggregate_st (rows : list loc) (group_by agg_col agg_func : string)
  : M (list (dict agg_cell)) :=
  groups ← collect_groups_st rows group_by agg_col [];
  lift (sorted ← sorted_groups groups;
        agg_records group_by agg_col agg_func sorted).

End ProgramsWithLibrary.

(** ** The statements of the specification, as definitions *)

(** *** The five transforms of the cleaning pipeline *)

Definition strip_transform (cfg : config) (rows : list row) : list row :=
  if default true (strip_whitespace cfg) then strip_row <$> rows else rows.

Definition dedup_transform (cfg : config) (rows : list row) : list row :=
  if default true (remove_duplicates cfg) then remove_duplicate_rows rows
  else rows.

Definition fill_transform (cfg : config) (rows : list row) : result (list row) :=
  fst <$> fill_columns (default [] (fill_nulls cfg)) rows [].

Definition drop_transform (cfg : config) (rows : list row) : list row :=
  match default [] (drop_columns cfg) with
  | [] => rows
  | drop_cols => drop_row drop_cols <$> rows
  end.

Definition rename_transform (cfg : config) (rows : list row) : list row :=
  match default [] (rename_columns cfg) with
  | [] => rows
  | rename => rename_row rename <$> rows
  end.

(** Strip, then deduplicate, then fill, then drop, then rename, each on
    the rows that the one before it returns. *)
Definition pipeline (cfg : config) (rows : list row) : result (list row) :=
  filled ← fill_transform cfg (dedup_transform cfg (strip_transform cfg rows));
  Ok (rename_transform cfg (drop_transform cfg filled)).

(** *** Rows as unordered sets of (column, value) pairs *)

Definition same_items (a b : row) : Prop := forall kv, kv ∈ a <-> kv ∈ b.

#[global] Instance same_items_dec : RelDecision same_items.
Proof.
  intros a b.
  destruct (decide (Forall (fun kv => kv ∈ b) a)) as [Hab|Hab];
    [destruct (decide (Forall (fun kv => kv ∈ a) b)) as [Hba|Hba]|].
  - left. intros kv. rewrite Forall_forall in Hab, Hba. split; auto.
  - right. intros H. apply Hba, Forall_forall. intros kv. apply H.
  - right. intros H. apply Hab, Forall_forall. intros kv. apply H.
Defined.

(** The rows that are not equal, as sets of pairs, to a row of
    [earlier] or to a row before them in the list. *)
Fixpoint keep_first (earlier : list row) (rows : list row) : list row :=
  match rows with
  | [] => []
  | r :: rows' =>
      if decide (Exists (same_items r) earlier) then keep_first earlier rows'
      else r :: keep_first (earlier ++ [r]) rows'
  end.

Definition first_occurrences (rows : list row) : list row := keep_first [] rows.

(** *** The change log *)

(** The cell of [col] in [r] is one that the fill step fills. *)
Definition null_cell (col : string) (r : row) : bool :=
  match dict_lookup col r with
  | None => true
  | Some (VStr s) => negb (PyStr.truthy (PyStr.strip s))
  | Some VNone => false
  end.

Definition fill_cell (col : string) (fill : fill_value) (r : row) : row :=
  if null_cell col r then dict_set col (VStr (py_str fill)) r else r.

(** The entries of the fill step: one for each configured column, in the
    order of the configuration, in which a cell is filled. *)
Fixpoint fill_entries (fills : dict fill_value) (rows : list row) : list change :=
  match fills with
  | [] => []
  | (col, fill) :: fills' =>
      match length (filter (fun r => null_cell col r = true) rows) with
      | O => []
      | S n => [FilledNulls (S n) col fill]
      end ++ fill_entries fills' (fill_cell col fill <$> rows)
  end.

Inductive step : Type :=
| StepStrip | StepDedup | StepFill | StepDrop | StepRename.

Definition step_of (c : change) : step :=
  match c with
  | Stripped => StepStrip
  | RemovedDuplicates _ => StepDedup
  | FilledNulls _ _ _ => StepFill
  | DroppedColumns _ => StepDrop
  | RenamedColumns _ => StepRename
  end.

(** The rows that a step receives and the rows that it returns, in a
    run of the pipeline that does not raise. *)
Definition step_rows (cfg : config) (rows : list row) (s : step)
  : result (list row * list row) :=
  let r1 := strip_transform cfg rows in
  let r2 := dedup_transform cfg r1 in
  r3 ← fill_transform cfg r2;
  let r4 := drop_transform cfg r3 in
  let r5 := rename_transform cfg r4 in
  Ok match s with
     | StepStrip => (rows, r1)
     | StepDedup => (r1, r2)
     | StepFill => (r2, r3)
     | StepDrop => (r3, r4)
     | StepRename => (r4, r5)
     end.

(** The change log as the specification states it: a step has an entry
    exactly when it changed its rows, except the strip step, which has
    one whenever it is enabled. *)
Definition log_reports_changes (cfg : config) (rows : list row) : Prop :=
  forall out log,
    clean_dataset [] rows (Some cfg) = Ok (out, log) ->
    forall s,
      (exists c, c ∈ log /\ step_of c = s) <->
      (s = StepStrip /\ default true (strip_whitespace cfg) = true)
      \/ (s <> StepStrip /\
          exists r_in r_out, step_rows cfg rows s = Ok (r_in, r_out) /\ r_in <> r_out).

(** *** Aggregation *)

(** The content of the value column of [r] parses as a number. *)
Definition value_parses (agg_col : string) (r : row) : bool :=
  match dict_lookup agg_col r with
  | Some (VStr s) => bool_decide (is_Some (PyFloat.of_str s))
  | _ => false
  end.

(** The row [r] takes part in the reduction of its group. *)
Definition included (agg_col : string) (r : row) : bool :=
  bool_decide (is_Some (agg_value_of agg_col r)).

(** The rows of the group of [key]. *)
Definition group_rows (rows : list row) (group_by : string) (key : pyval)
  : list row :=
  filter (fun r => dict_get r group_by (VStr "") = key) rows.

(** The count of each record is the number of rows of its group whose
    value parses. *)
Definition counts_parsed_rows {lib : NumericLib} (rows : list row)
    (group_by agg_col agg_func : string) : Prop :=
  forall out record key,
    aggregate rows group_by agg_col agg_func = Ok out ->
    record ∈ out ->
    dict_lookup group_by record = Some (CKey key) ->
    dict_lookup "count" record =
      Some (CNum (NInt (len (filter (fun r => value_parses agg_col r = true)
                               (group_rows rows group_by key))))).

(** The reducers that [aggregate] knows. *)
Definition known_reducers : list string := ["sum"; "mean"; "count"; "min"; "max"].

(** ** Auxiliary definitions of the proofs *)

(** A text that does not begin with a white-space character. *)
Definition starts_clean (s : string) : Prop :=
  match s with
  | EmptyString => True
  | String c _ => PyStr.isspace c = false
  end.

(** The rows that the loop of the deduplication appends to [unique]
    when it starts with the set [seen]. *)
Fixpoint dedup_from (seen : gset (list (string * pyval))) (rows : list row)
  : list row :=
  match rows with
  | [] => []
  | r :: rows' =>
      if decide (row_key r ∈ seen) then dedup_from seen rows'
      else r :: dedup_from ({[row_key r]} ∪ seen) rows'
  end.

(** A configuration in which nothing but the strip step and the
    deduplication can be enabled. *)
Definition only_strip_and_dedup (config : option config) : Prop :=
  let cfg := default empty_config config in
  default [] (fill_nulls cfg) = []
  /\ default [] (drop_columns cfg) = []
  /\ default [] (rename_columns cfg) = [].

(** The entries of the change log of the steps that do not depend on
    the rows of the fill step. *)
Definition strip_log (cfg : config) : list change :=
  if default true (strip_whitespace cfg) then [Stripped] else [].

Definition dedup_log (cfg : config) (rows : list row) : list change :=
  if default true (remove_duplicates cfg) then
    match (length rows - length (remove_duplicate_rows rows))%nat with
    | O => []
    | S n => [RemovedDuplicates (S n)]
    end
  else [].

Definition drop_log (cfg : config) : list change :=
  match default [] (drop_columns cfg) with
  | [] => []
  | drop_cols => [DroppedColumns drop_cols]
  end.

Definition rename_log (cfg : config) : list change :=
  match default [] (rename_columns cfg) with
  | [] => []
  | rename => [RenamedColumns rename]
  end.

(** The cell of [col] in [r] is missing or a [str]. *)
Definition fillable (col : string) (r : row) : bool :=
  match dict_lookup col r with
  | Some VNone => false
  | _ => true
  end.

(** The rows after the fill step, when no cell stops it. *)
Definition fill_rows (fills : dict fill_value) (rows : list row) : list row :=
  fold_left (fun rows cf => fill_cell cf.1 cf.2 <$> rows) fills rows.

(** No cell stops the fill step: each column is missing or a [str] in
    each row, at the time when the column is filled. *)
Fixpoint all_fillable (fills : dict fill_value) (rows : list row) : bool :=
  match fills with
  | [] => true
  | (col, fill) :: fills' =>
      forallb (fillable col) rows
      && all_fillable fills' (fill_cell col fill <$> rows)
  end.

#[global] Instance dict_wf_dec {V} `{EqDecision V} (d : dict V) : Decision (dict_wf d).
Proof. unfold dict_wf. apply _. Defined.

(** *** Profiles *)

(** The non-null values of a column: the strings that are not empty
    after stripping. *)
Definition non_null_values (values : list pyval) : list string :=
  omap (fun v =>
          match v with
          | VStr s => if decide (PyStr.strip s = "") then None else Some s
          | VNone => None
          end) values.

(** The value parses as a number once its commas are removed. *)
Definition parses_as_number (v : string) : Prop :=
  is_Some (PyFloat.of_str (PyStr.remove_commas v)).

#[global] Instance parses_as_number_dec v : Decision (parses_as_number v).
Proof. unfold parses_as_number. apply _. Defined.

(** *** Groups *)

(** The values that the rows of the group of [key] contribute to its
    reduction, in the order of the rows. *)
Definition group_values (rows : list row) (group_by agg_col : string)
    (key : pyval) : list PyFloat.float :=
  omap (agg_value_of agg_col) (group_rows rows group_by key).

(** [groups.get(key)] *)
Fixpoint group_lookup (key : pyval) (groups : list (pyval * list PyFloat.float))
  : option (list PyFloat.float) :=
  match groups with
  | [] => None
  | (k, vs) :: groups' =>
      if decide (key = k) then Some vs else group_lookup key groups'
  end.

(** The record of one group in the result of [aggregate]. *)
Definition agg_record (group_by agg_col agg_func : string) (key : pyval)
    (agg_value : num) (count : Z) : dict agg_cell :=
  dict_set "count" (CNum (NInt count))
    (dict_set (agg_func ++ "_" ++ agg_col) (CNum (py_round agg_value 2))
       (dict_set group_by (CKey key) [])).

Fixpoint has_underscore (s : string) : bool :=
  match s with
  | EmptyString => false
  | String c s' => Ascii.eqb c "_"%char || has_underscore s'
  end.

(** *** Stores *)

(** The objects of [h] are in [h'] with the values that they have in [h]. *)
Definition heap_extends (h h' : heap) : Prop :=
  forall l, l ∈ dom h -> h' !! l = h !! l.

(** The rows [ls] are objects of [h] with the values [ds]. *)
Definition holds (h : heap) (ls : list loc) (ds : list row) : Prop :=
  Forall2 (fun l d => h !! l = Some d) ls ds.

(** The rows [cleaned] are distinct objects made after the store [h0],
    they hold the values [ds] in [h], and the objects of [h0] are
    unchanged in [h]. *)
Definition cleaned_inv (h0 h : heap) (cleaned : list loc) (ds : list row) : Prop :=
  heap_extends h0 h
  /\ NoDup cleaned
  /\ Forall (fun l => l ∉ dom h0) cleaned
  /\ holds h cleaned ds.

(** ** The sample of the demonstration

    The rows that the [--demo] mode of the script reads, and the
    configuration with which it cleans them. *)

Definition employee (name department salary city start_date : string) : row :=
  [("name", VStr name); ("department", VStr department);
   ("salary", VStr salary); ("city", VStr city);
   ("start_date", VStr start_date)].

Definition demo_rows : list row :=
  [employee "John Smith" "Engineering" "95000" "San Francisco" "2022-03-15";
   employee "Sarah Johnson" "Marketing" "82000" "New York" "2021-06-01";
   employee "Michael Chen" "Engineering" "105000" "San Francisco" "2020-11-20";
   employee "Emily Davis" "Marketing" "78000" "New York" "2023-01-10";
   employee "John Smith" "Engineering" "95000" "San Francisco" "2022-03-15";
   employee "Robert Wilson" "Sales" "" "Chicago" "2022-08-05";
   employee "Lisa Anderson" "Engineering" "98000" "" "2021-04-12";
   employee "David Brown" "Sales" "72000" "Chicago" "2023-03-01";
   employee "Jennifer Lee" "Marketing" "85000" "New York" "";
   employee "Tom Harris" "Engineering" "110000" "San Francisco" "2020-07-18"].

Definition demo_config : config :=
  Config (Some true) (Some true)
    (Some [("city", FStr "Unknown"); ("start_date", FStr "N/A")]) None None.

(** *** Properties of lists of rows *)

(** No two rows of the list hold the same set of (column, value) pairs. *)
Definition distinct_rows (rows : list row) : Prop :=
  forall i j ri rj,
    rows !! i = Some ri -> rows !! j = Some rj -> same_items ri rj -> i = j.

(** Each text of the row is as [str.strip] leaves it. *)
Definition stripped_row (r : row) : Prop :=
  forall k s, (k, VStr s) ∈ r -> PyStr.strip s = s.

(** No cell of the row under one of the columns [cols] is [None]. *)
Definition no_none_cell (cols : list string) (r : row) : Prop :=
  forall col, col ∈ cols -> dict_lookup col r <> Some VNone.

(** [rename.get(k, k)] *)
Definition new_name (rename : dict string) (k : string) : string :=
  dict_get rename k k.

(** The row has a text under [col], and one that is not blank if the
    text of [fill] is not blank. *)
Definition has_text (col : string) (fill : fill_value) (r : row) : Prop :=
  exists s, dict_lookup col r = Some (VStr s)
            /\ (PyStr.strip (py_str fill) <> "" -> PyStr.strip s <> "").

(** The text is stripped, or it is the text of a fill value. *)
Definition stripped_or_filled (fills : dict fill_value) (s : string) : Prop :=
  PyStr.strip s = s \/ exists col fill, (col, fill) ∈ fills /\ s = py_str fill.

(** *** Counts *)

(** The number of occurrences of [s] in [l]. *)
Definition occurrences (s : string) (l : list string) : Z :=
  len (filter (fun x => x = s) l).

(** *** Records of an aggregation *)

(** The order of two keys that follow each other in a sorted result. *)
Definition key_lt (a b : pyval) : Prop :=
  match a, b with
  | VStr x, VStr y => String.le x y /\ x <> y
  | _, _ => False
  end.

(** [record["count"]] *)
Definition record_count (record : dict agg_cell) : Z :=
  match dict_lookup "count" record with
  | Some (CNum (NInt n)) => n
  | _ => 0
  end.

(** The sum of the counts of the records. *)
Definition total_count (out : list (dict agg_cell)) : Z :=
  foldr (fun record acc => record_count record + acc) 0 out.

(** The number of values in the groups. *)
Definition group_sizes (groups : list (pyval * list PyFloat.float)) : Z :=
  foldr (fun grp acc => len grp.2 + acc) 0 groups.

(** ** API ingestion: [fetch_paginated] and [normalize_records]

    The values that [json.loads] returns. *)

#[local] Unset Elimination Schemes.
Inductive json : Type :=
| JNull
| JBool (b : bool)
| JInt (z : Z)
| JFloat (x : PyFloat.float)
| JStr (s : string)
| JList (items : list json)
| JDict (items : list (string * json)).
#[local] Set Elimination Schemes.

(** The truth value of an object. *)
Definition json_truthy (v : json) : bool :=
  match v with
  | JNull => false
  | JBool b => b
  | JInt z => negb (z =? 0)
  | JFloat (S754_zero _) => false
  | JFloat _ => true
  | JStr s => PyStr.truthy s
  | JList [] => false
  | JList _ => true
  | JDict [] => false
  | JDict _ => true
  end.

(** The items that [all_items.extend(v)] appends: the items of a list,
    the keys of a [dict], the characters of a [str]; no other object
    can be iterated. *)
Definition json_iter (v : json) : result (list json) :=
  match v with
  | JList items => Ok items
  | JDict items => Ok (JStr <$> items.*1)
  | JStr s => Ok ((fun c => JStr (String c "")) <$> list_ascii_of_string s)
  | _ => Raise TypeError
  end.

(** What a call gives that passes on the exceptions of a function that
    it is given: a value, an exception [e] of that function, or an
    exception of its own. *)
Inductive outcome (E A : Type) : Type :=
| Returned (a : A)
| Passed (e : E)
| Raised (e : exn).
Arguments Returned {E A} a.
Arguments Passed {E A} e.
Arguments Raised {E A} e.

(** What [fetch_paginated] does besides computing: its requests and
    its pauses. *)
Inductive event : Type :=
| Request (url : string)
| Sleep (delay : PyFloat.float).

(** ["?" in base_url] and the like *)
Fixpoint has_char (c : ascii) (s : string) : bool :=
  match s with
  | EmptyString => false
  | String c' s' => Ascii.eqb c' c || has_char c s'
  end.

(** [range(1, max_pages + 1)] *)
Definition page_range (max_pages : Z) : list Z :=
  (fun i => Z.of_nat i) <$> seq 1 (Z.to_nat max_pages).

(** What one page adds to [all_items]: [None] stands for [break]. *)
Definition page_items (data : json) : option (result (list json)) :=
  match data with
  | JList [] => None
  | JList items => Some (Ok items)
  | JDict d =>
      let items :=
        dict_get d "results" (dict_get d "items" (dict_get d "data" (JList []))) in
      if json_truthy items then Some (json_iter items) else None
  | _ => None
  end.

Section FetchPaginated.

(** [fetch_json] answers a request with the decoded body or with an
    exception; [time.sleep] raises for a delay beyond the range of the
    clock. *)
Context {E : Type}.
Variable fetch_json : string -> option (dict string) -> E + json.
Variable time_sleep : PyFloat.float -> result unit.

Variables (base_url page_param per_page_param : string).
Variables (per_page max_pages : Z).
Variable headers : option (dict string).
Variable delay : PyFloat.float.

Definition separator : string := if has_char "?" base_url then "&" else "?".

(** The URL of one page. *)
Definition page_url (page : Z) : string :=
  base_url ++ separator ++ page_param ++ "=" ++ py_str (FInt page)
  ++ "&" ++ per_page_param ++ "=" ++ py_str (FInt per_page).

(** The loop over the pages, on [all_items] and on the events so far. *)
Fixpoint fetch_pages (pages : list Z) (all_items : list json) (trace : list event)
  : outcome E (list json) * list event :=
  match pages with
  | [] => (Returned all_items, trace)
  | page :: pages' =>
      let url := page_url page in
      let trace := trace ++ [Request url] in
      match fetch_json url headers with
      | inl e => (Passed e, trace)
      | inr data =>
          match page_items data with
          | None => (Returned all_items, trace)
          | Some (Raise e) => (Raised e, trace)
          | Some (Ok items) =>
              let all_items := all_items ++ items in
              if PyFloat.ltb (PyFloat.of_Z 0) delay then
                let trace := trace ++ [Sleep delay] in
                match time_sleep delay with
                | Ok _ => fetch_pages pages' all_items trace
                | Raise e => (Raised e, trace)
                end
              else fetch_pages pages' all_items trace
          end
      end
  end.

Definition fetch_paginated : outcome E (list json) * list event :=
  fetch_pages (page_range max_pages) [] [].

(** The page has items, which the loop appends to [all_items]. *)
Definition good_page (page : Z) (items : list json) : Prop :=
  exists data,
    fetch_json (page_url page) headers = inr data
    /\ page_items data = Some (Ok items).

(** The events of a page after which the loop goes on. *)
Definition page_events (page : Z) : list event :=
  Request (page_url page)
  :: (if PyFloat.ltb (PyFloat.of_Z 0) delay then [Sleep delay] else []).

(** The pause after a page, if there is one, returns. *)
Definition sleep_returns : Prop :=
  PyFloat.ltb (PyFloat.of_Z 0) delay = true -> time_sleep delay = Ok ().

End FetchPaginated.

(** [record.get(k)]: only a [dict] has the method. *)
Definition record_get (record : json) (k : string) : result json :=
  match record with
  | JDict d => Ok (dict_get d k JNull)
  | _ => Raise AttributeError
  end.

(** [{k: record.get(k) for k in fields}], from the items [acc]. *)
Fixpoint project (record : json) (fields : list string) (acc : dict json)
  : result (dict json) :=
  match fields with
  | [] => Ok acc
  | k :: fields' =>
      v ← record_get record k;
      project record fields' (dict_set k v acc)
  end.

(** [[{...} for record in records]] *)
Fixpoint project_each (records : list json) (fields : list string)
  : result (list json) :=
  match records with
  | [] => Ok []
  | record :: records' =>
      d ← project record fields [];
      rest ← project_each records' fields;
      Ok (JDict d :: rest)
  end.

(** [fields] is [None] or a list; both [None] and the empty list are
    false. *)
Definition normalize_records (records : list json) (fields : option (list string))
  : result (list json) :=
  match records with
  | [] => Ok []
  | _ :: _ =>
      match fields with
      | Some ((_ :: _) as fields) => project_each records fields
      | _ => Ok records
      end
  end.

(** A server for the examples: two items on the first page of
    [http://api.test/items], then a page that wraps an empty list of
    results; a number as the results of [http://api.test/count];
    nothing elsewhere. *)
Definition test_server (url : string) (headers : option (dict string))
  : string + json :=
  if decide (url = "http://api.test/items?page=1&per_page=2") then
    inr (JList [JInt 1; JInt 2])
  else if decide (url = "http://api.test/items?page=2&per_page=2") then
    inr (JDict [("results", JList []); ("items", JList [JInt 9])])
  else if decide (url = "http://api.test/count?page=1&per_page=2") then
    inr (JDict [("results", JInt 5)])
  else inl "HTTP 404".

(** A clock whose pauses return. *)
Definition test_sleep (delay : PyFloat.float) : result unit := Ok ().

(** [0.5] *)
Definition half_second : PyFloat.float := S754_finite false 4503599627370496 (-53).

(** The object is a [dict]. *)
Definition is_dict (v : json) : bool :=
  match v with JDict _ => true | _ => false end.

(** The requests among the events. *)
Definition requests (trace : list event) : list string :=
  omap (fun ev => match ev with Request url => Some url | Sleep _ => None end) trace.

(** The pauses among the events. *)
Definition pauses (trace : list event) : list PyFloat.float :=
  omap (fun ev => match ev with Sleep d => Some d | Request _ => None end) trace.

(* ===================================================================== *)
(** * Part II. Lemmas and theorems *)
(* ===================================================================== *)

(** ** Strings *)

Section PyStrFacts.
Import PyStr.

Lemma rstrip_idemp s : rstrip (rstrip s) = rstrip s.
Proof.
  induction s as [|c s IH]; simpl; [reflexivity|].
  destruct (rstrip s) as [|a r] eqn:E.
  - destruct (isspace c) eqn:Hc; simpl; [reflexivity|]. by rewrite Hc.
  - change (rstrip (String c (String a r))) with
      (match rstrip (String a r) with
       | EmptyString => if isspace c then EmptyString else String c EmptyString
       | r' => String c r'
       end).
    by rewrite IH.
Qed.

Lemma lstrip_starts_clean s : starts_clean (lstrip s).
Proof.
  induction s as [|c s IH]; simpl; [exact I|].
  destruct (isspace c) eqn:Hc; [exact IH|exact Hc].
Qed.

Lemma rstrip_starts_clean s : starts_clean s -> starts_clean (rstrip s).
Proof.
  destruct s as [|c s]; simpl; [auto|]. intros Hc.
  destruct (rstrip s); [by rewrite Hc|done].
Qed.

Lemma lstrip_clean s : starts_clean s -> lstrip s = s.
Proof. destruct s as [|c s]; simpl; [auto|]. by intros ->. Qed.

Lemma strip_idemp s : strip (strip s) = strip s.
Proof.
  unfold strip.
  rewrite (lstrip_clean (rstrip (lstrip s)))
    by apply rstrip_starts_clean, lstrip_starts_clean.
  apply rstrip_idemp.
Qed.

End PyStrFacts.

(** ** The strip step *)

Lemma strip_value_idemp v : strip_value (strip_value v) = strip_value v.
Proof. destruct v; simpl; [done|]. by rewrite strip_idemp. Qed.

Lemma strip_row_idemp r : strip_row (strip_row r) = strip_row r.
Proof.
  unfold strip_row. rewrite <- list_fmap_compose.
  apply list_fmap_ext. intros _ [k v] _. simpl.
  by rewrite strip_value_idemp.
Qed.

(** ** The deduplication *)

Lemma fold_dedup_step rows seen unique :
  (fold_left dedup_step rows (seen, unique)).2 = unique ++ dedup_from seen rows.
Proof.
  revert seen unique. induction rows as [|r rows IH]; intros seen unique; simpl.
  - by rewrite app_nil_r.
  - unfold dedup_step at 2. simpl. case_decide.
    + apply IH.
    + rewrite IH. by rewrite <- app_assoc.
Qed.

Lemma remove_duplicate_rows_eq rows :
  remove_duplicate_rows rows = dedup_from ∅ rows.
Proof. unfold remove_duplicate_rows. by rewrite fold_dedup_step. Qed.

Lemma dedup_from_sublist seen rows : dedup_from seen rows `sublist_of` rows.
Proof.
  revert seen. induction rows as [|r rows IH]; intros seen; simpl.
  - constructor.
  - case_decide; [apply sublist_cons, IH|apply sublist_skip, IH].
Qed.

Lemma dedup_from_keys seen rows r :
  r ∈ dedup_from seen rows -> row_key r ∉ seen.
Proof.
  revert seen. induction rows as [|r' rows IH]; intros seen; simpl.
  - by intros ?%elem_of_nil.
  - case_decide as Hk; [apply IH|].
    intros [->|Hr]%elem_of_cons; [done|].
    apply IH in Hr. intros Hin. apply Hr, elem_of_union. by right.
Qed.

Lemma dedup_from_NoDup seen rows : NoDup (row_key <$> dedup_from seen rows).
Proof.
  revert seen. induction rows as [|r rows IH]; intros seen; simpl.
  - constructor.
  - case_decide; [apply IH|].
    rewrite fmap_cons. constructor; [|apply IH].
    intros (r' & Hk & Hr')%list_elem_of_fmap.
    apply dedup_from_keys in Hr'. apply Hr'.
    rewrite <- Hk. apply elem_of_union. left. by apply elem_of_singleton.
Qed.

(** Rows with distinct keys that are not in [seen] are all kept. *)
Lemma dedup_from_distinct seen rows :
  NoDup (row_key <$> rows) ->
  Forall (fun r => row_key r ∉ seen) rows ->
  dedup_from seen rows = rows.
Proof.
  revert seen. induction rows as [|r rows IH]; intros seen Hnd Hseen; simpl; [done|].
  rewrite fmap_cons in Hnd. apply NoDup_cons in Hnd as [Hr Hnd].
  apply Forall_cons in Hseen as [Hrs Hseen].
  rewrite decide_False by done. f_equal. apply IH; [done|].
  apply Forall_forall. intros r' Hr'.
  rewrite Forall_forall in Hseen. specialize (Hseen r' Hr').
  assert (row_key r' <> row_key r).
  { intros E. apply Hr. rewrite <- E. by apply list_elem_of_fmap_2. }
  rewrite elem_of_union, elem_of_singleton. intros [?|?]; auto.
Qed.

Lemma remove_duplicate_rows_idemp rows :
  remove_duplicate_rows (remove_duplicate_rows rows) = remove_duplicate_rows rows.
Proof.
  rewrite !remove_duplicate_rows_eq.
  apply dedup_from_distinct; [apply dedup_from_NoDup|].
  apply Forall_forall. intros r _. apply not_elem_of_empty.
Qed.

Lemma remove_duplicate_rows_length rows :
  (length (remove_duplicate_rows rows) <= length rows)%nat.
Proof.
  rewrite remove_duplicate_rows_eq. apply sublist_length, dedup_from_sublist.
Qed.

(** The strip step leaves the deduplicated rows of a stripped list as
    they are. *)
Lemma strip_remove_duplicate_rows rows :
  strip_row <$> remove_duplicate_rows (strip_row <$> rows)
  = remove_duplicate_rows (strip_row <$> rows).
Proof.
  rewrite remove_duplicate_rows_eq.
  rewrite <- (list_fmap_id (dedup_from _ _)) at 2.
  apply list_fmap_ext. intros i r Hr. simpl.
  apply list_elem_of_lookup_2 in Hr.
  eapply elem_of_sublist in Hr; [|apply dedup_from_sublist].
  apply list_elem_of_fmap in Hr as (r0 & -> & _).
  apply strip_row_idemp.
Qed.

(** *** Dictionaries as sets of items *)

#[local] Instance item_le_trans : Transitive item_le.
Proof. intros a b c. unfold item_le. apply transitivity. Qed.

#[local] Instance item_le_total : Total item_le.
Proof. intros a b. unfold item_le. apply total, _. Qed.

Lemma dict_wf_NoDup {V} (d : dict V) : dict_wf d -> NoDup d.
Proof. apply NoDup_fmap_1. Qed.

Lemma row_key_Permutation (r : row) : row_key r ≡ₚ r.
Proof. apply merge_sort_Permutation. Qed.

Lemma dict_wf_functional {V} (d : dict V) (k : string) (v1 v2 : V) :
  dict_wf d -> (k, v1) ∈ d -> (k, v2) ∈ d -> v1 = v2.
Proof.
  unfold dict_wf. induction d as [|[k' v'] d IH]; simpl.
  - by intros _ ?%elem_of_nil.
  - intros [Hk Hd]%NoDup_cons H1 H2.
    apply elem_of_cons in H1 as [H1|H1], H2 as [H2|H2]; simplify_eq; auto.
    + destruct Hk. apply list_elem_of_fmap. eexists; split; [|eassumption]. done.
    + destruct Hk. apply list_elem_of_fmap. eexists; split; [|eassumption]. done.
Qed.

(** Two dictionaries have the same sorted items exactly when they hold
    the same set of items. *)
Lemma row_key_same_items (a b : row) :
  dict_wf a -> dict_wf b -> row_key a = row_key b <-> same_items a b.
Proof.
  intros Ha Hb. split.
  - intros E kv.
    rewrite <- (row_key_Permutation a), <- (row_key_Permutation b).
    by rewrite E.
  - intros Hab.
    assert (a ≡ₚ b) as Hp.
    { apply NoDup_Permutation; auto using dict_wf_NoDup. }
    apply (Sorted_unique_strong item_le).
    + intros x1 x2 Hx1 Hx2 H12 H21.
      rewrite row_key_Permutation in Hx1, Hx2.
      rewrite Hp in Hx1.
      assert (x1.1 = x2.1) as Hk by (by apply (anti_symm String.le)).
      destruct x1 as [k v1], x2 as [k' v2]; simpl in Hk; subst k'.
      f_equal. by eapply dict_wf_functional.
    + apply Sorted_merge_sort, _.
    + apply Sorted_merge_sort, _.
    + by rewrite !row_key_Permutation.
Qed.

Lemma same_items_sym a b : same_items a b -> same_items b a.
Proof. intros H kv. symmetry. apply H. Qed.

(** On dictionaries, the loop of the deduplication keeps the first
    occurrences. *)
Lemma dedup_from_keep_first earlier rows seen :
  Forall dict_wf earlier -> Forall dict_wf rows ->
  (forall k, k ∈ seen <-> exists e, e ∈ earlier /\ row_key e = k) ->
  dedup_from seen rows = keep_first earlier rows.
Proof.
  revert earlier seen.
  induction rows as [|r rows IH]; intros earlier seen Hwe Hwr Hseen; simpl; [done|].
  apply Forall_cons in Hwr as [Hr Hwr].
  assert (row_key r ∈ seen <-> Exists (same_items r) earlier) as Hiff.
  { rewrite Hseen, Exists_exists. split.
    - intros (e & He & Hk). exists e. split; [done|].
      apply row_key_same_items; auto.
      rewrite Forall_forall in Hwe. auto.
    - intros (e & He & Hs). exists e. split; [done|].
      apply row_key_same_items; auto using same_items_sym.
      rewrite Forall_forall in Hwe. auto. }
  destruct (decide (row_key r ∈ seen)) as [Hin|Hin].
  - rewrite decide_True by (by apply Hiff). by apply IH.
  - rewrite decide_False by (by rewrite <- Hiff). f_equal.
    apply IH; [apply Forall_app; auto|done|].
    intros k. rewrite elem_of_union, elem_of_singleton, Hseen. split.
    + intros [->|(e & He & Hk)].
      * exists r. split; [|done]. apply elem_of_app. right. by left.
      * exists e. split; [|done]. apply elem_of_app. by left.
    + intros (e & [He| ->%list_elem_of_singleton]%elem_of_app & Hk); eauto.
Qed.

Lemma remove_duplicate_rows_first_occurrences rows :
  Forall dict_wf rows -> remove_duplicate_rows rows = first_occurrences rows.
Proof.
  intros Hw. rewrite remove_duplicate_rows_eq.
  apply dedup_from_keep_first; [constructor|done|].
  intros k. split; [by intros ?%elem_of_empty|].
  intros (e & He & _). by apply elem_of_nil in He.
Qed.

(** ** The fill step *)

Lemma cell_is_null_spec col r :
  cell_is_null col r
  = if fillable col r then Ok (null_cell col r) else Raise AttributeError.
Proof.
  unfold cell_is_null, fillable, null_cell, dict_get.
  destruct (dict_lookup col r) as [[|s]|]; reflexivity.
Qed.

Lemma fill_column_ok col fill rows :
  forallb (fillable col) rows = true ->
  fill_column col fill rows
  = Ok (fill_cell col fill <$> rows,
        length (filter (fun r => null_cell col r = true) rows)).
Proof.
  induction rows as [|r rows IH]; simpl; [done|].
  intros [Hr Hrows]%andb_prop. rewrite cell_is_null_spec, Hr, (IH Hrows). simpl.
  unfold fill_cell. rewrite filter_cons.
  destruct (null_cell col r); reflexivity.
Qed.

Lemma fill_column_raise col fill rows :
  forallb (fillable col) rows = false ->
  fill_column col fill rows = Raise AttributeError.
Proof.
  induction rows as [|r rows IH]; simpl; [done|].
  rewrite cell_is_null_spec. destruct (fillable col r); simpl; [|done].
  intros Hrows. by rewrite (IH Hrows).
Qed.

Lemma fill_columns_spec fills rows changes :
  fill_columns fills rows changes
  = if all_fillable fills rows
    then Ok (fill_rows fills rows, changes ++ fill_entries fills rows)
    else Raise AttributeError.
Proof.
  revert rows changes.
  induction fills as [|[col fill] fills IH]; intros rows changes; simpl.
  - by rewrite app_nil_r.
  - destruct (forallb (fillable col) rows) eqn:Hf; simpl.
    + rewrite (fill_column_ok _ _ _ Hf). simpl. rewrite IH.
      destruct (all_fillable fills _); [|done].
      unfold fill_rows. simpl. do 2 f_equal.
      destruct (length _); simpl; [done|]. by rewrite <- app_assoc.
    + by rewrite (fill_column_raise _ _ _ Hf).
Qed.

(** ** The whole of [clean_dataset] *)

Lemma clean_dataset_spec headers rows config :
  clean_dataset headers rows config
  = let cfg := default empty_config config in
    let r1 := strip_transform cfg rows in
    let r2 := dedup_transform cfg r1 in
    let fills := default [] (fill_nulls cfg) in
    if all_fillable fills r2
    then Ok (rename_transform cfg (drop_transform cfg (fill_rows fills r2)),
             strip_log cfg ++ dedup_log cfg r1 ++ fill_entries fills r2
             ++ drop_log cfg ++ rename_log cfg)
    else Raise AttributeError.
Proof.
  unfold clean_dataset, strip_transform, dedup_transform, drop_transform,
    rename_transform, strip_log, dedup_log, drop_log, rename_log.
  simpl.
  destruct (default true (strip_whitespace _));
    destruct (default true (remove_duplicates _));
    rewrite fill_columns_spec;
    destruct (all_fillable _ _); simpl; try reflexivity;
    destruct (default [] (drop_columns _)); destruct (default [] (rename_columns _));
    simpl; rewrite ?app_nil_r, <- ?app_assoc; simpl; try reflexivity;
    destruct (length _ - length _)%nat; simpl; rewrite <- ?app_assoc; reflexivity.
Qed.

(** ** Dictionaries *)

Lemma dict_lookup_set {V} (k k' : string) (v : V) (d : dict V) :
  dict_lookup k' (dict_set k v d)
  = if decide (k' = k) then Some v else dict_lookup k' d.
Proof.
  induction d as [|[k0 v0] d IH]; simpl.
  - by destruct (decide (k' = k)).
  - destruct (decide (k = k0)) as [->|Hk]; simpl.
    + by destruct (decide (k' = k0)).
    + rewrite IH. destruct (decide (k' = k0)) as [->|?]; [|done].
      by rewrite decide_False.
Qed.



Lemma dict_set_keys_in {V} (k : string) (v : V) (d : dict V) :
  k ∈ d.*1 -> (dict_set k v d).*1 = d.*1.
Proof.
  induction d as [|[k0 v0] d IH]; simpl.
  - by intros ?%elem_of_nil.
  - intros Hin. destruct (decide (k = k0)) as [->|Hk]; simpl; [done|].
    apply elem_of_cons in Hin as [?|Hin]; [done|]. f_equal. by apply IH.
Qed.

Lemma dict_set_keys_fresh {V} (k : string) (v : V) (d : dict V) :
  k ∉ d.*1 -> (dict_set k v d).*1 = d.*1 ++ [k].
Proof.
  induction d as [|[k0 v0] d IH]; simpl; [done|].
  intros [Hk Hin]%not_elem_of_cons.
  rewrite decide_False by done. simpl. f_equal. by apply IH.
Qed.

Lemma dict_set_wf {V} (k : string) (v : V) (d : dict V) :
  dict_wf d -> dict_wf (dict_set k v d).
Proof.
  unfold dict_wf. destruct (decide (k ∈ d.*1)) as [Hin|Hin].
  - by rewrite dict_set_keys_in.
  - rewrite dict_set_keys_fresh by done.
    intros Hd. apply NoDup_app. split_and!; [done| |apply NoDup_singleton].
    by intros x Hx ->%list_elem_of_singleton.
Qed.

Lemma strip_row_keys r : (strip_row r).*1 = r.*1.
Proof.
  unfold strip_row. rewrite <- list_fmap_compose.
  apply list_fmap_ext. by intros _ [k v] _.
Qed.

Lemma strip_row_wf r : dict_wf r -> dict_wf (strip_row r).
Proof. unfold dict_wf. by rewrite strip_row_keys. Qed.

Lemma fill_cell_wf col fill r : dict_wf r -> dict_wf (fill_cell col fill r).
Proof. unfold fill_cell. destruct (null_cell col r); auto using dict_set_wf. Qed.

Lemma strip_transform_wf cfg rows :
  Forall dict_wf rows -> Forall dict_wf (strip_transform cfg rows).
Proof.
  unfold strip_transform. destruct (default true _); [|done].
  intros H. apply Forall_fmap. eapply Forall_impl; [exact H|].
  intros r. apply strip_row_wf.
Qed.

Lemma dedup_transform_wf cfg rows :
  Forall dict_wf rows -> Forall dict_wf (dedup_transform cfg rows).
Proof.
  unfold dedup_transform. destruct (default true _); [|done].
  rewrite remove_duplicate_rows_eq, !Forall_forall.
  intros H r Hr. eapply H, elem_of_sublist, dedup_from_sublist. done.
Qed.

(** *** Renaming one column *)

Lemma rename_row_snoc rename (r : row) kv :
  rename_row rename (r ++ [kv])
  = dict_set (dict_get rename kv.1 kv.1) kv.2 (rename_row rename r).
Proof. unfold rename_row. by rewrite fold_left_app. Qed.



(** ** The order of the steps *)

Lemma forallb_elem_of {A} (f : A -> bool) (l : list A) :
  forallb f l = true <-> forall x, x ∈ l -> f x = true.
Proof.
  rewrite forallb_forall. by setoid_rewrite list_elem_of_In.
Qed.

Lemma pipeline_spec cfg rows :
  pipeline cfg rows
  = let r2 := dedup_transform cfg (strip_transform cfg rows) in
    let fills := default [] (fill_nulls cfg) in
    if all_fillable fills r2
    then Ok (rename_transform cfg (drop_transform cfg (fill_rows fills r2)))
    else Raise AttributeError.
Proof.
  unfold pipeline, fill_transform. rewrite fill_columns_spec. simpl.
  by destruct (all_fillable _ _).
Qed.

Lemma clean_dataset_pipeline headers rows config :
  fst <$> clean_dataset headers rows config
  = pipeline (default empty_config config) rows.
Proof.
  rewrite clean_dataset_spec, pipeline_spec. simpl.
  by destruct (all_fillable _ _).
Qed.



(** ** Idempotence of strip and deduplication *)

Lemma strip_transform_idemp cfg rows :
  strip_transform cfg (strip_transform cfg rows) = strip_transform cfg rows.
Proof.
  unfold strip_transform. destruct (default true _); [|done].
  rewrite <- list_fmap_compose. apply list_fmap_ext.
  intros _ r _. apply strip_row_idemp.
Qed.

Lemma strip_dedup_transform_stable cfg rows :
  dedup_transform cfg
    (strip_transform cfg (dedup_transform cfg (strip_transform cfg rows)))
  = dedup_transform cfg (strip_transform cfg rows).
Proof.
  unfold dedup_transform, strip_transform.
  destruct (default true (strip_whitespace cfg)),
    (default true (remove_duplicates cfg)); simpl.
  - by rewrite strip_remove_duplicate_rows, remove_duplicate_rows_idemp.
  - rewrite <- list_fmap_compose. apply list_fmap_ext.
    intros _ r _. apply strip_row_idemp.
  - apply remove_duplicate_rows_idemp.
  - done.
Qed.

(** C4.  With nothing but the strip step and the deduplication enabled,
    [clean_dataset] returns rows on which a second run returns the same
    rows. *)
Theorem clean_dataset_idempotent headers rows config :
  only_strip_and_dedup config ->
  exists out log log',
    clean_dataset headers rows config = Ok (out, log)
    /\ clean_dataset headers out config = Ok (out, log').
Proof.
  intros (Hfill & Hdrop & Hren).
  setoid_rewrite clean_dataset_spec. cbv zeta.
  unfold drop_transform, rename_transform.
  rewrite Hfill, Hdrop, Hren. cbn [all_fillable fill_rows fold_left].
  eexists _, _, _. split; [reflexivity|].
  by rewrite strip_dedup_transform_stable.
Qed.

Lemma clean_dataset_idempotent_witness :
  let rows : list row :=
    [[("name", VStr " Ann")]; [("name", VStr "Bob ")]; [("name", VStr "Ann ")]] in
  exists out log log',
    clean_dataset [] rows None = Ok (out, log)
    /\ clean_dataset [] out None = Ok (out, log').
Proof.
  intros rows. apply (clean_dataset_idempotent [] rows None).
  repeat split.
Defined.

(** ** First occurrences *)

(** C5.  With [remove_duplicates] enabled, the rows that reach the fill
    step are the first occurrences, in their order, of the rows after
    the strip step, two rows being equal when they hold the same set of
    (column, value) pairs; of [A, B, A] the rows [A, B] are kept. *)
Theorem clean_dataset_keeps_first_occurrences :
  (forall headers rows cfg,
     default true (remove_duplicates cfg) = true ->
     Forall dict_wf rows ->
     fst <$> clean_dataset headers rows (Some cfg)
     = filled ← fill_transform cfg (first_occurrences (strip_transform cfg rows));
       Ok (rename_transform cfg (drop_transform cfg filled)))
  /\ (forall headers (A B : row) dedup,
        default true dedup = true ->
        dict_wf A -> dict_wf B -> ~ same_items A B ->
        clean_dataset headers [A; B; A]
          (Some (Config (Some false) dedup None None None))
        = Ok ([A; B], [RemovedDuplicates 1])).
Proof.
  split.
  - intros headers rows cfg Hdedup Hwf.
    rewrite clean_dataset_pipeline. simpl.
    unfold pipeline, dedup_transform. rewrite Hdedup.
    by rewrite remove_duplicate_rows_first_occurrences
      by (by apply strip_transform_wf).
  - intros headers A B dedup Hdedup HA HB Hne.
    rewrite clean_dataset_spec. simpl.
    unfold dedup_log, dedup_transform, strip_transform, strip_log,
      drop_transform, rename_transform, drop_log, rename_log. simpl.
    rewrite Hdedup.
    rewrite remove_duplicate_rows_first_occurrences by (by repeat constructor).
    unfold first_occurrences. simpl.
    rewrite decide_False.
    2:{ intros [H|H%Exists_nil]%Exists_cons; [|done].
        by apply Hne, same_items_sym. }
    rewrite decide_True; [done|].
    apply Exists_cons. by left.
Qed.

Lemma clean_dataset_keeps_first_occurrences_witness :
  let A : row := [("name", VStr "Ann"); ("city", VStr "NYC")] in
  let A' : row := [("city", VStr "NYC"); ("name", VStr "Ann")] in
  let B : row := [("name", VStr "Bob"); ("city", VStr "LA")] in
  clean_dataset [] [A; B; A] (Some (Config (Some false) None None None None))
  = Ok ([A; B], [RemovedDuplicates 1])
  /\ fst <$> clean_dataset [] [A; B; A'] (Some empty_config) = Ok [A; B].
Proof.
  intros A A' B. split.
  - apply (proj2 clean_dataset_keeps_first_occurrences [] A B None eq_refl).
    + refine (bool_decide_eq_true_1 _ _). vm_compute. reflexivity.
    + refine (bool_decide_eq_true_1 _ _). vm_compute. reflexivity.
    + refine (bool_decide_eq_false_1 _ _). vm_compute. reflexivity.
  - rewrite (proj1 clean_dataset_keeps_first_occurrences [] [A; B; A'] empty_config eq_refl).
    + vm_compute. reflexivity.
    + refine (bool_decide_eq_true_1 _ _). vm_compute. reflexivity.
Defined.

(** ** The change log *)

Lemma sublist_same_length {A} (l1 l2 : list A) :
  l1 `sublist_of` l2 -> (length l2 <= length l1)%nat -> l1 = l2.
Proof.
  induction 1 as [|x l1 l2 Hs IH|x l1 l2 Hs IH]; simpl; intros Hlen.
  - done.
  - f_equal. apply IH. lia.
  - apply sublist_length in Hs. lia.
Qed.

Lemma dedup_log_nil cfg rows :
  dedup_log cfg rows = [] <-> dedup_transform cfg rows = rows.
Proof.
  unfold dedup_log, dedup_transform.
  destruct (default true (remove_duplicates cfg)); [|done].
  pose proof (remove_duplicate_rows_length rows) as Hlen.
  destruct (length rows - length (remove_duplicate_rows rows))%nat eqn:E.
  - split; [intros _|done].
    apply sublist_same_length; [|lia].
    rewrite remove_duplicate_rows_eq. apply dedup_from_sublist.
  - split; [done|]. intros Heq. rewrite Heq in E. lia.
Qed.

(** C6, as the program has it.  The log of a run that returns holds, in
    this order: the entry of the strip step when the step is enabled;
    the entry of the deduplication when it removed a row; one entry of
    the fill step for each configured column in which a cell was
    filled; the entry of the drop step when the configured list is not
    empty; the entry of the rename step when the configured mapping is
    not empty.  The deduplication is logged exactly when it changed the
    rows. *)
Theorem clean_dataset_change_log headers rows config out log :
  clean_dataset headers rows config = Ok (out, log) ->
  let cfg := default empty_config config in
  let r1 := strip_transform cfg rows in
  let r2 := dedup_transform cfg r1 in
  log = (if default true (strip_whitespace cfg) then [Stripped] else [])
        ++ dedup_log cfg r1
        ++ fill_entries (default [] (fill_nulls cfg)) r2
        ++ match default [] (drop_columns cfg) with
           | [] => []
           | drop_cols => [DroppedColumns drop_cols]
           end
        ++ match default [] (rename_columns cfg) with
           | [] => []
           | rename => [RenamedColumns rename]
           end
  /\ (dedup_log cfg r1 = [] <-> r2 = r1).
Proof.
  rewrite clean_dataset_spec. cbv zeta.
  destruct (all_fillable _ _); [|done].
  intros [= _ <-]. split; [reflexivity|apply dedup_log_nil].
Qed.

Lemma clean_dataset_change_log_witness :
  clean_dataset [] [[("a", VStr "x")]; [("a", VStr " x")]; [("b", VStr "")]]
    (Some (Config None None (Some [("b", FInt 0); ("c", FNone)]) (Some ["zzz"]) None))
  = Ok ([[("a", VStr "x"); ("b", VStr "0"); ("c", VStr "None")];
         [("b", VStr "0"); ("c", VStr "None")]],
        [Stripped; RemovedDuplicates 1; FilledNulls 2 "b" (FInt 0);
         FilledNulls 2 "c" FNone; DroppedColumns ["zzz"]]).
Proof.
  set (rows := [[("a", VStr "x")]; [("a", VStr " x")]; [("b", VStr "")]]).
  set (cfg := Config None None (Some [("b", FInt 0); ("c", FNone)]) (Some ["zzz"]) None).
  destruct (clean_dataset [] rows (Some cfg)) as [[out log]|e] eqn:Hrun;
    [|vm_compute in Hrun; discriminate].
  destruct (clean_dataset_change_log [] rows (Some cfg) out log Hrun) as [Hlog _].
  assert (out = [[("a", VStr "x"); ("b", VStr "0"); ("c", VStr "None")];
                 [("b", VStr "0"); ("c", VStr "None")]]) as ->.
  { vm_compute in Hrun. congruence. }
  rewrite Hlog. vm_compute. reflexivity.
Defined.

(** The statement of C6 fails where the drop step is configured with a
    column that no row has: the step returns its rows as they are and
    still has its entry in the log. *)
Lemma change_log_counterexample :
  ~ log_reports_changes (Config (Some false) (Some false) None (Some ["zzz"]) None)
      [[("a", VStr "x")]].
Proof.
  intros H.
  specialize (H [[("a", VStr "x")]] [DroppedColumns ["zzz"]] eq_refl StepDrop).
  destruct H as [H _].
  destruct H as [[? _]|[_ (r_in & r_out & Hs & Hne)]].
  - exists (DroppedColumns ["zzz"]). split; [by left|done].
  - done.
  - vm_compute in Hs. congruence.
Qed.

(** ** Null cells that are [None] *)

(** C7.  A cell that holds [None], as a line of the file with too few
    fields gives it, stops the fill step with an exception instead of
    being filled. *)
Theorem fill_nulls_raises_on_none_cell :
  clean_dataset ["name"; "city"]
    [[("name", VStr "Ann"); ("city", VNone)]]
    (Some (Config None None (Some [("city", FStr "Unknown")]) None None))
  = Raise AttributeError.
Proof. reflexivity. Qed.

(** The cells of a column of strings and missing cells are filled as
    the specification states. *)
Lemma fill_column_strings col fill rows :
  forallb (fillable col) rows = true ->
  exists count,
    fill_column col fill rows = Ok (fill_cell col fill <$> rows, count)
    /\ Forall (fun r =>
         dict_lookup col (fill_cell col fill r)
         = match dict_lookup col r with
           | Some (VStr s) =>
               if decide (PyStr.strip s = "") then Some (VStr (py_str fill))
               else Some (VStr s)
           | _ => Some (VStr (py_str fill))
           end) rows.
Proof.
  intros Hf. eexists. split; [by apply fill_column_ok|].
  rewrite forallb_elem_of in Hf. apply Forall_forall. intros r Hr.
  specialize (Hf r Hr). unfold fill_cell, null_cell, fillable in *.
  destruct (dict_lookup col r) as [[|s]|] eqn:Hc; try done.
  - destruct (PyStr.strip s) eqn:Hs; simpl.
    + rewrite dict_lookup_set. by rewrite decide_True.
    + by rewrite Hc.
  - rewrite dict_lookup_set. by rewrite decide_True.
Qed.

Example fill_nulls_example :
  fst <$> clean_dataset ["id"; "city"]
    [[("id", VStr "1"); ("city", VStr "NYC")];
     [("id", VStr "2"); ("city", VStr "")];
     [("id", VStr "3"); ("city", VStr "  ")]]
    (Some (Config (Some false) None (Some [("city", FStr "Unknown")]) None None))
  = Ok [[("id", VStr "1"); ("city", VStr "NYC")];
        [("id", VStr "2"); ("city", VStr "Unknown")];
        [("id", VStr "3"); ("city", VStr "Unknown")]].
Proof. reflexivity. Qed.

(** ** Column profiles *)

Lemma Qltb_half (a b : Z) :
  Qltb (inject_Z a * (1 # 2)) (inject_Z b) = true <-> a < 2 * b.
Proof.
  unfold Qltb. rewrite negb_true_iff, <- not_true_iff_false, Qle_bool_iff.
  unfold Qle. simpl. lia.
Qed.

Lemma strip_empty_truthy s :
  PyStr.truthy s && PyStr.truthy (PyStr.strip s) = true <-> PyStr.strip s <> "".
Proof.
  destruct s as [|c s]; [by split|]. simpl PyStr.truthy at 1.
  rewrite andb_true_l. by destruct (PyStr.strip _).
Qed.

Lemma non_empty_values_eq values :
  omap non_empty_value values = non_null_values values.
Proof.
  unfold non_null_values.
  induction values as [|v values IH]; csimpl; [done|]. rewrite IH.
  destruct v as [|s]; simpl; [done|].
  destruct (decide (PyStr.strip s = "")) as [E|E].
  - destruct (PyStr.truthy s && _) eqn:Ht; [|done].
    by apply strip_empty_truthy in Ht.
  - apply strip_empty_truthy in E. by rewrite E.
Qed.

Lemma length_omap_filter {A B} (f : A -> option B) (l : list A) :
  length (omap f l) = length (filter (fun x => is_Some (f x)) l).
Proof.
  induction l as [|x l IH]; [done|]. rewrite filter_cons. csimpl.
  destruct (f x) eqn:E.
  - rewrite decide_True by eauto. simpl. by rewrite IH.
  - rewrite decide_False by (by intros [??]). done.
Qed.

Lemma length_omap_le {A B} (f : A -> option B) (l : list A) :
  (length (omap f l) <= length l)%nat.
Proof.
  induction l as [|x l IH]; csimpl; [done|]. destruct (f x); simpl; lia.
Qed.

Section ProfileFacts.
Context {lib : NumericLib}.

(** The fields of a profile that do not depend on the library. *)
Lemma profile_column_fields values col p :
  profile_column values col = Ok p ->
  let non_empty := non_null_values values in
  let parsed := filter parses_as_number non_empty in
  column p = col
  /\ total_rows p = len values
  /\ non_null p = len non_empty
  /\ null_count p = len values - len non_empty
  /\ null_pct p
     = (if len values =? 0 then NInt 0
        else py_round
               (NFloat (PyFloat.mul
                          (PyFloat.truediv (len values - len non_empty) (len values))
                          (PyFloat.of_Z 100))) 1)
  /\ unique_count p = len (remove_dups non_empty)
  /\ (type_of p = "numeric" <-> len non_empty < 2 * len parsed).
Proof.
  unfold profile_column. rewrite non_empty_values_eq. cbv zeta.
  set (non_empty := non_null_values values).
  set (parsed := filter parses_as_number non_empty).
  intros Hp.
  assert (len (omap parse_number non_empty) = len parsed) as Hlen.
  { unfold len. f_equal. apply length_omap_filter. }
  remember (omap parse_number non_empty) as nv eqn:Hnv.
  destruct nv as [|x xs].
  - simpl in Hp. injection Hp as <-. simpl. repeat split; try done.
    unfold len in *. simpl in Hlen. lia.
  - rewrite Hlen in Hp.
    destruct (Qltb _ _) eqn:Hq.
    + apply Qltb_half in Hq.
      destruct (if 1 <? len parsed then _ else _) as [sd|e]; simpl in Hp; [|done].
      injection Hp as <-. simpl. repeat split; done.
    + simpl in Hp. injection Hp as <-. simpl. repeat split; try done.
      apply not_true_iff_false in Hq. rewrite Qltb_half in Hq. lia.
Qed.

(** [profile_column] returns a profile unless [statistics.stdev], which
    it calls for a numeric column of two values or more, raises. *)
Lemma profile_column_returns values col :
  (1 < len (filter parses_as_number (non_null_values values)) ->
   exists sd, statistics_stdev (omap parse_number (non_null_values values)) = Ok sd) ->
  exists p, profile_column values col = Ok p.
Proof.
  unfold profile_column. rewrite non_empty_values_eq.
  set (non_empty := non_null_values values). intros Hsd.
  assert (len (omap parse_number non_empty)
          = len (filter parses_as_number non_empty)) as Hlen.
  { unfold len. f_equal. apply length_omap_filter. }
  remember (omap parse_number non_empty) as nv eqn:Hnv.
  destruct nv as [|x xs]; [by eexists|].
  destruct (Qltb _ _); [|by eexists].
  destruct (1 <? _) eqn:Hlt.
  - apply Z.ltb_lt in Hlt. rewrite Hlen in Hlt.
    destruct (Hsd Hlt) as [sd ->]. by eexists.
  - by eexists.
Qed.


(** The type of a profile that is returned: [numeric] exactly when
    more than half of the non-null values of the column parse as
    numbers once their commas are removed; with exactly one half it is
    [categorical].  A value that does not parse is still counted in
    [non_null] and in [unique_count].  The profile exists unless
    [statistics.stdev] raises. *)
Theorem profile_column_numeric_majority values col :
  let non_empty := non_null_values values in
  let parsed := filter parses_as_number non_empty in
  (forall p, profile_column values col = Ok p ->
     (type_of p = "numeric" <-> len non_empty < 2 * len parsed)
     /\ (len non_empty = 2 * len parsed -> type_of p = "categorical")
     /\ non_null p = len non_empty
     /\ unique_count p = len (remove_dups non_empty))
  /\ ((1 < len parsed ->
       exists sd, statistics_stdev (omap parse_number non_empty) = Ok sd) ->
      exists p, profile_column values col = Ok p).
Proof.
  intros non_empty parsed. split; [|apply profile_column_returns].
  intros p Hp.
  destruct (profile_column_fields _ _ _ Hp) as (_ & _ & Hnn & _ & _ & Hu & Hty).
  fold non_empty in Hnn, Hu, Hty. fold parsed in Hty.
  repeat split; try done; try apply Hty.
  intros Hhalf. unfold type_of in *. destruct (stats p); [|done].
  assert (len non_empty < 2 * len parsed) by (by apply Hty). lia.
Qed.

(** C8.  In a profile, [null_count + non_null = total_rows], and
    [null_pct] is [round(null_count / total_rows * 100, 1)], or [0] for
    a column without rows.  The profile exists unless
    [statistics.stdev] raises. *)
Theorem profile_column_null_statistics values col :
  (forall p, profile_column values col = Ok p ->
     null_count p + non_null p = total_rows p
     /\ total_rows p = len values
     /\ non_null p = len (non_null_values values)
     /\ null_pct p
        = if total_rows p =? 0 then NInt 0
          else py_round
                 (NFloat (PyFloat.mul
                            (PyFloat.truediv (null_count p) (total_rows p))
                            (PyFloat.of_Z 100))) 1)
  /\ ((1 < len (filter parses_as_number (non_null_values values)) ->
       exists sd,
         statistics_stdev (omap parse_number (non_null_values values)) = Ok sd) ->
      exists p, profile_column values col = Ok p).
Proof.
  split; [|apply profile_column_returns].
  intros p Hp.
  destruct (profile_column_fields _ _ _ Hp) as (_ & Ht & Hnn & Hnc & Hpct & _).
  rewrite Ht, Hnn, Hnc. repeat split; try done. lia.
Qed.

End ProfileFacts.

Lemma profile_column_numeric_majority_witness :
  let values := [VStr "1"; VStr "n/a"; VStr "2,000"; VNone; VStr "  "] in
  let halves := [VStr "1"; VStr "n/a"] in
  (exists p, profile_column (lib := CPython311.lib) values "salary" = Ok p
             /\ type_of p = "numeric" /\ non_null p = 3 /\ unique_count p = 3)
  /\ (exists p, profile_column (lib := CPython311.lib) halves "salary" = Ok p
                /\ type_of p = "categorical").
Proof.
  intros values halves. split.
  - destruct (profile_column (lib := CPython311.lib) values "salary") as [p|e] eqn:Hp;
      [|vm_compute in Hp; discriminate].
    destruct (proj1 (profile_column_numeric_majority (lib := CPython311.lib)
                       values "salary") p Hp) as (Hty & _ & Hnn & Hu).
    exists p. split; [done|]. split; [|split].
    + apply Hty. vm_compute. reflexivity.
    + rewrite Hnn. vm_compute. reflexivity.
    + rewrite Hu. vm_compute. reflexivity.
  - destruct (profile_column (lib := CPython311.lib) halves "salary") as [p|e] eqn:Hp;
      [|vm_compute in Hp; discriminate].
    destruct (proj1 (profile_column_numeric_majority (lib := CPython311.lib)
                       halves "salary") p Hp) as (_ & Hhalf & _).
    exists p. split; [done|]. apply Hhalf. vm_compute. reflexivity.
Defined.

Lemma profile_column_null_statistics_witness :
  let values := [VStr "1"; VStr ""; VStr "2"; VNone; VStr "  "; VStr "x"; VStr "4"] in
  exists p, profile_column (lib := CPython311.lib) values "n" = Ok p
            /\ null_count p = 3 /\ non_null p = 4 /\ total_rows p = 7
            /\ null_pct p = NFloat (S754_finite false 6037638250443571 (-47)).
Proof.
  intros values.
  destruct (profile_column (lib := CPython311.lib) values "n") as [p|e] eqn:Hp;
    [|vm_compute in Hp; discriminate].
  destruct (proj1 (profile_column_null_statistics (lib := CPython311.lib)
                     values "n") p Hp) as (Hsum & Ht & Hnn & Hpct).
  exists p. split; [done|].
  assert (null_count p = 3) as Hnc.
  { assert (len values = 7) as Hv by (vm_compute; reflexivity).
    assert (len (non_null_values values) = 4) as Hn by (vm_compute; reflexivity).
    lia. }
  repeat split.
  - done.
  - rewrite Hnn. vm_compute. reflexivity.
  - rewrite Ht. vm_compute. reflexivity.
  - rewrite Hpct, Hnc, Ht. vm_compute. reflexivity.
Defined.

(** ** Columns with values that are not finite *)

Lemma forallb_false_elem {A} (f : A -> bool) (l : list A) :
  forallb f l = false <-> exists x, x ∈ l /\ f x = false.
Proof.
  induction l as [|a l IH]; simpl.
  - split; [done|]. by intros (x & ?%elem_of_nil & _).
  - rewrite andb_false_iff, IH. split.
    + intros [Ha|(x & Hx & Hf)]; [exists a; split; [by left|done]|].
      exists x. split; [by right|done].
    + intros (x & [->|Hx]%elem_of_cons & Hf); [by left|]. right. by exists x.
Qed.

(** C2.  A column of which more than half of the non-null values are
    numbers, two of them or more, and one of them [inf] or [nan], has
    no profile: [statistics.stdev] of CPython 3.11 raises
    [AttributeError] on such values, and [profile_column] with it,
    where the column is to be labelled [numeric]. *)
Theorem profile_column_raises_on_non_finite values col :
  let non_empty := non_null_values values in
  let parsed := omap parse_number non_empty in
  len non_empty < 2 * len parsed ->
  1 < len parsed ->
  (exists x, x ∈ parsed /\ PyFloat.is_finite x = false) ->
  profile_column (lib := CPython311.lib) values col = Raise AttributeError.
Proof.
  intros non_empty parsed Hmajority Htwo Hinf%forallb_false_elem.
  unfold profile_column. rewrite non_empty_values_eq. cbv zeta.
  fold non_empty. fold parsed.
  destruct parsed as [|x xs] eqn:Hparsed; [unfold len in Htwo; simpl in Htwo; lia|].
  apply Qltb_half in Hmajority. rewrite Hmajority.
  apply Z.ltb_lt in Htwo. rewrite Htwo.
  cbn [statistics_stdev CPython311.lib]. unfold CPython311.stdev.
  fold (len (x :: xs)).
  assert ((len (x :: xs) <? 2) = false) as -> by (apply Z.ltb_ge; apply Z.ltb_lt in Htwo; lia).
  by rewrite Hinf.
Qed.

Lemma profile_column_raises_on_non_finite_witness :
  profile_column (lib := CPython311.lib) [VStr "nan"; VStr "2"; VStr "3"] "x"
  = Raise AttributeError
  /\ profile_column (lib := CPython311.lib) [VStr "inf"; VStr "1"; VStr ""; VNone] "x"
     = Raise AttributeError.
Proof.
  split.
  - apply (profile_column_raises_on_non_finite [VStr "nan"; VStr "2"; VStr "3"] "x").
    + vm_compute. reflexivity.
    + vm_compute. reflexivity.
    + exists S754_nan. split; [vm_compute; by left|reflexivity].
  - apply (profile_column_raises_on_non_finite
             [VStr "inf"; VStr "1"; VStr ""; VNone] "x").
    + vm_compute. reflexivity.
    + vm_compute. reflexivity.
    + exists (S754_infinity false). split; [vm_compute; by left|reflexivity].
Defined.

(** ** Groups of an aggregation *)

Lemma group_lookup_append key val k groups :
  group_lookup k (group_append key val groups)
  = if decide (k = key)
    then Some (default [] (group_lookup key groups) ++ [val])
    else group_lookup k groups.
Proof.
  induction groups as [|[k0 vs] groups IH]; simpl.
  - by destruct (decide (k = key)).
  - destruct (decide (key = k0)) as [->|Hk]; simpl.
    + by destruct (decide (k = k0)).
    + rewrite IH. destruct (decide (k = k0)) as [->|?]; [|done].
      by rewrite decide_False.
Qed.

Lemma group_lookup_None key (groups : list (pyval * list PyFloat.float)) :
  group_lookup key groups = None <-> key ∉ groups.*1.
Proof.
  induction groups as [|[k0 vs] groups IH]; simpl.
  - split; [intros _; apply not_elem_of_nil|done].
  - rewrite not_elem_of_cons. destruct (decide (key = k0)); [|tauto].
    split; [done|]. by intros [? _].
Qed.

Lemma group_append_keys_in key val (groups : list (pyval * list PyFloat.float)) :
  key ∈ groups.*1 -> (group_append key val groups).*1 = groups.*1.
Proof.
  induction groups as [|[k0 vs] groups IH]; simpl.
  - by intros ?%elem_of_nil.
  - intros Hin. destruct (decide (key = k0)) as [->|Hk]; simpl; [done|].
    apply elem_of_cons in Hin as [?|Hin]; [done|]. f_equal. by apply IH.
Qed.

Lemma group_append_keys_fresh key val (groups : list (pyval * list PyFloat.float)) :
  key ∉ groups.*1 -> (group_append key val groups).*1 = groups.*1 ++ [key].
Proof.
  induction groups as [|[k0 vs] groups IH]; simpl; [done|].
  intros [Hk Hin]%not_elem_of_cons.
  rewrite decide_False by done. simpl. f_equal. by apply IH.
Qed.

Lemma group_append_NoDup key val (groups : list (pyval * list PyFloat.float)) :
  NoDup groups.*1 -> NoDup (group_append key val groups).*1.
Proof.
  destruct (decide (key ∈ groups.*1)) as [Hin|Hin].
  - by rewrite group_append_keys_in.
  - rewrite group_append_keys_fresh by done.
    intros Hd. apply NoDup_app. split_and!; [done| |apply NoDup_singleton].
    by intros x Hx ->%list_elem_of_singleton.
Qed.

Lemma group_lookup_elem_of key vs (groups : list (pyval * list PyFloat.float)) :
  NoDup groups.*1 -> (key, vs) ∈ groups <-> group_lookup key groups = Some vs.
Proof.
  induction groups as [|[k0 vs0] groups IH]; simpl.
  - intros _. split; [by intros ?%elem_of_nil|done].
  - intros [Hk Hd]%NoDup_cons. rewrite elem_of_cons, (IH Hd).
    destruct (decide (key = k0)) as [->|Hne].
    + split; [intros [[= ->]|Hl]; [done|]|intros [= ->]; by left].
      destruct Hk. destruct (decide (k0 ∈ groups.*1)) as [|Hn]; [done|].
      apply group_lookup_None in Hn. congruence.
    + split; [intros [[= ? ?]|?]; done|by right].
Qed.

Lemma collect_groups_snoc rows r group_by agg_col :
  collect_groups (rows ++ [r]) group_by agg_col
  = let groups := collect_groups rows group_by agg_col in
    match agg_value_of agg_col r with
    | Some val => group_append (dict_get r group_by (VStr "")) val groups
    | None => groups
    end.
Proof. unfold collect_groups. by rewrite fold_left_app. Qed.

Lemma group_values_snoc rows r group_by agg_col key :
  group_values (rows ++ [r]) group_by agg_col key
  = group_values rows group_by agg_col key
    ++ (if decide (dict_get r group_by (VStr "") = key)
        then option_list (agg_value_of agg_col r) else []).
Proof.
  unfold group_values, group_rows. rewrite filter_app, omap_app. f_equal.
  rewrite filter_cons, filter_nil. case_decide; [|done].
  csimpl. by destruct (agg_value_of agg_col r).
Qed.

Lemma collect_groups_NoDup rows group_by agg_col :
  NoDup (collect_groups rows group_by agg_col).*1.
Proof.
  induction rows as [|r rows IH] using rev_ind; [constructor|].
  rewrite collect_groups_snoc. simpl.
  destruct (agg_value_of agg_col r); [by apply group_append_NoDup|done].
Qed.

(** The group of a key holds the values of its rows, and a key without
    a value has no group. *)
Lemma collect_groups_lookup rows group_by agg_col key :
  group_lookup key (collect_groups rows group_by agg_col)
  = match group_values rows group_by agg_col key with
    | [] => None
    | vs => Some vs
    end.
Proof.
  induction rows as [|r rows IH] using rev_ind; [done|].
  rewrite collect_groups_snoc, group_values_snoc. simpl.
  destruct (agg_value_of agg_col r) as [val|] eqn:Hval.
  - rewrite group_lookup_append.
    destruct (decide (key = _)) as [->|Hne].
    + rewrite decide_True by done. rewrite IH. simpl.
      by destruct (group_values rows _ _ _).
    + rewrite decide_False by done. by rewrite app_nil_r.
  - rewrite IH. case_decide; by rewrite app_nil_r.
Qed.

(** ** The result of an aggregation *)

Lemma included_spec agg_col r :
  included agg_col r = true
  <-> dict_lookup agg_col r = None \/ value_parses agg_col r = true.
Proof.
  unfold included, value_parses, agg_value_of.
  rewrite bool_decide_eq_true.
  destruct (dict_lookup agg_col r) as [[|s]|]; simpl.
  - split; [by intros [??]|by intros [?|?]].
  - rewrite bool_decide_eq_true. split; [by right|by intros [?|?]].
  - split; [by left|by eexists].
Qed.

Lemma omap_filter_is_Some {A B} (f : A -> option B) (P : A -> Prop)
    `{forall x, Decision (P x)} (l : list A) :
  (forall x, P x <-> is_Some (f x)) ->
  omap f (filter P l) = omap f l.
Proof.
  intros HP. induction l as [|x l IH]; [done|].
  rewrite filter_cons. csimpl. destruct (decide (P x)) as [Hx|Hx].
  - csimpl. by rewrite IH.
  - rewrite IH. destruct (f x) eqn:E; [|done].
    destruct Hx. apply HP. by rewrite E.
Qed.

Lemma omap_nil_iff {A B} (f : A -> option B) (l : list A) :
  omap f l = [] <-> forall x, x ∈ l -> f x = None.
Proof.
  induction l as [|x l IH]; csimpl.
  - split; [by intros _ ? ?%elem_of_nil|done].
  - destruct (f x) eqn:E.
    + split; [done|]. intros H. specialize (H x (list_elem_of_here _ _)). congruence.
    + rewrite IH. split.
      * intros H y [->|Hy]%elem_of_cons; auto.
      * intros H y Hy. apply H. by right.
Qed.

(** The keys of the groups are the keys of the rows that have a value. *)
Lemma collect_groups_keys rows group_by agg_col :
  (collect_groups rows group_by agg_col).*1
  ≡ₚ remove_dups ((fun r => dict_get r group_by (VStr ""))
                   <$> filter (fun r => included agg_col r = true) rows).
Proof.
  apply NoDup_Permutation; [apply collect_groups_NoDup|apply NoDup_remove_dups|].
  intros key. rewrite elem_of_remove_dups.
  destruct (decide (key ∈ (collect_groups rows group_by agg_col).*1)) as [Hin|Hin].
  - split; [intros _|done]. apply list_elem_of_fmap.
    destruct (group_lookup key (collect_groups rows group_by agg_col)) eqn:Hl.
    2:{ by apply group_lookup_None in Hl. }
    rewrite collect_groups_lookup in Hl.
    destruct (group_values rows group_by agg_col key) as [|v vs] eqn:Hv; [done|].
    assert (v ∈ group_values rows group_by agg_col key) as Hv' by (rewrite Hv; left).
    apply list_elem_of_omap in Hv' as (r & Hr & Hval).
    apply list_elem_of_filter in Hr as [Hkey Hr].
    exists r. split; [done|]. apply list_elem_of_filter. split; [|done].
    unfold included. apply bool_decide_eq_true. by rewrite Hval.
  - split; [done|]. intros (r & -> & Hr)%list_elem_of_fmap. destruct Hin.
    apply list_elem_of_filter in Hr as [Hinc Hr].
    destruct (decide (dict_get r group_by (VStr "")
                        ∈ (collect_groups rows group_by agg_col).*1)) as [|Hn]; [done|].
    apply group_lookup_None in Hn. rewrite collect_groups_lookup in Hn.
    destruct (group_values rows group_by agg_col _) eqn:Hv; [|done].
    unfold group_values in Hv. rewrite omap_nil_iff in Hv.
    unfold included in Hinc. apply bool_decide_eq_true in Hinc as [v Hval].
    rewrite Hv in Hval; [done|]. apply list_elem_of_filter. by split.
Qed.

Lemma sorted_groups_Permutation groups sorted :
  sorted_groups groups = Ok sorted -> sorted ≡ₚ groups.
Proof.
  unfold sorted_groups. destruct groups as [|g1 [|g2 groups]]; try by intros [= <-].
  case_bool_decide; [done|]. intros [= <-]. apply merge_sort_Permutation.
Qed.

Lemma sorted_groups_returns groups :
  VNone ∉ groups.*1 \/ (length groups <= 1)%nat ->
  exists sorted, sorted_groups groups = Ok sorted.
Proof.
  unfold sorted_groups. destruct groups as [|g1 [|g2 groups]]; try by eexists.
  intros [Hnone|Hlen]; [|simpl in Hlen; lia].
  rewrite bool_decide_eq_false_2; [by eexists|].
  intros (g & Hg & Hk)%Exists_exists. apply Hnone.
  apply list_elem_of_fmap. by exists g.
Qed.

Section AggregateFacts.
Context {lib : NumericLib}.

Lemma agg_records_spec group_by agg_col agg_func groups out :
  agg_records group_by agg_col agg_func groups = Ok out ->
  Forall2 (fun grp record =>
             exists agg, reduce agg_func grp.2 = Ok agg
                         /\ record = agg_record group_by agg_col agg_func
                                       grp.1 agg (len grp.2))
    groups out.
Proof.
  revert out. induction groups as [|[key values] groups IH]; intros out; simpl.
  - intros [= <-]. constructor.
  - destruct (reduce agg_func values) as [agg|] eqn:Hred; simpl; [|done].
    destruct (agg_records _ _ _ groups) as [rest|]; simpl; [|done].
    intros [= <-]. constructor; [|by apply IH].
    by exists agg.
Qed.

Lemma agg_records_returns group_by agg_col agg_func groups :
  Forall (fun grp => grp.2 <> []) groups ->
  exists out, agg_records group_by agg_col agg_func groups = Ok out.
Proof.
  induction 1 as [|[key values] groups Hv _ [rest IH]]; simpl; [by eexists|].
  destruct values as [|x xs]; [done|]. simpl. rewrite IH. by eexists.
Qed.

Lemma agg_record_count group_by agg_col agg_func key agg count :
  dict_lookup "count" (agg_record group_by agg_col agg_func key agg count)
  = Some (CNum (NInt count)).
Proof. unfold agg_record. rewrite dict_lookup_set. by rewrite decide_True. Qed.


Lemma Forall2_with_Forall {A B} (P : A -> Prop) (Q : A -> B -> Prop) l k :
  Forall P l -> Forall2 Q l k -> Forall2 (fun x y => P x /\ Q x y) l k.
Proof.
  intros HP HQ. induction HQ; [constructor|].
  apply Forall_cons in HP as [??]. constructor; auto.
Qed.

Lemma length_omap_all {A B} (f : A -> option B) (l : list A) :
  Forall (fun x => is_Some (f x)) l -> length (omap f l) = length l.
Proof.
  induction 1 as [|x l [y Hx] _ IH]; csimpl; [done|]. rewrite Hx. simpl. by rewrite IH.
Qed.

(** The groups hold the values of the included rows. *)
Lemma group_values_members rows group_by agg_col key :
  let members := filter (fun r => included agg_col r = true)
                   (group_rows rows group_by key) in
  group_values rows group_by agg_col key = omap (agg_value_of agg_col) members
  /\ len (group_values rows group_by agg_col key) = len members.
Proof.
  intros members. unfold group_values.
  assert (omap (agg_value_of agg_col) (group_rows rows group_by key)
          = omap (agg_value_of agg_col) members) as ->.
  { symmetry. apply omap_filter_is_Some. intros r. unfold included.
    by rewrite bool_decide_eq_true. }
  split; [done|]. unfold len. f_equal. apply length_omap_all.
  apply Forall_forall. intros r [Hr _]%list_elem_of_filter.
  unfold included in Hr. by apply bool_decide_eq_true in Hr.
Qed.

Lemma sorted_groups_members rows group_by agg_col sorted :
  sorted_groups (collect_groups rows group_by agg_col) = Ok sorted ->
  Forall (fun grp => grp.2 = group_values rows group_by agg_col grp.1
                     /\ grp.2 <> []) sorted.
Proof.
  intros Hs%sorted_groups_Permutation. apply Forall_forall.
  intros [key vs] Hin. rewrite Hs in Hin.
  apply group_lookup_elem_of in Hin; [|apply collect_groups_NoDup].
  rewrite collect_groups_lookup in Hin. simpl.
  destruct (group_values rows group_by agg_col key); [done|].
  by injection Hin as <-.
Qed.

(** C3, as the program has it.  A row takes part in the reduction of
    its group exactly when its value column is missing, in which case
    it counts as [0.0], or holds a string that parses as a number.  A
    result of [aggregate] has one record for each key that has such a
    row, reduced over the values of these rows alone, with their number
    as its count.  A result exists unless the key [None] has to be
    compared with another key. *)
Theorem aggregate_included_rows rows group_by agg_col agg_func :
  let key_of := fun r : row => dict_get r group_by (VStr "") in
  let has_value := fun r : row => included agg_col r = true in
  let keys0 := remove_dups (key_of <$> filter has_value rows) in
  (forall r, has_value r
             <-> dict_lookup agg_col r = None \/ value_parses agg_col r = true)
  /\ (forall out,
        aggregate rows group_by agg_col agg_func = Ok out ->
        exists keys,
          keys ≡ₚ keys0
          /\ Forall2
               (fun key record =>
                  let members := filter has_value (group_rows rows group_by key) in
                  exists agg,
                    reduce agg_func (omap (agg_value_of agg_col) members) = Ok agg
                    /\ record = agg_record group_by agg_col agg_func key agg
                                  (len members)
                    /\ dict_lookup "count" record
                       = Some (CNum (NInt (len members))))
               keys out)
  /\ (VNone ∉ keys0 \/ (length keys0 <= 1)%nat ->
      exists out, aggregate rows group_by agg_col agg_func = Ok out).
Proof.
  intros key_of has_value keys0.
  split; [intros r; apply included_spec|]. split.
  - intros out. unfold aggregate.
    destruct (sorted_groups _) as [sorted|] eqn:Hs; simpl; [|done].
    intros Hout. exists sorted.*1. split.
    + rewrite (sorted_groups_Permutation _ _ Hs). apply collect_groups_keys.
    + apply Forall2_fmap_l.
      eapply Forall2_impl;
        [apply Forall2_with_Forall;
           [apply (sorted_groups_members _ _ _ _ Hs)|apply (agg_records_spec _ _ _ _ _ Hout)]|].
      intros [key vs] record [[Hvs _] (agg & Hred & ->)]. simpl in *.
      destruct (group_values_members rows group_by agg_col key) as [Hv Hl].
      exists agg. rewrite Hvs in Hred. rewrite Hvs, Hl. rewrite Hv in Hred.
      split; [done|]. split; [done|]. apply agg_record_count.
  - intros Hkeys. unfold aggregate.
    pose proof (collect_groups_keys rows group_by agg_col) as Hperm.
    fold key_of has_value keys0 in Hperm.
    destruct (sorted_groups_returns (collect_groups rows group_by agg_col))
      as [sorted Hs].
    { destruct Hkeys as [Hnone|Hlen].
      - left. by rewrite Hperm.
      - right. by rewrite <- (length_fmap fst), Hperm. }
    rewrite Hs. simpl. apply agg_records_returns.
    eapply Forall_impl; [apply (sorted_groups_members _ _ _ _ Hs)|].
    by intros grp [_ ?].
Qed.

(** ** Configuration errors *)

Lemma has_underscore_app (f c : string) : has_underscore (f ++ "_" ++ c) = true.
Proof. induction f as [|a f IH]; simpl; [done|]. rewrite IH. apply orb_true_r. Qed.

Lemma value_key_not_count (f c : string) : "count" <> (f ++ "_" ++ c)%string.
Proof.
  intros E. pose proof (has_underscore_app f c) as H.
  rewrite <- E in H. discriminate.
Qed.

Lemma agg_record_value group_by agg_col agg_func key agg count :
  dict_lookup (agg_func ++ "_" ++ agg_col)
    (agg_record group_by agg_col agg_func key agg count)
  = Some (CNum (py_round agg 2)).
Proof.
  unfold agg_record. rewrite !dict_lookup_set.
  rewrite decide_False by (intros E; by apply (value_key_not_count agg_func agg_col)).
  by rewrite decide_True.
Qed.

Lemma reduce_unknown agg_func values :
  agg_func ∉ known_reducers ->
  reduce agg_func values = reduce "sum" values.
Proof.
  intros Hf. destruct values as [|x xs]; [done|]. unfold reduce. f_equal.
  unfold dict_get. simpl. unfold known_reducers in Hf.
  rewrite !not_elem_of_cons in Hf. destruct Hf as (? & ? & ? & ? & ? & _).
  by rewrite !decide_False by done.
Qed.

Lemma agg_records_cons group_by agg_col agg_func key values groups :
  agg_records group_by agg_col agg_func ((key, values) :: groups)
  = agg ← reduce agg_func values;
    rest ← agg_records group_by agg_col agg_func groups;
    Ok (agg_record group_by agg_col agg_func key agg (len values) :: rest).
Proof. reflexivity. Qed.

#[local] Arguments agg_record : simpl never.

Lemma agg_records_unknown group_by agg_col agg_func groups :
  agg_func ∉ known_reducers ->
  fmap (M := list) (dict_lookup (agg_func ++ "_" ++ agg_col))
    <$> agg_records group_by agg_col agg_func groups
  = fmap (M := list) (dict_lookup ("sum" ++ "_" ++ agg_col))
      <$> agg_records group_by agg_col "sum" groups.
Proof.
  intros Hf. induction groups as [|[key values] groups IH]; [done|].
  rewrite !agg_records_cons, (reduce_unknown _ _ Hf).
  destruct (reduce "sum" values) as [agg|]; [|done]. cbn [mbind result_bind].
  destruct (agg_records group_by agg_col agg_func groups) as [rest|e];
    destruct (agg_records group_by agg_col "sum" groups) as [rest'|e'];
    cbn in IH |- *; try done.
  injection IH as IH. rewrite IH. do 2 f_equal.
  by rewrite (agg_record_value group_by agg_col agg_func),
    (agg_record_value group_by agg_col "sum").
Qed.

(** C9.  A reducer that [aggregate] does not know is replaced by the
    sum: the call returns or raises as the call with ["sum"] does, and
    its records hold, under the name of the unknown reducer, the values
    that those of the sum hold.  A format that [save_dataset] does not
    know makes it raise [ValueError], and no file is written. *)
Theorem unknown_reducer_and_unknown_format :
  (forall rows group_by agg_col agg_func,
     agg_func ∉ known_reducers ->
     (forall values, reduce agg_func values = reduce "sum" values)
     /\ fmap (M := list) (dict_lookup (agg_func ++ "_" ++ agg_col))
          <$> aggregate rows group_by agg_col agg_func
        = fmap (M := list) (dict_lookup ("sum" ++ "_" ++ agg_col))
            <$> aggregate rows group_by agg_col "sum")
  /\ (forall (R : Type) (records : list R) output_path format fs,
        format <> "jsonl" -> format <> "json" ->
        (save_dataset records output_path format fs).1
        = Raise (ValueError ("Unknown format: " ++ format))
        /\ files (save_dataset records output_path format fs).2 = files fs).
Proof.
  split.
  - intros rows group_by agg_col agg_func Hf.
    split; [intros values; by apply reduce_unknown|].
    unfold aggregate. destruct (sorted_groups _) as [sorted|]; [|done].
    by apply agg_records_unknown.
  - intros R records output_path format fs H1 H2. unfold save_dataset.
    by rewrite !decide_False by done.
Qed.

End AggregateFacts.

Lemma aggregate_included_rows_witness :
  let rows : list row :=
    [[("dept", VStr "Eng"); ("salary", VStr "95000")];
     [("dept", VStr "Eng"); ("salary", VStr "n/a")]] in
  exists out,
    aggregate (lib := CPython311.lib) rows "dept" "salary" "sum" = Ok out
    /\ out = [[("dept", CKey (VStr "Eng"));
               ("sum_salary", CNum (NFloat (S754_finite false 6528350289920000 (-36))));
               ("count", CNum (NInt 1))]]
    /\ Forall (fun record => dict_lookup "count" record = Some (CNum (NInt 1))) out.
Proof.
  intros rows.
  destruct (aggregate (lib := CPython311.lib) rows "dept" "salary" "sum")
    as [out|e] eqn:Hrun; [|vm_compute in Hrun; discriminate].
  destruct (proj1 (proj2 (aggregate_included_rows (lib := CPython311.lib)
                            rows "dept" "salary" "sum")) out Hrun)
    as (keys & Hkeys & Hrec).
  exists out. split; [done|].
  assert (out = [[("dept", CKey (VStr "Eng"));
                  ("sum_salary", CNum (NFloat (S754_finite false 6528350289920000 (-36))));
                  ("count", CNum (NInt 1))]]) as Hout.
  { vm_compute in Hrun. congruence. }
  split; [done|]. rewrite Hout. repeat constructor.
Defined.

(** The statement of C3 fails on a row without the value column: the
    row is counted, with the value [0.0], and no content of it parses. *)
Lemma aggregate_counts_counterexample :
  ~ counts_parsed_rows (lib := CPython311.lib)
      [[("dept", VStr "Eng")]] "dept" "salary" "sum".
Proof.
  intros H.
  specialize (H [[("dept", CKey (VStr "Eng"));
                  ("sum_salary", CNum (NFloat (S754_zero false)));
                  ("count", CNum (NInt 1))]]
                [("dept", CKey (VStr "Eng"));
                 ("sum_salary", CNum (NFloat (S754_zero false)));
                 ("count", CNum (NInt 1))]
                (VStr "Eng") eq_refl (list_elem_of_here _ _) eq_refl).
  vm_compute in H. discriminate.
Qed.

Lemma unknown_reducer_and_unknown_format_witness :
  let rows : list row :=
    [[("dept", VStr "Eng"); ("salary", VStr "95000")];
     [("dept", VStr "Ops"); ("salary", VStr "1,5")];
     [("dept", VStr "Eng"); ("salary", VStr "5e3")]] in
  (fmap (M := list) (dict_lookup "median_salary")
     <$> aggregate (lib := CPython311.lib) rows "dept" "salary" "median"
   = Ok [Some (CNum (NFloat (S754_finite false 6871947673600000 (-36))))])
  /\ (save_dataset rows "out/data.csv" "csv" (FileSystem [] [])).1
     = Raise (ValueError "Unknown format: csv").
Proof.
  intros rows. split.
  - destruct (proj1 (unknown_reducer_and_unknown_format (lib := CPython311.lib))
                rows "dept" "salary" "median") as [_ Hsum].
    + unfold known_reducers. rewrite !not_elem_of_cons.
      repeat split; try discriminate. apply not_elem_of_nil.
    + etrans; [exact Hsum|]. vm_compute. reflexivity.
  - by destruct (proj2 (unknown_reducer_and_unknown_format (lib := CPython311.lib))
                   row rows "out/data.csv" "csv" (FileSystem [] [])) as [-> _].
Defined.

(** ** Programs on the store *)

Lemma M_bind_run {A B} (m : M A) (f : A -> M B) (h : heap) :
  (m ≫= f) h
  = match m h with
    | (Ok a, h') => f a h'
    | (Raise e, h') => (Raise e, h')
    end.
Proof. reflexivity. Qed.

Lemma heap_extends_refl h : heap_extends h h.
Proof. by intros l _. Qed.

Lemma heap_extends_dom h h' l : heap_extends h h' -> l ∈ dom h -> l ∈ dom h'.
Proof.
  intros He Hl. apply elem_of_dom. rewrite (He l Hl). by apply elem_of_dom.
Qed.

Lemma heap_extends_trans h1 h2 h3 :
  heap_extends h1 h2 -> heap_extends h2 h3 -> heap_extends h1 h3.
Proof.
  intros H12 H23 l Hl. rewrite (H23 l), (H12 l); eauto using heap_extends_dom.
Qed.

Lemma heap_extends_insert h l d : l ∉ dom h -> heap_extends h (<[l := d]> h).
Proof.
  intros Hl l' Hl'. apply lookup_insert_ne. by intros ->.
Qed.

Lemma holds_deref h ls ds : holds h ls ds -> deref h ls = ds.
Proof.
  induction 1 as [|l d ls ds Hl _ IH]; [done|].
  unfold deref in *. csimpl. by rewrite Hl, IH.
Qed.

Lemma holds_dom h ls ds : holds h ls ds -> Forall (fun l => l ∈ dom h) ls.
Proof.
  induction 1 as [|l d ls ds Hl _ IH]; constructor; [|done].
  apply elem_of_dom. by rewrite Hl.
Qed.

Lemma holds_of_dom h ls : Forall (fun l => l ∈ dom h) ls -> holds h ls (deref h ls).
Proof.
  induction 1 as [|l ls Hl _ IH]; [constructor|].
  unfold deref. csimpl. constructor; [|done].
  apply elem_of_dom in Hl as [d ->]. done.
Qed.

Lemma holds_extends h h' ls ds :
  heap_extends h h' -> holds h ls ds -> holds h' ls ds.
Proof.
  intros He. induction 1 as [|l d ls ds Hl _ IH]; constructor; [|done].
  rewrite (He l); [done|]. apply elem_of_dom. by rewrite Hl.
Qed.

(** Objects that are not in [ls] keep their values. *)
Lemma holds_frame h h' ls ds :
  (forall l, l ∈ ls -> h' !! l = h !! l) -> holds h ls ds -> holds h' ls ds.
Proof.
  intros Hf Hh. induction Hh as [|l d ls ds Hl _ IH]; constructor.
  - rewrite Hf; [done|left].
  - apply IH. intros l' Hl'. apply Hf. by right.
Qed.

(** *** The copies *)

Lemma alloc_each_spec f rows h :
  Forall (fun l => l ∈ dom h) rows ->
  exists ls h',
    alloc_each f rows h = (Ok ls, h')
    /\ heap_extends h h'
    /\ NoDup ls
    /\ Forall (fun l => l ∉ dom h) ls
    /\ holds h' ls (f <$> deref h rows).
Proof.
  revert h. induction rows as [|l rows IH]; intros h Hrows.
  - exists [], h. repeat split; auto using heap_extends_refl, NoDup_nil_2; constructor.
  - apply Forall_cons in Hrows as [Hl Hrows].
    set (d := default [] (h !! l)).
    set (l' := fresh (dom h)).
    assert (l' ∉ dom h) as Hfresh by apply is_fresh.
    set (h1 := <[l' := f d]> h).
    assert (heap_extends h h1) as He1 by (by apply heap_extends_insert).
    destruct (IH h1) as (ls & h' & Hrun & He & Hnd & Hfr & Hh).
    { eapply Forall_impl; [exact Hrows|]. intros; by eapply heap_extends_dom. }
    exists (l' :: ls), h'.
    assert (l' ∈ dom h1) as Hl'1.
    { apply elem_of_dom. unfold h1. rewrite lookup_insert_eq. by eexists. }
    split; [|split; [|split; [|split]]].
    + cbn [alloc_each]. rewrite M_bind_run. cbn [load].
      rewrite M_bind_run. cbn [alloc]. fold d l' h1.
      rewrite M_bind_run, Hrun. done.
    + by eapply heap_extends_trans.
    + constructor; [|done]. intros Hin.
      rewrite Forall_forall in Hfr. by apply (Hfr l').
    + constructor; [done|]. eapply Forall_impl; [exact Hfr|].
      intros x Hx Hx'. apply Hx. by eapply heap_extends_dom.
    + change (deref h (l :: rows)) with (d :: deref h rows).
      rewrite fmap_cons. constructor.
      * rewrite (He l' Hl'1). unfold h1. by rewrite lookup_insert_eq.
      * assert (deref h1 rows = deref h rows) as <-; [|done].
        unfold deref. apply Forall_fmap_ext. eapply Forall_impl; [exact Hrows|].
        intros x Hx. simpl. by rewrite (He1 x Hx).
Qed.

(** *** The loops that assign to the copies *)

Lemma strip_each_spec cleaned h ds :
  NoDup cleaned -> holds h cleaned ds ->
  exists h',
    strip_each cleaned h = (Ok (), h')
    /\ holds h' cleaned (strip_row <$> ds)
    /\ (forall l, l ∉ cleaned -> h' !! l = h !! l).
Proof.
  intros Hnd Hh. revert h Hh.
  induction ds as [|d ds IH] in cleaned, Hnd |- *; intros h Hh.
  - apply Forall2_nil_inv_r in Hh as ->. exists h.
    split; [done|]. split; [constructor|done].
  - apply Forall2_cons_inv_r in Hh as (l & ls & Hl & Hh & ->).
    apply NoDup_cons in Hnd as [Hl' Hnd].
    set (h1 := <[l := strip_row d]> h).
    destruct (IH ls Hnd h1) as (h' & Hrun & Hh' & Hfr).
    { eapply holds_frame; [|exact Hh]. intros x Hx.
      unfold h1. apply lookup_insert_ne. by intros ->. }
    exists h'. split; [|split].
    + cbn [strip_each]. rewrite M_bind_run. cbn [load]. rewrite Hl. simpl.
      rewrite M_bind_run. cbn [store]. fold h1. done.
    + rewrite fmap_cons. constructor; [|done].
      rewrite (Hfr l Hl'). unfold h1. by rewrite lookup_insert_eq.
    + intros x [Hx Hxs]%not_elem_of_cons. rewrite (Hfr x Hxs).
      unfold h1. by apply lookup_insert_ne.
Qed.

Lemma dedup_each_spec cleaned seen unique h ds :
  holds h cleaned ds ->
  exists ls,
    dedup_each cleaned seen unique h = (Ok (unique ++ ls), h)
    /\ ls `sublist_of` cleaned
    /\ holds h ls (dedup_from seen ds).
Proof.
  intros Hh. revert seen unique.
  induction Hh as [|l d ls ds Hl Hh IH]; intros seen unique.
  - exists []. rewrite app_nil_r. split; [done|]. split; constructor.
  - cbn [dedup_each dedup_from]. rewrite M_bind_run. cbn [load]. rewrite Hl. simpl.
    destruct (decide (row_key d ∈ seen)).
    + destruct (IH seen unique) as (ls' & Hrun & Hs & Hh').
      exists ls'. split; [done|]. split; [by apply sublist_cons|done].
    + destruct (IH ({[row_key d]} ∪ seen) (unique ++ [l])) as (ls' & Hrun & Hs & Hh').
      exists (l :: ls'). rewrite Hrun, <- app_assoc.
      split; [done|]. split; [by apply sublist_skip|by constructor].
Qed.

Lemma fill_each_spec col fill cleaned count h ds :
  NoDup cleaned -> holds h cleaned ds ->
  exists h',
    (forall l, l ∉ cleaned -> h' !! l = h !! l)
    /\ match fill_column col fill ds with
       | Ok (ds', n) =>
           fill_each col fill cleaned count h = (Ok (count + n)%nat, h')
           /\ holds h' cleaned ds'
       | Raise e => fill_each col fill cleaned count h = (Raise e, h')
       end.
Proof.
  intros Hnd Hh. revert h count Hh.
  induction ds as [|d ds IH] in cleaned, Hnd |- *; intros h count Hh.
  - apply Forall2_nil_inv_r in Hh as ->. exists h. split; [done|]. simpl.
    rewrite Nat.add_0_r. split; [done|constructor].
  - apply Forall2_cons_inv_r in Hh as (l & ls & Hl & Hh & ->).
    apply NoDup_cons in Hnd as [Hl' Hnd].
    cbn [fill_each fill_column]. rewrite M_bind_run. cbn [load]. rewrite Hl. simpl.
    rewrite M_bind_run. unfold lift at 1.
    destruct (cell_is_null col d) as [null|e]; simpl.
    2:{ exists h. split; done. }
    destruct null.
    + set (h1 := <[l := dict_set col (VStr (py_str fill)) d]> h).
      destruct (IH ls Hnd h1 (S count)) as (h' & Hfr & Hrun).
      { eapply holds_frame; [|exact Hh]. intros x Hx.
        unfold h1. apply lookup_insert_ne. by intros ->. }
      exists h'. split.
      { intros x [Hx Hxs]%not_elem_of_cons. rewrite (Hfr x Hxs).
        unfold h1. by apply lookup_insert_ne. }
      rewrite M_bind_run. cbn [store]. fold h1.
      destruct (fill_column col fill ds) as [[ds' n]|e]; simpl; [|done].
      destruct Hrun as [-> Hh']. split; [f_equal; f_equal; lia|].
      constructor; [|done].
      rewrite (Hfr l Hl'). unfold h1. by rewrite lookup_insert_eq.
    + destruct (IH ls Hnd h count Hh) as (h' & Hfr & Hrun).
      exists h'. split.
      { intros x [Hx Hxs]%not_elem_of_cons. by apply Hfr. }
      destruct (fill_column col fill ds) as [[ds' n]|e]; simpl; [|done].
      destruct Hrun as [-> Hh']. split; [done|].
      constructor; [|done]. by rewrite (Hfr l Hl').
Qed.

Lemma fill_columns_st_spec fills cleaned changes h ds :
  NoDup cleaned -> holds h cleaned ds ->
  exists h',
    (forall l, l ∉ cleaned -> h' !! l = h !! l)
    /\ match fill_columns fills ds changes with
       | Ok (ds', log) =>
           fill_columns_st fills cleaned changes h = (Ok log, h')
           /\ holds h' cleaned ds'
       | Raise e => fill_columns_st fills cleaned changes h = (Raise e, h')
       end.
Proof.
  intros Hnd. revert changes h ds.
  induction fills as [|[col fill] fills IH]; intros changes h ds Hh.
  - exists h. split; [done|]. simpl. split; done.
  - cbn [fill_columns_st fill_columns]. rewrite M_bind_run.
    destruct (fill_each_spec col fill cleaned O h ds Hnd Hh) as (h1 & Hfr1 & Hrun1).
    destruct (fill_column col fill ds) as [[ds1 n]|e]; simpl.
    2:{ exists h1. rewrite Hrun1. split; done. }
    destruct Hrun1 as [-> Hh1]. simpl.
    destruct (IH (match n with
                  | O => changes
                  | S _ => changes ++ [FilledNulls n col fill]
                  end) h1 ds1 Hh1) as (h' & Hfr & Hrun).
    exists h'. split; [|done].
    intros x Hx. by rewrite (Hfr x Hx), (Hfr1 x Hx).
Qed.

(** *** The steps of [clean_dataset_st] *)

Lemma frame_extends h0 h h' cleaned :
  heap_extends h0 h ->
  Forall (fun l => l ∉ dom h0) cleaned ->
  (forall l, l ∉ cleaned -> h' !! l = h !! l) ->
  heap_extends h0 h'.
Proof.
  intros He Hfr Hf l Hl. rewrite Hf; [by apply He|].
  intros Hin. rewrite Forall_forall in Hfr. by apply (Hfr l).
Qed.

Lemma copy_step h0 rows :
  Forall (fun l => l ∈ dom h0) rows ->
  exists ls h,
    alloc_each id rows h0 = (Ok ls, h)
    /\ cleaned_inv h0 h ls (deref h0 rows).
Proof.
  intros Hrows.
  destruct (alloc_each_spec id rows h0 Hrows) as (ls & h & Hrun & He & Hnd & Hfr & Hh).
  rewrite list_fmap_id in Hh. by exists ls, h.
Qed.

Lemma alloc_step f h0 h cleaned ds :
  cleaned_inv h0 h cleaned ds ->
  exists ls h',
    alloc_each f cleaned h = (Ok ls, h')
    /\ cleaned_inv h0 h' ls (f <$> ds).
Proof.
  intros (He0 & Hnd0 & Hfr0 & Hh0).
  destruct (alloc_each_spec f cleaned h (holds_dom _ _ _ Hh0))
    as (ls & h' & Hrun & He & Hnd & Hfr & Hh).
  rewrite (holds_deref _ _ _ Hh0) in Hh.
  exists ls, h'. split; [done|]. split; [by eapply heap_extends_trans|].
  split; [done|]. split; [|done].
  eapply Forall_impl; [exact Hfr|]. intros l Hl Hl'. apply Hl.
  by eapply heap_extends_dom.
Qed.

Lemma strip_step h0 h cleaned ds :
  cleaned_inv h0 h cleaned ds ->
  exists h',
    strip_each cleaned h = (Ok (), h')
    /\ cleaned_inv h0 h' cleaned (strip_row <$> ds).
Proof.
  intros (He0 & Hnd0 & Hfr0 & Hh0).
  destruct (strip_each_spec cleaned h ds Hnd0 Hh0) as (h' & Hrun & Hh & Hf).
  exists h'. split; [done|]. split; [by eapply frame_extends|done].
Qed.

Lemma dedup_step_st h0 h cleaned ds :
  cleaned_inv h0 h cleaned ds ->
  exists unique,
    dedup_each cleaned ∅ [] h = (Ok unique, h)
    /\ cleaned_inv h0 h unique (remove_duplicate_rows ds).
Proof.
  intros (He0 & Hnd0 & Hfr0 & Hh0).
  destruct (dedup_each_spec cleaned ∅ [] h ds Hh0) as (ls & Hrun & Hs & Hh).
  exists ls. split; [done|]. rewrite remove_duplicate_rows_eq.
  split; [done|]. split; [by eapply sublist_NoDup|]. split; [|done].
  apply Forall_forall. intros l Hl. rewrite Forall_forall in Hfr0.
  apply Hfr0. by eapply elem_of_sublist.
Qed.

Lemma fill_step h0 h cleaned ds fills changes :
  cleaned_inv h0 h cleaned ds ->
  exists h',
    heap_extends h0 h'
    /\ match fill_columns fills ds changes with
       | Ok (ds', log) =>
           fill_columns_st fills cleaned changes h = (Ok log, h')
           /\ cleaned_inv h0 h' cleaned ds'
       | Raise e => fill_columns_st fills cleaned changes h = (Raise e, h')
       end.
Proof.
  intros (He0 & Hnd0 & Hfr0 & Hh0).
  destruct (fill_columns_st_spec fills cleaned changes h ds Hnd0 Hh0)
    as (h' & Hf & Hrun).
  assert (heap_extends h0 h') as He by (by eapply frame_extends).
  exists h'. split; [done|].
  destruct (fill_columns fills ds changes) as [[ds' log]|e]; [|done].
  destruct Hrun as [Hrun Hh]. done.
Qed.

Lemma cleaned_inv_length h0 h cleaned ds :
  cleaned_inv h0 h cleaned ds -> length cleaned = length ds.
Proof. intros (_ & _ & _ & Hh). by eapply Forall2_length. Qed.

Ltac run_program :=
  repeat progress (rewrite ?M_bind_run; unfold mret, M_ret; cbv beta iota).

(** [clean_dataset_st] computes the rows and the log of
    [clean_dataset], in objects that it makes, and leaves the objects
    of the store as they are. *)
Lemma clean_dataset_st_spec headers rows config h :
  Forall (fun l => l ∈ dom h) rows ->
  exists h',
    heap_extends h h'
    /\ match clean_dataset headers (deref h rows) config with
       | Ok (out, log) =>
           exists cleaned,
             clean_dataset_st headers rows config h = (Ok (cleaned, log), h')
             /\ cleaned_inv h h' cleaned out
       | Raise e => clean_dataset_st headers rows config h = (Raise e, h')
       end.
Proof.
  intros Hrows. unfold clean_dataset_st, clean_dataset.
  set (cfg := default empty_config config).
  destruct (copy_step h rows Hrows) as (ls0 & h0 & Hrun0 & Hinv0).
  rewrite M_bind_run, Hrun0.
  destruct (default true (strip_whitespace cfg)),
    (default true (remove_duplicates cfg)),
    (default [] (drop_columns cfg)) as [|c cs],
    (default [] (rename_columns cfg)) as [|rn rns].
  all: cbv iota.
  all: try (destruct (strip_step _ _ _ _ Hinv0) as (h1 & Hrun1 & Hinv1);
            rewrite ?M_bind_run, Hrun1).
  all: run_program.
  all: try match goal with
       | H : cleaned_inv ?hb ?hh ?ls ?ds |- context [dedup_each ?ls ∅ [] ?hh] =>
           let Hrun := fresh "Hrun" in
           let Hinv := fresh "Hinv" in
           destruct (dedup_step_st _ _ _ _ H) as (unique & Hrun & Hinv);
           rewrite ?M_bind_run, Hrun;
           rewrite (cleaned_inv_length _ _ _ _ H), (cleaned_inv_length _ _ _ _ Hinv);
           clear H
       end.
  all: run_program.
  all: match goal with
       | H : cleaned_inv ?hb ?hh ?ls ?ds
         |- context [fill_columns_st ?fills ?ls ?log ?hh] =>
           destruct (fill_step hb hh ls ds fills log H) as (h3 & He3 & Hrun3)
       end.
  all: destruct (fill_columns _ _ _) as [[r3 log3]|e];
    [destruct Hrun3 as [Hrun3 Hinv3]|];
    rewrite ?M_bind_run, Hrun3; run_program;
    cbn [mbind result_bind]; [|by exists h3].
  all: try match goal with
       | H : cleaned_inv ?hb ?hh ?ls ?ds
         |- context [alloc_each (drop_row ?cols) ?ls ?hh] =>
           let Hrun := fresh "Hrun" in
           let Hinv := fresh "Hinv" in
           destruct (alloc_step (drop_row cols) _ _ _ _ H) as (ls4 & h4 & Hrun & Hinv);
           rewrite ?M_bind_run, Hrun; clear H
       end.
  all: run_program.
  all: try match goal with
       | H : cleaned_inv ?hb ?hh ?ls ?ds
         |- context [alloc_each (rename_row ?rn) ?ls ?hh] =>
           let Hrun := fresh "Hrun" in
           let Hinv := fresh "Hinv" in
           destruct (alloc_step (rename_row rn) _ _ _ _ H) as (ls5 & h5 & Hrun & Hinv);
           rewrite ?M_bind_run, Hrun; clear H
       end.
  all: run_program.
  all: match goal with
       | H : cleaned_inv ?hb ?hh ?ls ?ds |- context [(Ok (?ls, _), ?hh)] =>
           exists hh; split; [apply H|]; exists ls; split; [reflexivity|exact H]
       end.
Qed.

(** *** The programs that read *)

Lemma column_values_run col rows h :
  column_values col rows h
  = (Ok ((fun r => dict_get r col (VStr "")) <$> deref h rows), h).
Proof.
  induction rows as [|l rows IH]; [done|].
  cbn [column_values]. rewrite M_bind_run. cbn [load].
  rewrite M_bind_run, IH. done.
Qed.

Section ReadersFacts.
Context {lib : NumericLib}.

Lemma profile_columns_st_run headers rows profiles h :
  profile_columns_st headers rows profiles h
  = (profile_columns headers (deref h rows) profiles, h).
Proof.
  revert profiles. induction headers as [|col headers IH]; intros profiles; [done|].
  cbn [profile_columns_st profile_columns].
  rewrite M_bind_run, column_values_run, M_bind_run. unfold lift.
  destruct (profile_column _ col) as [p|e]; [|done]. apply IH.
Qed.

Lemma collect_groups_st_run rows group_by agg_col groups h :
  collect_groups_st rows group_by agg_col groups h
  = (Ok (fold_left
           (fun groups r =>
              match agg_value_of agg_col r with
              | Some val => group_append (dict_get r group_by (VStr "")) val groups
              | None => groups
              end)
           (deref h rows) groups), h).
Proof.
  revert groups. induction rows as [|l rows IH]; intros groups; [done|].
  cbn [collect_groups_st]. rewrite M_bind_run. cbn [load].
  change (deref h (l :: rows)) with (default [] (h !! l) :: deref h rows).
  cbn [fold_left].
  destruct (agg_value_of agg_col (default [] (h !! l))); apply IH.
Qed.

(** C10.  [clean_dataset] works on copies: whatever it returns or
    raises, the objects of the store, and with them the rows that it
    was given, have the values that they had, and the rows that it
    returns are new objects that hold the cleaned values.
    [profile_dataset] and [aggregate] return their results and leave
    the store as it is. *)
Theorem operations_leave_rows_unchanged :
  (forall headers rows config h,
     Forall (fun l => l ∈ dom h) rows ->
     let h' := (clean_dataset_st headers rows config h).2 in
     heap_extends h h'
     /\ deref h' rows = deref h rows
     /\ match clean_dataset headers (deref h rows) config with
        | Ok (out, log) =>
            exists cleaned,
              (clean_dataset_st headers rows config h).1 = Ok (cleaned, log)
              /\ deref h' cleaned = out
              /\ Forall (fun l => l ∉ dom h) cleaned
        | Raise e => (clean_dataset_st headers rows config h).1 = Raise e
        end)
  /\ (forall headers rows h,
        profile_dataset_st headers rows h
        = (profile_dataset headers (deref h rows), h))
  /\ (forall rows group_by agg_col agg_func h,
        aggregate_st rows group_by agg_col agg_func h
        = (aggregate (deref h rows) group_by agg_col agg_func, h)).
Proof.
  split; [|split].
  - intros headers rows config h Hrows h'.
    destruct (clean_dataset_st_spec headers rows config h Hrows) as (h1 & He & Hrun).
    assert (h' = h1) as ->.
    { unfold h'. destruct (clean_dataset _ _ _) as [[out log]|e].
      - destruct Hrun as (cleaned & -> & _). done.
      - by rewrite Hrun. }
    split; [done|]. split.
    { unfold deref. apply Forall_fmap_ext. eapply Forall_impl; [exact Hrows|].
      intros l Hl. simpl. by rewrite (He l Hl). }
    destruct (clean_dataset _ _ _) as [[out log]|e].
    + destruct Hrun as (cleaned & -> & _ & _ & Hfr & Hh).
      exists cleaned. split; [done|]. split; [by apply holds_deref|done].
    + by rewrite Hrun.
  - intros headers rows h. apply profile_columns_st_run.
  - intros rows group_by agg_col agg_func h. unfold aggregate_st, aggregate.
    rewrite M_bind_run, collect_groups_st_run. reflexivity.
Qed.

End ReadersFacts.

Lemma operations_leave_rows_unchanged_witness :
  let a : row := [("name", VStr " Ann "); ("city", VStr "")] in
  let b : row := [("name", VStr "Bob"); ("city", VNone)] in
  let h : heap := <[2%positive := b]> (<[1%positive := a]> ∅) in
  let cfg := Config None None (Some [("city", FStr "Unknown")]) None None in
  (let run := clean_dataset_st ["name"; "city"] [1; 1]%positive (Some cfg) h in
   deref run.2 [1; 1]%positive = [a; a]
   /\ exists cleaned,
        run.1 = Ok (cleaned, [Stripped; RemovedDuplicates 1;
                              FilledNulls 1 "city" (FStr "Unknown")])
        /\ deref run.2 cleaned = [[("name", VStr "Ann"); ("city", VStr "Unknown")]])
  /\ (let run := clean_dataset_st ["name"; "city"] [1; 2]%positive (Some cfg) h in
      deref run.2 [1; 2]%positive = [a; b] /\ run.1 = Raise AttributeError).
Proof.
  intros a b h cfg.
  assert (forall rows, Forall (fun l => l ∈ [1; 2]%positive) rows ->
                       Forall (fun l => l ∈ dom h) rows) as Hdom.
  { intros rows H. eapply Forall_impl; [exact H|].
    intros l Hl. apply elem_of_dom. unfold h.
    apply elem_of_cons in Hl as [->|Hl]; [by eexists|].
    apply list_elem_of_singleton in Hl as ->. by eexists. }
  split.
  - destruct (proj1 (operations_leave_rows_unchanged (lib := CPython311.lib))
                ["name"; "city"] [1; 1]%positive (Some cfg) h) as (_ & Hrows & Hrun).
    { apply Hdom. repeat constructor. }
    split; [exact Hrows|].
    destruct Hrun as (cleaned & Hres & Hvals & _).
    exists cleaned. split; [exact Hres|exact Hvals].
  - destruct (proj1 (operations_leave_rows_unchanged (lib := CPython311.lib))
                ["name"; "city"] [1; 2]%positive (Some cfg) h) as (_ & Hrows & Hrun).
    { apply Hdom. repeat constructor. }
    split; [exact Hrows|exact Hrun].
Defined.

(** ** The demonstration of the script

    The rows of the [--demo] mode, cleaned and aggregated as the script
    does it. *)

Section Demo.
#[local] Existing Instance CPython311.lib.

Example demo_clean :
  clean_dataset ["name"; "department"; "salary"; "city"; "start_date"]
    demo_rows (Some demo_config)
  = Ok ([employee "John Smith" "Engineering" "95000" "San Francisco" "2022-03-15";
         employee "Sarah Johnson" "Marketing" "82000" "New York" "2021-06-01";
         employee "Michael Chen" "Engineering" "105000" "San Francisco" "2020-11-20";
         employee "Emily Davis" "Marketing" "78000" "New York" "2023-01-10";
         employee "Robert Wilson" "Sales" "" "Chicago" "2022-08-05";
         employee "Lisa Anderson" "Engineering" "98000" "Unknown" "2021-04-12";
         employee "David Brown" "Sales" "72000" "Chicago" "2023-03-01";
         employee "Jennifer Lee" "Marketing" "85000" "New York" "N/A";
         employee "Tom Harris" "Engineering" "110000" "San Francisco" "2020-07-18"],
        [Stripped; RemovedDuplicates 1;
         FilledNulls 1 "city" (FStr "Unknown");
         FilledNulls 1 "start_date" (FStr "N/A")]).
Proof. vm_compute. reflexivity. Qed.

(** The mean salary of each department: 102000.0 over four rows,
    81666.67 over three, and 72000.0 over the one row of Sales whose
    salary is not empty. *)
Example demo_aggregate :
  ('(cleaned, _) ← clean_dataset [] demo_rows (Some demo_config);
   aggregate cleaned "department" "salary" "mean")
  = Ok [[("department", CKey (VStr "Engineering"));
         ("mean_salary", CNum (NFloat (S754_finite false 7009386627072000 (-36))));
         ("count", CNum (NInt 4))];
        [("department", CKey (VStr "Marketing"));
         ("mean_salary", CNum (NFloat (S754_finite false 5612090829171589 (-36))));
         ("count", CNum (NInt 3))];
        [("department", CKey (VStr "Sales"));
         ("mean_salary", CNum (NFloat (S754_finite false 4947802324992000 (-36))));
         ("count", CNum (NInt 1))]].
Proof. vm_compute. reflexivity. Qed.

Example demo_profile_salary :
  (fun p => (type_of p, total_rows p, non_null p, null_count p, unique_count p))
    <$> profile_column ((fun r => dict_get r "salary" (VStr "")) <$> demo_rows) "salary"
  = Ok ("numeric", 10, 9, 1, 8).
Proof. vm_compute. reflexivity. Qed.

End Demo.

(** ** More on the deduplication *)

Lemma dedup_from_complete seen rows r :
  r ∈ rows ->
  row_key r ∈ seen
  \/ exists r', r' ∈ dedup_from seen rows /\ row_key r' = row_key r.
Proof.
  revert seen. induction rows as [|a rows IH]; intros seen Hr; [by apply elem_of_nil in Hr|].
  apply elem_of_cons in Hr as [->|Hr]; simpl.
  - destruct (decide (row_key a ∈ seen)); [by left|].
    right. exists a. split; [by left|done].
  - destruct (decide (row_key a ∈ seen)) as [Ha|Ha].
    + by apply IH.
    + destruct (IH ({[row_key a]} ∪ seen) Hr) as [Hin|(r' & Hr' & Hk)].
      * apply elem_of_union in Hin as [Hin%elem_of_singleton|Hin]; [|by left].
        right. exists a. split; [by left|done].
      * right. exists r'. split; [by right|done].
Qed.

Lemma NoDup_fmap_lookup {A B} (f : A -> B) (l : list A) i j x y :
  NoDup (f <$> l) -> l !! i = Some x -> l !! j = Some y -> f x = f y -> i = j.
Proof.
  intros Hnd Hi Hj Hf.
  eapply NoDup_lookup; [exact Hnd| |].
  - rewrite list_lookup_fmap, Hi. reflexivity.
  - rewrite list_lookup_fmap, Hj. simpl. by rewrite Hf.
Qed.

Lemma sublist_Forall {A} (P : A -> Prop) (l k : list A) :
  l `sublist_of` k -> Forall P k -> Forall P l.
Proof.
  intros Hs Hk. apply Forall_forall. intros x Hx.
  rewrite Forall_forall in Hk. apply Hk. by eapply elem_of_sublist.
Qed.

Lemma remove_duplicate_rows_distinct rows :
  Forall dict_wf rows ->
  let out := remove_duplicate_rows rows in
  out `sublist_of` rows
  /\ (forall r, r ∈ rows -> exists r', r' ∈ out /\ same_items r r')
  /\ distinct_rows out.
Proof.
  intros Hwf out. unfold out. rewrite remove_duplicate_rows_eq.
  pose proof (dedup_from_sublist ∅ rows) as Hsub.
  pose proof (sublist_Forall _ _ _ Hsub Hwf) as Hwf'.
  rewrite Forall_forall in Hwf, Hwf'.
  split; [done|]. split.
  - intros r Hr. destruct (dedup_from_complete ∅ rows r Hr) as [H|(r' & Hr' & Hk)];
      [by apply elem_of_empty in H|].
    exists r'. split; [done|].
    apply row_key_same_items; [by apply Hwf|by apply Hwf'|done].
  - intros i j ri rj Hi Hj Hsame.
    apply (NoDup_fmap_lookup row_key _ i j ri rj (dedup_from_NoDup ∅ rows) Hi Hj).
    apply row_key_same_items; [| |done].
    + apply Hwf'. by eapply list_elem_of_lookup_2.
    + apply Hwf'. by eapply list_elem_of_lookup_2.
Qed.

(** With [remove_duplicates] enabled and no later step configured, the
    rows that [clean_dataset] returns are rows of the stripped input in
    their order, each stripped row has a returned row with the same
    (column, value) pairs, and no two returned rows have the same
    pairs. *)
Theorem remove_duplicates_one_of_each headers rows config :
  only_strip_and_dedup config ->
  default true (remove_duplicates (default empty_config config)) = true ->
  Forall dict_wf rows ->
  let stripped := strip_transform (default empty_config config) rows in
  exists out log,
    clean_dataset headers rows config = Ok (out, log)
    /\ out `sublist_of` stripped
    /\ (forall r, r ∈ stripped -> exists r', r' ∈ out /\ same_items r r')
    /\ distinct_rows out.
Proof.
  intros (Hfill & Hdrop & Hren) Hdedup Hwf stripped.
  rewrite clean_dataset_spec. cbv zeta.
  unfold drop_transform, rename_transform, dedup_transform.
  rewrite Hfill, Hdrop, Hren, Hdedup. cbn [all_fillable fill_rows fold_left].
  eexists _, _. split; [reflexivity|].
  apply remove_duplicate_rows_distinct. by apply strip_transform_wf.
Qed.

Lemma remove_duplicates_one_of_each_witness :
  let rows : list row :=
    [[("name", VStr "Ann "); ("city", VStr "NYC")];
     [("name", VStr "Bob"); ("city", VStr "LA")];
     [("city", VStr " NYC"); ("name", VStr "Ann")]] in
  exists out log,
    clean_dataset [] rows None = Ok (out, log)
    /\ out `sublist_of` (strip_row <$> rows)
    /\ distinct_rows out.
Proof.
  intros rows.
  destruct (remove_duplicates_one_of_each [] rows None) as (out & log & H1 & H2 & _ & H3).
  - repeat split.
  - reflexivity.
  - refine (bool_decide_eq_true_1 _ _). vm_compute. reflexivity.
  - exists out, log. split; [exact H1|]. split; [exact H2|exact H3].
Defined.

(** ** The number of rows *)

Lemma length_fill_rows fills rows : length (fill_rows fills rows) = length rows.
Proof.
  unfold fill_rows. revert rows.
  induction fills as [|[col fill] fills IH]; intros rows; [done|].
  simpl. by rewrite IH, length_fmap.
Qed.

Lemma length_drop_transform cfg rows : length (drop_transform cfg rows) = length rows.
Proof. unfold drop_transform. destruct (default [] _); [done|apply length_fmap]. Qed.

Lemma length_rename_transform cfg rows :
  length (rename_transform cfg rows) = length rows.
Proof. unfold rename_transform. destruct (default [] _); [done|apply length_fmap]. Qed.

Lemma fill_entries_elem_of fills rows c :
  c ∈ fill_entries fills rows -> exists n col fill, c = FilledNulls n col fill.
Proof.
  revert rows. induction fills as [|[col fill] fills IH]; intros rows; simpl.
  - by intros ?%elem_of_nil.
  - intros [H|H]%elem_of_app; [|by eapply IH].
    destruct (length _); [by apply elem_of_nil in H|].
    apply list_elem_of_singleton in H. by eexists _, _, _.
Qed.

Lemma removed_elem_of_log cfg r1 fills r2 n :
  RemovedDuplicates n
    ∈ strip_log cfg ++ dedup_log cfg r1 ++ fill_entries fills r2
      ++ drop_log cfg ++ rename_log cfg ->
  RemovedDuplicates n ∈ dedup_log cfg r1.
Proof.
  rewrite !elem_of_app. intros [H|[H|[H|[H|H]]]]; [|done| | |].
  - unfold strip_log in H. destruct (default true _);
      [by apply list_elem_of_singleton in H|by apply elem_of_nil in H].
  - by apply fill_entries_elem_of in H as (? & ? & ? & ?).
  - unfold drop_log in H. destruct (default [] _);
      [by apply elem_of_nil in H|by apply list_elem_of_singleton in H].
  - unfold rename_log in H. destruct (default [] _);
      [by apply elem_of_nil in H|by apply list_elem_of_singleton in H].
Qed.

Lemma dedup_log_elem_of cfg rows n :
  RemovedDuplicates n ∈ dedup_log cfg rows
  <-> (0 < n)%nat /\ (length (dedup_transform cfg rows) + n)%nat = length rows.
Proof.
  unfold dedup_log, dedup_transform.
  pose proof (remove_duplicate_rows_length rows) as Hle.
  destruct (default true (remove_duplicates cfg)).
  - destruct (length rows - length (remove_duplicate_rows rows))%nat as [|k] eqn:E.
    + rewrite elem_of_nil. split; [done|lia].
    + rewrite list_elem_of_singleton. split; [intros [= ->]; lia|].
      intros [? ?]. f_equal. lia.
  - rewrite elem_of_nil. split; [done|lia].
Qed.

(** No step but the deduplication changes the number of rows: a run
    that returns gives as many rows as it received, less the number
    that the log reports as removed duplicates, and that entry of the
    log is there whenever a row was removed. *)
Theorem clean_dataset_row_count headers rows config out log :
  clean_dataset headers rows config = Ok (out, log) ->
  (length out <= length rows)%nat
  /\ (default true (remove_duplicates (default empty_config config)) = false ->
      length out = length rows)
  /\ (forall n, RemovedDuplicates n ∈ log ->
                (0 < n)%nat /\ (length out + n)%nat = length rows)
  /\ (length out < length rows ->
      RemovedDuplicates (length rows - length out) ∈ log)%nat.
Proof.
  rewrite clean_dataset_spec. cbv zeta.
  destruct (all_fillable _ _); [|done]. intros [= <- <-].
  rewrite length_rename_transform, length_drop_transform, length_fill_rows.
  set (cfg := default empty_config config).
  assert (length (strip_transform cfg rows) = length rows) as Hstrip.
  { unfold strip_transform. destruct (default true _); [apply length_fmap|done]. }
  assert (length (dedup_transform cfg (strip_transform cfg rows)) <= length rows)%nat
    as Hle.
  { rewrite <- Hstrip. unfold dedup_transform.
    destruct (default true _); [apply remove_duplicate_rows_length|done]. }
  split; [done|]. split; [|split].
  - intros Hd. unfold dedup_transform. by rewrite Hd.
  - intros n Hn%removed_elem_of_log%dedup_log_elem_of. by rewrite <- Hstrip.
  - intros Hlt. rewrite !elem_of_app. right. left.
    apply dedup_log_elem_of. rewrite Hstrip. lia.
Qed.

Lemma clean_dataset_row_count_witness :
  exists out log,
    clean_dataset [] [[("a", VStr "x")]; [("a", VStr " x")]; [("a", VStr "x ")];
                      [("a", VStr "y")]] None = Ok (out, log)
    /\ RemovedDuplicates 2 ∈ log /\ length out = 2%nat.
Proof.
  set (rows := [[("a", VStr "x")]; [("a", VStr " x")]; [("a", VStr "x ")];
                [("a", VStr "y")]]).
  destruct (clean_dataset [] rows None) as [[out log]|e] eqn:Hrun;
    [|vm_compute in Hrun; discriminate].
  destruct (clean_dataset_row_count [] rows None out log Hrun) as (_ & _ & Hn & Hlt).
  assert (length out = 2%nat) as Hlen.
  { vm_compute in Hrun. injection Hrun as <- _. reflexivity. }
  exists out, log. split; [done|]. split; [|done].
  rewrite Hlen in Hlt. apply Hlt. simpl. lia.
Defined.

(** ** Rows that are clean already *)

Lemma stripped_row_fixed r : stripped_row r -> strip_row r = r.
Proof.
  intros Hs. unfold strip_row.
  induction r as [|[k v] r IH]; [done|].
  rewrite fmap_cons. f_equal.
  - destruct v as [|s]; [done|]. unfold prod_map. simpl. f_equal. f_equal.
    apply (Hs k). by left.
  - apply IH. intros k' s' Hin. apply (Hs k'). by right.
Qed.

Lemma distinct_rows_NoDup rows :
  Forall dict_wf rows -> distinct_rows rows -> NoDup (row_key <$> rows).
Proof.
  intros Hwf Hd. apply NoDup_alt. intros i j x.
  rewrite !list_lookup_fmap. intros Hi Hj.
  destruct (rows !! i) as [ri|] eqn:Hri; [|done].
  destruct (rows !! j) as [rj|] eqn:Hrj; [|done].
  simpl in Hi, Hj. apply (Hd i j ri rj Hri Hrj).
  rewrite Forall_forall in Hwf.
  apply row_key_same_items; [| |congruence].
  - apply Hwf. by eapply list_elem_of_lookup_2.
  - apply Hwf. by eapply list_elem_of_lookup_2.
Qed.

(** Rows whose texts are stripped and of which no two hold the same
    pairs come back as they are from [clean_dataset] with its default
    configuration; the log has the entry of the strip step and no
    other. *)
Theorem clean_dataset_clean_rows_unchanged headers rows :
  Forall dict_wf rows -> Forall stripped_row rows -> distinct_rows rows ->
  clean_dataset headers rows None = Ok (rows, [Stripped]).
Proof.
  intros Hwf Hs Hd. rewrite clean_dataset_spec. cbv zeta.
  unfold strip_transform, dedup_transform, drop_transform, rename_transform,
    strip_log, dedup_log, drop_log, rename_log. simpl.
  assert (strip_row <$> rows = rows) as ->.
  { clear Hwf Hd. induction Hs as [|r rows Hr _ IH]; [done|].
    rewrite fmap_cons, IH. f_equal. by apply stripped_row_fixed. }
  assert (remove_duplicate_rows rows = rows) as ->.
  { rewrite remove_duplicate_rows_eq. apply dedup_from_distinct.
    - by apply distinct_rows_NoDup.
    - apply Forall_forall. intros r _. apply not_elem_of_empty. }
  by rewrite Nat.sub_diag.
Qed.

Lemma clean_dataset_clean_rows_unchanged_witness :
  let rows : list row :=
    [[("name", VStr "Ann"); ("city", VNone)];
     [("name", VStr "Bob"); ("city", VStr "")]] in
  clean_dataset ["name"; "city"] rows None = Ok (rows, [Stripped]).
Proof.
  intros rows. apply clean_dataset_clean_rows_unchanged.
  - refine (bool_decide_eq_true_1 _ _). vm_compute. reflexivity.
  - repeat constructor; intros k s Hin;
      repeat (apply elem_of_cons in Hin as [Hin|Hin]; [by simplify_eq|]);
      by apply elem_of_nil in Hin.
  - intros i j ri rj Hi Hj Hsame.
    destruct i as [|[|i]], j as [|[|j]]; simplify_eq/=; try done.
    + exfalso. assert (("name", VStr "Ann") ∈ [("name", VStr "Bob"); ("city", VStr "")]) as Hin
        by (apply Hsame; by left).
      repeat (apply elem_of_cons in Hin as [Hin|Hin]; [by simplify_eq|]).
      by apply elem_of_nil in Hin.
    + exfalso. assert (("name", VStr "Bob") ∈ [("name", VStr "Ann"); ("city", VNone)]) as Hin
        by (apply Hsame; by left).
      repeat (apply elem_of_cons in Hin as [Hin|Hin]; [by simplify_eq|]).
      by apply elem_of_nil in Hin.
Defined.

(** ** Dictionaries, continued *)

Lemma dict_lookup_Some {V} (d : dict V) (k : string) (v : V) :
  dict_wf d -> dict_lookup k d = Some v <-> (k, v) ∈ d.
Proof.
  unfold dict_wf. induction d as [|[k' v'] d IH]; simpl; intros Hwf.
  - split; [done|by intros ?%elem_of_nil].
  - apply NoDup_cons in Hwf as [Hk' Hwf]. destruct (decide (k = k')) as [->|Hne].
    + split.
      * intros [= ->]. by left.
      * intros [[= ->]|Hin]%elem_of_cons; [done|].
        exfalso. apply Hk'. apply list_elem_of_fmap. by exists (k', v).
    + rewrite (IH Hwf). split; [by right|].
      intros [[= -> ->]|Hin]%elem_of_cons; done.
Qed.

Lemma same_items_lookup (a b : row) (k : string) :
  dict_wf a -> dict_wf b -> same_items a b -> dict_lookup k a = dict_lookup k b.
Proof.
  intros Ha Hb Hab.
  destruct (dict_lookup k a) as [v|] eqn:Hka.
  - symmetry. apply dict_lookup_Some; [done|]. apply Hab. by apply dict_lookup_Some.
  - destruct (dict_lookup k b) as [v|] eqn:Hkb; [|done].
    apply dict_lookup_Some in Hkb; [|done]. apply Hab in Hkb.
    apply dict_lookup_Some in Hkb; [|done]. congruence.
Qed.

Lemma dict_set_fresh {V} (k : string) (v : V) (d : dict V) :
  k ∉ d.*1 -> dict_set k v d = d ++ [(k, v)].
Proof.
  induction d as [|[k' v'] d IH]; [done|]. csimpl.
  intros [Hne Hk]%not_elem_of_cons.
  rewrite decide_False by done. f_equal. by apply IH.
Qed.

Lemma elem_of_dict_set_keys {V} (k : string) (v : V) (d : dict V) (x : string) :
  x ∈ (dict_set k v d).*1 <-> x = k \/ x ∈ d.*1.
Proof.
  destruct (decide (k ∈ d.*1)) as [Hin|Hout].
  - rewrite dict_set_keys_in by done. split; [by right|]. by intros [->|?].
  - rewrite dict_set_keys_fresh by done. rewrite elem_of_app, list_elem_of_singleton.
    tauto.
Qed.

Lemma strip_row_lookup r k :
  dict_lookup k (strip_row r) = strip_value <$> dict_lookup k r.
Proof.
  unfold strip_row. induction r as [|[k' v] r IH]; [done|]. csimpl.
  destruct (decide (k = k')); [done|apply IH].
Qed.

(** ** The rename step *)

Lemma rename_row_wf rename (r : row) : dict_wf (rename_row rename r).
Proof.
  induction r as [|kv r IH] using rev_ind; [apply NoDup_nil_2|].
  rewrite rename_row_snoc. by apply dict_set_wf.
Qed.

Lemma rename_row_keys rename (r : row) (k : string) :
  k ∈ (rename_row rename r).*1 <-> k ∈ new_name rename <$> r.*1.
Proof.
  induction r as [|kv r IH] using rev_ind; [done|].
  rewrite rename_row_snoc, elem_of_dict_set_keys, IH.
  rewrite !fmap_app, elem_of_app. simpl. rewrite list_elem_of_singleton.
  unfold new_name. tauto.
Qed.

Lemma rename_row_lookup rename (r : row) (k : string) :
  dict_lookup k (rename_row rename r)
  = snd <$> last (filter (fun kv => new_name rename kv.1 = k) r).
Proof.
  induction r as [|kv r IH] using rev_ind; [done|].
  rewrite rename_row_snoc, dict_lookup_set, filter_app, last_app, IH.
  rewrite filter_cons, filter_nil. unfold new_name.
  destruct (decide (k = dict_get rename kv.1 kv.1)) as [->|Hne].
  - by rewrite decide_True.
  - by rewrite decide_False.
Qed.

Lemma rename_row_injective rename (r : row) :
  NoDup (new_name rename <$> r.*1) ->
  rename_row rename r = prod_map (new_name rename) id <$> r.
Proof.
  induction r as [|kv r IH] using rev_ind; [done|].
  rewrite !fmap_app. intros [Hnd [Hfresh _]]%NoDup_app.
  rewrite rename_row_snoc, IH by done.
  rewrite dict_set_fresh; [done|].
  intros Hin. apply (Hfresh (new_name rename kv.1)).
  - rewrite <- list_fmap_compose in Hin.
    rewrite <- list_fmap_compose. exact Hin.
  - by left.
Qed.

(** The rename step gives each item of a row its new name, all at once;
    where two items get the same name, the later one of the row gives
    the value, and the row has one column fewer.  It keeps all its
    items, in their order, exactly when the new names are distinct. *)
Theorem rename_row_merges_collisions rename (r : row) :
  dict_wf (rename_row rename r)
  /\ (rename_row rename r).*1 ≡ₚ remove_dups (new_name rename <$> r.*1)
  /\ (forall k,
        dict_lookup k (rename_row rename r)
        = snd <$> last (filter (fun kv => new_name rename kv.1 = k) r))
  /\ (NoDup (new_name rename <$> r.*1) ->
      rename_row rename r = prod_map (new_name rename) id <$> r)
  /\ (~ NoDup (new_name rename <$> r.*1) ->
      (length (rename_row rename r) < length r)%nat).
Proof.
  assert ((rename_row rename r).*1 ≡ₚ remove_dups (new_name rename <$> r.*1)) as Hperm.
  { apply NoDup_Permutation.
    - apply rename_row_wf.
    - apply NoDup_remove_dups.
    - intros k. by rewrite rename_row_keys, elem_of_remove_dups. }
  split; [apply rename_row_wf|]. split; [done|].
  split; [apply rename_row_lookup|]. split; [apply rename_row_injective|].
  intros Hnd.
  rewrite <- (length_fmap fst (rename_row rename r)), Hperm.
  rewrite <- (length_fmap fst r), <- (length_fmap (new_name rename) r.*1).
  generalize (new_name rename <$> r.*1) Hnd. clear.
  intros l. induction l as [|x l IH]; intros Hnd; [destruct Hnd; constructor|].
  simpl. destruct (decide_rel _ x l) as [Hin|Hout].
  - assert (length (remove_dups l) <= length l)%nat; [|lia].
    clear. induction l as [|y l IH]; simpl; [done|].
    destruct (decide_rel _ y l); simpl; lia.
  - simpl. assert (length (remove_dups l) < length l)%nat; [|lia].
    apply IH. intros Hl. apply Hnd. by constructor.
Qed.

Lemma rename_row_merges_collisions_witness :
  rename_row [("a", "b"); ("b", "a")] [("a", VStr "1"); ("b", VStr "2"); ("c", VNone)]
  = [("b", VStr "1"); ("a", VStr "2"); ("c", VNone)]
  /\ (length (rename_row [("a", "c")] [("a", VStr "1"); ("b", VStr "2"); ("c", VNone)])
      < 3)%nat.
Proof.
  split.
  - rewrite (proj1 (proj2 (proj2 (proj2 (rename_row_merges_collisions
               [("a", "b"); ("b", "a")]
               [("a", VStr "1"); ("b", VStr "2"); ("c", VNone)]))))).
    + reflexivity.
    + refine (bool_decide_eq_true_1 _ _). vm_compute. reflexivity.
  - apply (proj2 (proj2 (proj2 (proj2 (rename_row_merges_collisions
               [("a", "c")] [("a", VStr "1"); ("b", VStr "2"); ("c", VNone)]))))).
    refine (bool_decide_eq_false_1 _ _). vm_compute. reflexivity.
Defined.

(** ** The drop step *)

Lemma drop_row_keys cols (r : row) :
  (drop_row cols r).*1 = filter (fun k => k ∉ cols) r.*1.
Proof.
  unfold drop_row. induction r as [|[k v] r IH]; [done|].
  rewrite fmap_cons, !filter_cons. simpl.
  destruct (decide (k ∉ cols)); [rewrite fmap_cons|]; by rewrite IH.
Qed.

Lemma drop_row_lookup cols (r : row) (c : string) :
  dict_lookup c (drop_row cols r)
  = if decide (c ∈ cols) then None else dict_lookup c r.
Proof.
  unfold drop_row. induction r as [|[k v] r IH].
  - simpl. by destruct (decide (c ∈ cols)).
  - rewrite filter_cons. simpl. destruct (decide (k ∉ cols)) as [Hk|Hk]; simpl.
    + destruct (decide (c = k)) as [->|Hne]; [by rewrite decide_False|apply IH].
    + destruct (decide (c = k)) as [->|Hne]; [|apply IH].
      rewrite IH. destruct (decide (k ∈ cols)); [done|]. by destruct Hk.
Qed.

(** Without a rename step, the rows that [clean_dataset] returns are the
    filled rows without the columns of [drop_columns]: these columns
    are gone, every other column is where it was, with its value, and a
    column of the list that a row does not have is no error. *)
Theorem drop_columns_postcondition headers rows cfg out log :
  default [] (rename_columns cfg) = [] ->
  clean_dataset headers rows (Some cfg) = Ok (out, log) ->
  let cols := default [] (drop_columns cfg) in
  exists filled,
    fill_transform cfg (dedup_transform cfg (strip_transform cfg rows)) = Ok filled
    /\ Forall2
         (fun r o =>
            o.*1 = filter (fun k => k ∉ cols) r.*1
            /\ forall c, dict_lookup c o
                         = if decide (c ∈ cols) then None else dict_lookup c r)
         filled out.
Proof.
  intros Hren. rewrite clean_dataset_spec. cbv zeta. simpl.
  unfold fill_transform. rewrite fill_columns_spec.
  destruct (all_fillable _ _); [|done]. intros [= <- _]. simpl.
  eexists. split; [reflexivity|].
  unfold rename_transform, drop_transform. rewrite Hren.
  destruct (default [] (drop_columns cfg)) as [|c0 cols] eqn:Hdrop.
  - apply Forall_Forall2_diag, Forall_forall. intros r _. split.
    + induction r.*1 as [|k ks IH]; [done|].
      rewrite filter_cons_True by apply not_elem_of_nil. by f_equal.
    + intros c. rewrite decide_False; [done|apply not_elem_of_nil].
  - apply Forall2_fmap_r, Forall_Forall2_diag, Forall_forall. intros r _.
    split; [apply drop_row_keys|apply drop_row_lookup].
Qed.

Lemma drop_columns_postcondition_witness :
  exists out log,
    clean_dataset [] [[("a", VStr "1"); ("b", VStr "2"); ("c", VStr "3")];
                      [("c", VStr "4")]]
      (Some (Config None None None (Some ["b"; "zzz"]) None)) = Ok (out, log)
    /\ out = [[("a", VStr "1"); ("c", VStr "3")]; [("c", VStr "4")]].
Proof.
  set (rows := [[("a", VStr "1"); ("b", VStr "2"); ("c", VStr "3")]; [("c", VStr "4")]]).
  set (cfg := Config None None None (Some ["b"; "zzz"]) None).
  destruct (clean_dataset [] rows (Some cfg)) as [[out log]|e] eqn:Hrun;
    [|vm_compute in Hrun; discriminate].
  destruct (drop_columns_postcondition [] rows cfg out log eq_refl Hrun)
    as (filled & Hfilled & _).
  exists out, log. split; [done|].
  vm_compute in Hrun. by injection Hrun as <- _.
Defined.

(** ** The fill step, continued *)

Lemma fillable_spec col r :
  fillable col r = true <-> dict_lookup col r <> Some VNone.
Proof. unfold fillable. by destruct (dict_lookup col r) as [[|s]|]. Qed.

Lemma null_cell_spec col r :
  null_cell col r = true
  <-> dict_lookup col r = None
      \/ exists s, dict_lookup col r = Some (VStr s) /\ PyStr.strip s = "".
Proof.
  unfold null_cell. destruct (dict_lookup col r) as [[|s]|].
  - split; [done|]. by intros [?|(s & ? & _)].
  - destruct (PyStr.strip s) eqn:E; simpl.
    + split; [|done]. intros _. right. by exists s.
    + split; [done|]. intros [?|(s' & [= <-] & Hs)]; [done|]. congruence.
  - split; [by left|done].
Qed.

Lemma fill_cell_lookup col fill r c :
  dict_lookup c (fill_cell col fill r)
  = if decide (c = col) then
      (if null_cell col r then Some (VStr (py_str fill)) else dict_lookup col r)
    else dict_lookup c r.
Proof.
  unfold fill_cell. destruct (null_cell col r).
  - rewrite dict_lookup_set. by destruct (decide (c = col)).
  - by destruct (decide (c = col)) as [->|].
Qed.

Lemma fill_cell_none col fill r c :
  dict_lookup c (fill_cell col fill r) = Some VNone <-> dict_lookup c r = Some VNone.
Proof.
  rewrite fill_cell_lookup. destruct (decide (c = col)) as [->|]; [|done].
  destruct (null_cell col r) eqn:Hn; [|done].
  apply null_cell_spec in Hn as [Hn|(s & Hn & _)]; rewrite Hn; done.
Qed.

Lemma no_none_cell_fill_cell cols col fill r :
  no_none_cell cols (fill_cell col fill r) <-> no_none_cell cols r.
Proof.
  unfold no_none_cell. split; intros H c Hc; specialize (H c Hc);
    by rewrite fill_cell_none in *.
Qed.

Lemma all_fillable_spec fills rows :
  all_fillable fills rows = true <-> Forall (no_none_cell fills.*1) rows.
Proof.
  revert rows. induction fills as [|[col fill] fills IH]; intros rows.
  - split; [|done]. intros _. apply Forall_forall. intros r _ c Hc.
    by apply elem_of_nil in Hc.
  - cbn [all_fillable]. rewrite andb_true_iff, IH, forallb_elem_of, Forall_fmap.
    rewrite !Forall_forall. split.
    + intros [H1 H2] r Hr c Hc. apply elem_of_cons in Hc as [->|Hc].
      * by apply fillable_spec, H1.
      * specialize (H2 r Hr). simpl in H2.
        apply no_none_cell_fill_cell in H2. by apply H2.
    + intros H. split.
      * intros r Hr. apply fillable_spec, (H r Hr). by left.
      * intros r Hr. simpl. apply no_none_cell_fill_cell.
        intros c Hc. apply (H r Hr). by right.
Qed.

Lemma has_text_fill_cell col fill c f r :
  has_text col fill r -> has_text col fill (fill_cell c f r).
Proof.
  intros (s & Hs & Hfill). unfold has_text. rewrite fill_cell_lookup.
  destruct (decide (col = c)) as [<-|]; [|by exists s].
  destruct (null_cell col r) eqn:Hn; [|by exists s].
  exists (py_str f). split; [done|]. intros Hne. exfalso.
  apply null_cell_spec in Hn as [Hn|(s' & Hn & Hblank)]; [congruence|].
  rewrite Hs in Hn. injection Hn as <-. by apply Hfill.
Qed.

Lemma fill_rows_has_text fills rows col fill :
  Forall (has_text col fill) rows ->
  Forall (has_text col fill) (fill_rows fills rows).
Proof.
  unfold fill_rows. revert rows.
  induction fills as [|[c f] fills IH]; intros rows H; [done|].
  simpl. apply IH. apply Forall_fmap. eapply Forall_impl; [exact H|].
  intros r Hr. by apply has_text_fill_cell.
Qed.

Lemma fill_rows_filled fills rows col fill :
  all_fillable fills rows = true -> (col, fill) ∈ fills ->
  Forall (has_text col fill) (fill_rows fills rows).
Proof.
  revert rows. induction fills as [|[c f] fills IH]; intros rows Hall Hin;
    [by apply elem_of_nil in Hin|].
  cbn [all_fillable] in Hall. apply andb_true_iff in Hall as [Hc Hall].
  change (fill_rows ((c, f) :: fills) rows)
    with (fill_rows fills (fill_cell c f <$> rows)).
  apply elem_of_cons in Hin as [[= -> ->]|Hin]; [|by apply IH].
  apply fill_rows_has_text, Forall_fmap, Forall_forall. intros r Hr.
  rewrite forallb_elem_of in Hc. specialize (Hc r Hr).
  unfold has_text. simpl. rewrite fill_cell_lookup, decide_True by done.
  destruct (null_cell c r) eqn:Hn; [by eexists|].
  apply fillable_spec in Hc.
  destruct (dict_lookup c r) as [[|s]|] eqn:Hl; [done| |].
  - exists s. split; [done|]. intros _ Hblank.
    assert (null_cell c r = true); [|congruence].
    apply null_cell_spec. right. by exists s.
  - assert (null_cell c r = true); [|congruence].
    apply null_cell_spec. by left.
Qed.

(** Without a drop or rename step, each row that [clean_dataset]
    returns has a text under each column of [fill_nulls], a row that
    had no such column included; the text is not blank unless the text
    of the fill value is blank. *)
Theorem fill_nulls_postcondition headers rows cfg out log :
  default [] (drop_columns cfg) = [] ->
  default [] (rename_columns cfg) = [] ->
  clean_dataset headers rows (Some cfg) = Ok (out, log) ->
  forall col fill,
    (col, fill) ∈ default [] (fill_nulls cfg) ->
    Forall (has_text col fill) out.
Proof.
  intros Hdrop Hren. rewrite clean_dataset_spec. cbv zeta. simpl.
  unfold drop_transform, rename_transform. rewrite Hdrop, Hren.
  destruct (all_fillable _ _) eqn:Hall; [|done]. intros [= <- _] col fill Hin.
  by apply fill_rows_filled.
Qed.

Lemma fill_nulls_postcondition_witness :
  exists out log,
    clean_dataset [] [[("name", VStr "Ann")]; [("name", VStr "Bob"); ("age", VStr " ")]]
      (Some (Config None None (Some [("age", FInt 0)]) None None)) = Ok (out, log)
    /\ Forall (has_text "age" (FInt 0)) out.
Proof.
  set (rows := [[("name", VStr "Ann")]; [("name", VStr "Bob"); ("age", VStr " ")]]).
  set (cfg := Config None None (Some [("age", FInt 0)]) None None).
  destruct (clean_dataset [] rows (Some cfg)) as [[out log]|e] eqn:Hrun;
    [|vm_compute in Hrun; discriminate].
  exists out, log. split; [done|].
  apply (fill_nulls_postcondition [] rows cfg out log eq_refl eq_refl Hrun).
  by left.
Defined.

(** [clean_dataset] raises in one case only: a row holds [None] under a
    column of [fill_nulls].  It then raises [AttributeError], whatever
    else is configured; without such a cell it returns. *)
Theorem clean_dataset_raises_iff_none_cell headers rows config :
  Forall dict_wf rows ->
  let cols := (default [] (fill_nulls (default empty_config config))).*1 in
  (Forall (no_none_cell cols) rows ->
   exists out log, clean_dataset headers rows config = Ok (out, log))
  /\ (~ Forall (no_none_cell cols) rows ->
      clean_dataset headers rows config = Raise AttributeError).
Proof.
  intros Hwf cols. rewrite clean_dataset_spec. cbv zeta.
  set (cfg := default empty_config config).
  set (r1 := strip_transform cfg rows).
  set (r2 := dedup_transform cfg r1).
  assert (Forall (no_none_cell cols) r2 <-> Forall (no_none_cell cols) rows) as Hiff.
  { assert (Forall (no_none_cell cols) r1 <-> Forall (no_none_cell cols) rows) as H1.
    { unfold r1, strip_transform. destruct (default true _); [|done].
      rewrite Forall_fmap. apply Forall_iff. intros r. unfold no_none_cell. simpl.
      split; intros H c Hc; specialize (H c Hc); rewrite strip_row_lookup in *;
        by destruct (dict_lookup c r) as [[|s]|]. }
    rewrite <- H1. unfold r2, dedup_transform.
    destruct (default true _); [|done].
    assert (Forall dict_wf r1) as Hwf1 by (by apply strip_transform_wf).
    destruct (remove_duplicate_rows_distinct r1 Hwf1) as (Hsub & Hall & _).
    split.
    - intros H. apply Forall_forall. intros r Hr.
      destruct (Hall r Hr) as (r' & Hr' & Hsame).
      rewrite Forall_forall in H. specialize (H r' Hr').
      intros c Hc. rewrite (same_items_lookup r r' c); [by apply H| | |done].
      + rewrite Forall_forall in Hwf1. by apply Hwf1.
      + rewrite Forall_forall in Hwf1. apply Hwf1. by eapply elem_of_sublist.
    - by apply sublist_Forall. }
  split.
  - intros H%Hiff%all_fillable_spec.
    change (all_fillable (default [] (fill_nulls cfg)) r2 = true) in H.
    rewrite H. by eexists _, _.
  - intros H. destruct (all_fillable _ r2) eqn:Hall; [|done].
    exfalso. by apply H, Hiff, all_fillable_spec.
Qed.

Lemma clean_dataset_raises_iff_none_cell_witness :
  let rows : list row := [[("name", VStr "Ann"); ("city", VNone)]] in
  (exists out log,
     clean_dataset [] rows
       (Some (Config None None (Some [("name", FStr "?")]) None None)) = Ok (out, log))
  /\ clean_dataset [] rows
       (Some (Config None None (Some [("name", FStr "?"); ("city", FStr "?")])
                (Some ["city"]) None))
     = Raise AttributeError.
Proof.
  intros rows.
  assert (Forall dict_wf rows) as Hwf
    by (refine (bool_decide_eq_true_1 _ _); vm_compute; reflexivity).
  split.
  - apply (proj1 (clean_dataset_raises_iff_none_cell [] rows
                    (Some (Config None None (Some [("name", FStr "?")]) None None)) Hwf)).
    repeat constructor. intros c Hc. simpl in Hc.
    apply list_elem_of_singleton in Hc as ->. done.
  - apply (proj2 (clean_dataset_raises_iff_none_cell [] rows
                    (Some (Config None None (Some [("name", FStr "?"); ("city", FStr "?")])
                             (Some ["city"]) None)) Hwf)).
    intros H. apply Forall_cons in H as [H _]. apply (H "city"); [|done].
    simpl. right. by left.
Defined.

(** The deduplication comes before the fill step, so the rows that
    [clean_dataset] returns can hold the same pairs: a row with a null
    cell and the row that the fill step makes of it are both kept, and
    come back equal. *)
Theorem fill_after_dedup_leaves_duplicates headers col fill (r : row) :
  dict_wf r -> stripped_row r -> null_cell col r = true ->
  PyStr.strip (py_str fill) = py_str fill -> py_str fill <> "" ->
  let r' := fill_cell col fill r in
  clean_dataset headers [r; r']
    (Some (Config None None (Some [(col, fill)]) None None))
  = Ok ([r'; r'], [Stripped; FilledNulls 1 col fill]).
Proof.
  intros Hwf Hs Hnull Hfs Hfne r'.
  assert (dict_lookup col r' = Some (VStr (py_str fill))) as Hl'.
  { unfold r'. by rewrite fill_cell_lookup, decide_True, Hnull. }
  assert (null_cell col r' = false) as Hnull'.
  { destruct (null_cell col r') eqn:E; [|done].
    apply null_cell_spec in E as [E|(s & E & Hblank)]; [congruence|].
    rewrite Hl' in E. injection E as <-. congruence. }
  assert (r' = dict_set col (VStr (py_str fill)) r) as Hr'
    by (unfold r', fill_cell; by rewrite Hnull).
  assert (dict_wf r') as Hwf' by (by apply fill_cell_wf).
  assert (stripped_row r') as Hs'.
  { intros k s Hin. apply dict_lookup_Some in Hin; [|done].
    rewrite Hr', dict_lookup_set in Hin.
    destruct (decide (k = col)); [by injection Hin as <-|].
    apply (Hs k). by apply dict_lookup_Some. }
  assert (row_key r' <> row_key r) as Hkey.
  { intros Hk. apply row_key_same_items in Hk; [|done..].
    rewrite (same_items_lookup r' r col) in Hl' by done.
    apply null_cell_spec in Hnull as [E|(s & E & Hblank)]; [congruence|].
    rewrite Hl' in E. injection E as <-. congruence. }
  rewrite clean_dataset_spec. cbv zeta.
  unfold strip_transform, dedup_transform, drop_transform, rename_transform,
    strip_log, dedup_log, drop_log, rename_log. simpl.
  rewrite !stripped_row_fixed by done.
  assert (remove_duplicate_rows [r; r'] = [r; r']) as ->.
  { rewrite remove_duplicate_rows_eq. simpl.
    rewrite decide_False by apply not_elem_of_empty.
    rewrite decide_False; [done|].
    rewrite elem_of_union, elem_of_singleton, elem_of_empty. tauto. }
  assert (fillable col r = true) as Hf.
  { apply fillable_spec. apply null_cell_spec in Hnull as [E|(s & E & _)]; congruence. }
  assert (fillable col r' = true) as Hf' by (apply fillable_spec; congruence).
  cbn [forallb length fmap list_fmap]. rewrite Hf, Hf'.
  rewrite !filter_cons, filter_nil.
  rewrite decide_True by done. rewrite decide_False by congruence.
  fold r'. simpl. do 3 f_equal. unfold fill_cell. by rewrite Hnull'.
Qed.

Lemma fill_after_dedup_leaves_duplicates_witness :
  clean_dataset [] [[("id", VStr "7"); ("city", VStr "")];
                    [("id", VStr "7"); ("city", VStr "Unknown")]]
    (Some (Config None None (Some [("city", FStr "Unknown")]) None None))
  = Ok ([[("id", VStr "7"); ("city", VStr "Unknown")];
         [("id", VStr "7"); ("city", VStr "Unknown")]],
        [Stripped; FilledNulls 1 "city" (FStr "Unknown")]).
Proof.
  apply (fill_after_dedup_leaves_duplicates [] "city" (FStr "Unknown")
           [("id", VStr "7"); ("city", VStr "")]).
  - refine (bool_decide_eq_true_1 _ _). vm_compute. reflexivity.
  - intros k s Hin.
    repeat (apply elem_of_cons in Hin as [Hin|Hin]; [by simplify_eq|]).
    by apply elem_of_nil in Hin.
  - reflexivity.
  - reflexivity.
  - discriminate.
Defined.

(** ** The order of the floats *)

Lemma SFltb_irrefl x : SFltb x x = false.
Proof.
  unfold SFltb, SFcompare. destruct x as [s|s| |s m e]; try done; try by destruct s.
  rewrite Z.compare_refl.
  change (PosDef.Pos.compare_cont Eq m m) with (Pos.compare m m).
  rewrite Pos.compare_refl. by destruct s.
Qed.

Lemma SFltb_trans x y z : SFltb x y = true -> SFltb y z = true -> SFltb x z = true.
Proof.
  unfold SFltb, SFcompare.
  destruct x as [s1|s1| |s1 m1 e1], y as [s2|s2| |s2 m2 e2], z as [s3|s3| |s3 m3 e3];
    try done; try (by destruct s1, s2, s3).
  change (PosDef.Pos.compare_cont Eq m1 m2) with (Pos.compare m1 m2).
  change (PosDef.Pos.compare_cont Eq m2 m3) with (Pos.compare m2 m3).
  change (PosDef.Pos.compare_cont Eq m1 m3) with (Pos.compare m1 m3).
  destruct s1, s2, s3; try done;
    destruct (Z.compare_spec e1 e2), (Z.compare_spec e2 e3), (Z.compare_spec e1 e3);
    try done; try lia; subst;
    destruct (Pos.compare_spec m1 m2), (Pos.compare_spec m2 m3),
      (Pos.compare_spec m1 m3); simpl; try done; try lia.
Qed.

Lemma py_min_snoc x xs y :
  py_min x (xs ++ [y])
  = if PyFloat.ltb y (py_min x xs) then y else py_min x xs.
Proof. unfold py_min. by rewrite fold_left_app. Qed.

Lemma py_max_snoc x xs y :
  py_max x (xs ++ [y])
  = if PyFloat.ltb (py_max x xs) y then y else py_max x xs.
Proof. unfold py_max. by rewrite fold_left_app. Qed.

Lemma py_min_spec x xs :
  py_min x xs ∈ x :: xs
  /\ forall v, v ∈ x :: xs -> PyFloat.ltb v (py_min x xs) = false.
Proof.
  induction xs as [|y xs [IH1 IH2]] using rev_ind.
  - split; [by left|]. intros v Hv%list_elem_of_singleton. subst.
    apply SFltb_irrefl.
  - rewrite py_min_snoc. rewrite app_comm_cons.
    destruct (PyFloat.ltb y (py_min x xs)) eqn:Hlt.
    + split; [apply elem_of_app; right; by left|].
      intros v [Hv|Hv%list_elem_of_singleton]%elem_of_app.
      * destruct (PyFloat.ltb v y) eqn:Hvy; [|done].
        rewrite <- (IH2 v Hv). symmetry. by eapply SFltb_trans.
      * subst. apply SFltb_irrefl.
    + split; [apply elem_of_app; by left|].
      intros v [Hv|Hv%list_elem_of_singleton]%elem_of_app; [by apply IH2|by subst].
Qed.

Lemma py_max_spec x xs :
  py_max x xs ∈ x :: xs
  /\ forall v, v ∈ x :: xs -> PyFloat.ltb (py_max x xs) v = false.
Proof.
  induction xs as [|y xs [IH1 IH2]] using rev_ind.
  - split; [by left|]. intros v Hv%list_elem_of_singleton. subst.
    apply SFltb_irrefl.
  - rewrite py_max_snoc. rewrite app_comm_cons.
    destruct (PyFloat.ltb (py_max x xs) y) eqn:Hlt.
    + split; [apply elem_of_app; right; by left|].
      intros v [Hv|Hv%list_elem_of_singleton]%elem_of_app.
      * destruct (PyFloat.ltb y v) eqn:Hvy; [|done].
        rewrite <- (IH2 v Hv). symmetry. by eapply SFltb_trans.
      * subst. apply SFltb_irrefl.
    + split; [apply elem_of_app; by left|].
      intros v [Hv|Hv%list_elem_of_singleton]%elem_of_app; [by apply IH2|by subst].
Qed.

(** ** Counters *)

Lemma counter_snoc l x :
  counter (l ++ [x]) = dict_set x (dict_get (counter l) x 0 + 1) (counter l).
Proof. unfold counter. by rewrite fold_left_app. Qed.

Lemma occurrences_snoc s l x :
  occurrences s (l ++ [x]) = occurrences s l + (if decide (x = s) then 1 else 0).
Proof.
  unfold occurrences, len. rewrite filter_app, length_app, filter_cons, filter_nil.
  destruct (decide (x = s)); simpl; lia.
Qed.

Lemma occurrences_pos s l : s ∈ l <-> 1 <= occurrences s l.
Proof.
  unfold occurrences, len. induction l as [|x l IH].
  - split; [by intros ?%elem_of_nil|simpl; lia].
  - rewrite filter_cons, elem_of_cons.
    destruct (decide (x = s)) as [->|Hne]; simpl.
    + split; [lia|by left].
    + rewrite <- IH. split; [intros [?|?]; [congruence|done]|by right].
Qed.

Lemma counter_wf l : dict_wf (counter l).
Proof.
  induction l as [|x l IH] using rev_ind; [apply NoDup_nil_2|].
  rewrite counter_snoc. by apply dict_set_wf.
Qed.

Lemma counter_lookup l s :
  dict_lookup s (counter l)
  = if decide (s ∈ l) then Some (occurrences s l) else None.
Proof.
  induction l as [|x l IH] using rev_ind.
  - destruct (decide (s ∈ [])) as [H|]; [by apply elem_of_nil in H|done].
  - rewrite counter_snoc, dict_lookup_set, occurrences_snoc.
    destruct (decide (s = x)) as [->|Hne].
    + rewrite decide_True by (apply elem_of_app; right; by left).
      rewrite decide_True by done. f_equal. f_equal.
      unfold dict_get. rewrite IH. destruct (decide (x ∈ l)) as [|Hout]; [done|].
      simpl. rewrite occurrences_pos in Hout.
      unfold occurrences, len in *. lia.
    + rewrite (decide_False (P := x = s)) by done. rewrite Z.add_0_r, IH.
      destruct (decide (s ∈ l)) as [Hin|Hout].
      * rewrite decide_True; [done|]. apply elem_of_app. by left.
      * rewrite decide_False; [done|].
        rewrite elem_of_app, list_elem_of_singleton. tauto.
Qed.

Lemma counter_elem_of l s n :
  (s, n) ∈ counter l <-> s ∈ l /\ n = occurrences s l.
Proof.
  rewrite <- dict_lookup_Some by apply counter_wf. rewrite counter_lookup.
  destruct (decide (s ∈ l)); [|by split; [|intros [? _]]].
  split; [by intros [= <-]|]. by intros [_ ->].
Qed.

Lemma insert_by_count_Permutation x l : insert_by_count x l ≡ₚ x :: l.
Proof.
  induction l as [|y l IH]; simpl; [done|].
  destruct (x.2 <? y.2); [|done]. rewrite IH. apply Permutation_swap.
Qed.

Lemma by_count_Permutation (c : dict Z) : foldr insert_by_count [] c ≡ₚ c.
Proof.
  induction c as [|x c IH]; simpl; [done|].
  by rewrite insert_by_count_Permutation, IH.
Qed.

Lemma insert_by_count_sorted x l :
  StronglySorted (fun a b : string * Z => b.2 <= a.2) l ->
  StronglySorted (fun a b : string * Z => b.2 <= a.2) (insert_by_count x l).
Proof.
  induction 1 as [|y l Hl IH Hy]; simpl.
  - repeat constructor.
  - destruct (x.2 <? y.2) eqn:Hlt.
    + apply Z.ltb_lt in Hlt. constructor; [done|].
      rewrite insert_by_count_Permutation. constructor; [lia|done].
    + apply Z.ltb_ge in Hlt. constructor; [by constructor|].
      constructor; [done|]. eapply Forall_impl; [exact Hy|].
      intros z Hz. simpl in *. lia.
Qed.

Lemma by_count_sorted (c : dict Z) :
  StronglySorted (fun a b : string * Z => b.2 <= a.2) (foldr insert_by_count [] c).
Proof.
  induction c as [|x c IH]; simpl; [constructor|]. by apply insert_by_count_sorted.
Qed.

(** [most_common]: the [n] entries of the counter with the greatest
    counts, in decreasing order. *)
Lemma most_common_spec n (c : dict Z) :
  dict_wf c ->
  let top := most_common n c in
  (length top <= n)%nat
  /\ NoDup top.*1
  /\ (forall e, e ∈ top -> e ∈ c)
  /\ StronglySorted (fun a b : string * Z => b.2 <= a.2) top
  /\ (forall e, e ∈ c -> e ∉ top ->
        length top = n /\ Forall (fun e' => e.2 <= e'.2) top).
Proof.
  intros Hwf top. unfold top, most_common.
  set (sorted := foldr insert_by_count [] c).
  pose proof (by_count_Permutation c) as Hperm. fold sorted in Hperm.
  pose proof (by_count_sorted c) as Hsorted. fold sorted in Hsorted.
  pose proof (take_drop n sorted) as Htd.
  split; [rewrite length_take; lia|]. split.
  - eapply sublist_NoDup; [|apply fmap_sublist, sublist_take].
    unfold dict_wf in Hwf. by rewrite Hperm.
  - split.
    + intros e He. rewrite <- Hperm. by eapply elem_of_sublist; [|apply sublist_take].
    + split.
      * rewrite <- Htd in Hsorted. by apply StronglySorted_app_1_l in Hsorted.
      * intros e He Hout.
        assert (e ∈ drop n sorted) as Hd.
        { rewrite <- Hperm, <- Htd in He.
          apply elem_of_app in He as [?|?]; done. }
        split.
        -- rewrite length_take. 
           assert (n < length sorted)%nat; [|lia].
           destruct (decide (n < length sorted)%nat) as [|Hge]; [done|].
           rewrite drop_ge in Hd by lia. by apply elem_of_nil in Hd.
        -- apply Forall_forall. intros e' He'.
           rewrite <- Htd in Hsorted.
           apply (StronglySorted_app_1_elem_of _ _ _ e' e Hsorted He' Hd).
Qed.

(** ** The statistics of a profile *)

Lemma length_remove_dups {A} `{EqDecision A} (l : list A) :
  (length (remove_dups l) <= length l)%nat
  /\ (length (remove_dups l) = 0%nat <-> l = []).
Proof.
  split.
  - induction l as [|x l IH]; simpl; [done|].
    destruct (decide_rel _ x l); simpl; lia.
  - destruct l as [|x l]; [done|]. split; [|done]. intros Hlen.
    assert (x ∈ remove_dups (x :: l)) as Hx by (apply elem_of_remove_dups; by left).
    destruct (remove_dups (x :: l)); [by apply elem_of_nil in Hx|done].
Qed.

Section ProfileStatistics.
Context {lib : NumericLib}.

(** The statistics of a profile, by the type of the column. *)
Lemma profile_column_stats values col p :
  profile_column values col = Ok p ->
  let non_empty := non_null_values values in
  let parsed := omap parse_number non_empty in
  match stats p with
  | Numeric mn mx mean median stdev =>
      len non_empty < 2 * len parsed
      /\ (exists x xs, parsed = x :: xs /\ mn = py_min x xs /\ mx = py_max x xs)
      /\ mean = py_round (NFloat (statistics_mean parsed)) 2
      /\ median = py_round (NFloat (statistics_median parsed)) 2
      /\ (if 1 <? len parsed
          then exists sd, statistics_stdev parsed = Ok sd
                          /\ stdev = Some (py_round (NFloat sd) 2)
          else stdev = None)
  | Categorical top_5 sample =>
      2 * len parsed <= len non_empty
      /\ top_5 = most_common 5 (counter non_empty)
      /\ sample = take 3 non_empty
  end.
Proof.
  unfold profile_column. rewrite non_empty_values_eq. cbv zeta.
  set (non_empty := non_null_values values).
  set (parsed := omap parse_number non_empty).
  intros Hp.
  destruct parsed as [|x xs] eqn:Hparsed.
  - simpl in Hp. injection Hp as <-. simpl. split; [|done]. unfold len. simpl. lia.
  - destruct (Qltb _ _) eqn:Hq.
    + apply Qltb_half in Hq.
      destruct (1 <? len (x :: xs)) eqn:Hlt.
      * destruct (statistics_stdev (x :: xs)) as [sd|e] eqn:Hsd; simpl in Hp; [|done].
        injection Hp as <-. cbn [stats].
        split; [done|]. split; [by eexists _, _|]. split; [done|]. split; [done|].
        by exists sd.
      * simpl in Hp. injection Hp as <-. cbn [stats].
        split; [done|]. split; [by eexists _, _|]. done.
    + simpl in Hp. injection Hp as <-. simpl.
      apply not_true_iff_false in Hq. rewrite Qltb_half in Hq.
      split; [lia|done].
Qed.

(** The counts of a profile are in range: the null values and the
    values that are not null are among the rows, the distinct values
    are among the values that are not null, and there is a distinct
    value as soon as there is a value. *)
Theorem profile_column_count_bounds values col p :
  profile_column values col = Ok p ->
  0 <= null_count p <= total_rows p
  /\ 0 <= unique_count p <= non_null p
  /\ non_null p <= total_rows p
  /\ (unique_count p = 0 <-> non_null p = 0).
Proof.
  intros Hp.
  destruct (profile_column_fields _ _ _ Hp) as (_ & Ht & Hnn & Hnc & _ & Hu & _).
  rewrite Ht, Hnn, Hnc, Hu.
  assert (len (non_null_values values) <= len values) as Hle.
  { unfold len, non_null_values. apply inj_le, length_omap_le. }
  destruct (length_remove_dups (non_null_values values)) as [Hle' Hz].
  unfold len in *. split; [lia|]. split; [lia|]. split; [lia|].
  split; intros H0.
  - assert (non_null_values values = []) as ->; [|done]. apply Hz. lia.
  - assert (non_null_values values = []) as ->; [|done].
    destruct (non_null_values values); [done|]. simpl in H0. lia.
Qed.

(** In a numeric profile, [min] and [max] are values of the column, no
    value is less than [min] and none is greater than [max]. *)
Theorem profile_column_min_max values col p mn mx mean median stdev :
  profile_column values col = Ok p ->
  stats p = Numeric mn mx mean median stdev ->
  let parsed := omap parse_number (non_null_values values) in
  mn ∈ parsed /\ mx ∈ parsed
  /\ forall v, v ∈ parsed ->
       PyFloat.ltb v mn = false /\ PyFloat.ltb mx v = false.
Proof.
  intros Hp Hs parsed.
  pose proof (profile_column_stats _ _ _ Hp) as H. rewrite Hs in H.
  destruct H as (_ & (x & xs & Hparsed & -> & ->) & _).
  fold parsed in Hparsed. rewrite Hparsed.
  destruct (py_min_spec x xs) as [Hmin1 Hmin2].
  destruct (py_max_spec x xs) as [Hmax1 Hmax2].
  split; [done|]. split; [done|]. intros v Hv. split; [by apply Hmin2|by apply Hmax2].
Qed.

(** In a numeric profile, [stdev] is there exactly when two values or
    more are numbers; a column with one number has none. *)
Theorem profile_column_stdev_presence values col p mn mx mean median stdev :
  profile_column values col = Ok p ->
  stats p = Numeric mn mx mean median stdev ->
  let parsed := omap parse_number (non_null_values values) in
  1 <= len parsed
  /\ (stdev = None <-> len parsed = 1)
  /\ (forall s, stdev = Some s ->
        exists sd, statistics_stdev parsed = Ok sd /\ s = py_round (NFloat sd) 2).
Proof.
  intros Hp Hs parsed.
  pose proof (profile_column_stats _ _ _ Hp) as H. rewrite Hs in H.
  destruct H as (_ & (x & xs & Hparsed & _) & _ & _ & Hsd).
  fold parsed in Hparsed, Hsd.
  assert (1 <= len parsed) as Hlen.
  { rewrite Hparsed. unfold len. simpl. lia. }
  split; [done|].
  destruct (1 <? len parsed) eqn:Hlt.
  - apply Z.ltb_lt in Hlt. destruct Hsd as (sd & Hsd & ->).
    split; [split; [done|lia]|]. intros s [= <-]. by exists sd.
  - apply Z.ltb_ge in Hlt. subst stdev. split; [split; [lia|done]|done].
Qed.

(** In a categorical profile, [top_5] holds at most five values of the
    column, each once and with the number of its occurrences, by
    decreasing count; a value that is not listed occurs no more often
    than the listed ones.  [sample] holds the first three values. *)
Theorem profile_column_top_5 values col p top_5 sample :
  profile_column values col = Ok p ->
  stats p = Categorical top_5 sample ->
  let non_empty := non_null_values values in
  (length top_5 <= 5)%nat
  /\ NoDup top_5.*1
  /\ (forall s n, (s, n) ∈ top_5 ->
        s ∈ non_empty /\ n = occurrences s non_empty /\ 1 <= n)
  /\ StronglySorted (fun a b : string * Z => b.2 <= a.2) top_5
  /\ (forall s, s ∈ non_empty -> s ∉ top_5.*1 ->
        length top_5 = 5%nat
        /\ Forall (fun e => occurrences s non_empty <= e.2) top_5)
  /\ sample = take 3 non_empty.
Proof.
  intros Hp Hs non_empty.
  pose proof (profile_column_stats _ _ _ Hp) as H. rewrite Hs in H.
  destruct H as (_ & -> & ->). fold non_empty.
  destruct (most_common_spec 5 (counter non_empty) (counter_wf _))
    as (Hlen & Hnd & Hin & Hsorted & Hout).
  split; [done|]. split; [done|]. split; [|split; [done|split; [|done]]].
  - intros s n Hsn%Hin%counter_elem_of. destruct Hsn as [Hs' ->].
    split; [done|]. split; [done|]. by apply occurrences_pos.
  - intros s Hs' Hnot.
    apply (Hout (s, occurrences s non_empty)).
    + by apply counter_elem_of.
    + intros Hin'. apply Hnot. apply list_elem_of_fmap. by eexists (_, _).
Qed.

End ProfileStatistics.

Lemma profile_column_count_bounds_witness :
  exists p,
    profile_column (lib := CPython311.lib)
      [VStr "a"; VStr ""; VStr "a"; VNone; VStr "b"] "c" = Ok p
    /\ 0 <= unique_count p <= non_null p
    /\ null_count p = 2 /\ unique_count p = 2 /\ non_null p = 3.
Proof.
  destruct (profile_column (lib := CPython311.lib)
              [VStr "a"; VStr ""; VStr "a"; VNone; VStr "b"] "c") as [p|e] eqn:Hp;
    [|vm_compute in Hp; discriminate].
  destruct (profile_column_count_bounds (lib := CPython311.lib) _ _ _ Hp)
    as (_ & Hu & _).
  exists p. split; [done|]. split; [exact Hu|].
  vm_compute in Hp. by injection Hp as <-.
Defined.

Lemma profile_column_min_max_witness :
  exists p mn mx mean median stdev,
    profile_column (lib := CPython311.lib)
      [VStr "3"; VStr "x"; VStr "-1.5"; VStr "1,000"] "c" = Ok p
    /\ stats p = Numeric mn mx mean median stdev
    /\ PyFloat.ltb (PyFloat.of_Z 3) mn = false
    /\ PyFloat.ltb mx (PyFloat.of_Z 3) = false.
Proof.
  set (values := [VStr "3"; VStr "x"; VStr "-1.5"; VStr "1,000"]).
  destruct (profile_column (lib := CPython311.lib) values "c") as [p|e] eqn:Hp;
    [|vm_compute in Hp; discriminate].
  destruct (stats p) as [mn mx mean median stdev|top sample] eqn:Hs;
    [|vm_compute in Hp; injection Hp as <-; discriminate].
  destruct (profile_column_min_max (lib := CPython311.lib) values "c" p
              mn mx mean median stdev Hp Hs) as (_ & _ & Hall).
  exists p, mn, mx, mean, median, stdev. split; [done|]. split; [done|].
  apply Hall. vm_compute. by left.
Defined.

Lemma profile_column_stdev_presence_witness :
  exists p mn mx mean median,
    profile_column (lib := CPython311.lib) [VStr "7"; VStr ""] "c" = Ok p
    /\ stats p = Numeric mn mx mean median None.
Proof.
  set (values := [VStr "7"; VStr ""]).
  destruct (profile_column (lib := CPython311.lib) values "c") as [p|e] eqn:Hp;
    [|vm_compute in Hp; discriminate].
  destruct (stats p) as [mn mx mean median stdev|top sample] eqn:Hs;
    [|vm_compute in Hp; injection Hp as <-; discriminate].
  destruct (profile_column_stdev_presence (lib := CPython311.lib) values "c" p
              mn mx mean median stdev Hp Hs) as (_ & Hnone & _).
  exists p, mn, mx, mean, median. split; [done|].
  rewrite Hs. f_equal. apply Hnone. vm_compute. reflexivity.
Defined.

Lemma profile_column_top_5_witness :
  exists p top_5 sample,
    profile_column (lib := CPython311.lib)
      [VStr "a"; VStr "b"; VStr "b"; VStr "c"; VStr "d"; VStr "e"; VStr "f"; VStr "f"]
      "c" = Ok p
    /\ stats p = Categorical top_5 sample
    /\ top_5 = [("b", 2); ("f", 2); ("a", 1); ("c", 1); ("d", 1)]
    /\ Forall (fun e => 1 <= e.2) top_5.
Proof.
  set (values := [VStr "a"; VStr "b"; VStr "b"; VStr "c"; VStr "d"; VStr "e";
                  VStr "f"; VStr "f"]).
  destruct (profile_column (lib := CPython311.lib) values "c") as [p|e] eqn:Hp;
    [|vm_compute in Hp; discriminate].
  destruct (stats p) as [mn mx mean median stdev|top sample] eqn:Hs;
    [vm_compute in Hp; injection Hp as <-; discriminate|].
  destruct (profile_column_top_5 (lib := CPython311.lib) values "c" p top sample
              Hp Hs) as (_ & _ & _ & _ & Hout & _).
  exists p, top, sample. split; [done|]. split; [done|].
  assert (top = [("b", 2); ("f", 2); ("a", 1); ("c", 1); ("d", 1)]) as Htop.
  { vm_compute in Hp. injection Hp as <-. simpl in Hs. by injection Hs as <- _. }
  split; [done|].
  destruct (Hout "e") as [_ He].
  - vm_compute. do 5 right. by left.
  - rewrite Htop. vm_compute. intros Hin.
    repeat (apply elem_of_cons in Hin as [Hin|Hin]; [discriminate|]).
    by apply elem_of_nil in Hin.
  - exact He.
Defined.

(** ** The profile of a dataset *)

Section ProfileDataset.
Context {lib : NumericLib}.

Lemma profile_columns_spec headers rows acc profiles :
  profile_columns headers rows acc = Ok profiles ->
  dict_wf acc ->
  dict_wf profiles
  /\ (forall col, col ∈ profiles.*1 <-> col ∈ acc.*1 \/ col ∈ headers)
  /\ (forall col, col ∉ headers -> dict_lookup col profiles = dict_lookup col acc)
  /\ (forall col, col ∈ headers ->
        exists p,
          dict_lookup col profiles = Some p
          /\ profile_column ((fun r => dict_get r col (VStr "")) <$> rows) col = Ok p)
  /\ (NoDup headers -> (forall col, col ∈ headers -> col ∉ acc.*1) ->
      profiles.*1 = acc.*1 ++ headers).
Proof.
  revert acc. induction headers as [|c headers IH]; intros acc Hrun Hwf.
  - injection Hrun as <-. split; [done|]. split.
    { intros col. rewrite elem_of_nil. tauto. }
    split; [done|]. split; [by intros col ?%elem_of_nil|].
    intros _ _. by rewrite app_nil_r.
  - cbn [profile_columns] in Hrun.
    destruct (profile_column _ c) as [p|e] eqn:Hp; [|done]. simpl in Hrun.
    destruct (IH _ Hrun (dict_set_wf c p acc Hwf)) as (Hwf' & Hkeys & Hout & Hin & Hord).
    split; [done|]. split; [|split; [|split]].
    + intros col. rewrite Hkeys, elem_of_dict_set_keys, elem_of_cons. tauto.
    + intros col [Hne Hcol]%not_elem_of_cons.
      rewrite (Hout col Hcol), dict_lookup_set. by rewrite decide_False.
    + intros col Hcol.
      destruct (decide (col ∈ headers)) as [Hh|Hh]; [by apply Hin|].
      apply elem_of_cons in Hcol as [->|?]; [|done].
      exists p. split; [|done].
      rewrite (Hout c Hh), dict_lookup_set. by rewrite decide_True.
    + intros [Hc Hnd]%NoDup_cons Hfresh.
      rewrite Hord; [|done|].
      * rewrite dict_set_keys_fresh by (apply Hfresh; by left).
        by rewrite <- app_assoc.
      * intros col Hcol. rewrite elem_of_dict_set_keys.
        intros [->|Hacc]; [done|]. apply (Hfresh col); [by right|done].
Qed.

(** [profile_dataset] returns one profile for each name of [headers],
    under that name (in the order of the names, if these are distinct):
    the profile of the
    values that the rows have under it.  A name that no row has is
    profiled as a column of nulls. *)
Theorem profile_dataset_one_profile_per_header headers rows profiles :
  profile_dataset headers rows = Ok profiles ->
  dict_wf profiles
  /\ (forall col, col ∈ profiles.*1 <-> col ∈ headers)
  /\ (NoDup headers -> profiles.*1 = headers)
  /\ (forall col p,
        dict_lookup col profiles = Some p ->
        profile_column ((fun r => dict_get r col (VStr "")) <$> rows) col = Ok p
        /\ column p = col /\ total_rows p = len rows)
  /\ (forall col p,
        dict_lookup col profiles = Some p ->
        Forall (fun r => dict_lookup col r = None) rows ->
        non_null p = 0 /\ null_count p = len rows /\ stats p = Categorical [] []).
Proof.
  intros Hrun.
  destruct (profile_columns_spec headers rows [] profiles Hrun (NoDup_nil_2))
    as (Hwf & Hkeys & Hout & Hin & Hord).
  assert (forall col p,
            dict_lookup col profiles = Some p ->
            profile_column ((fun r => dict_get r col (VStr "")) <$> rows) col = Ok p)
    as Hprof.
  { intros col p Hl.
    destruct (decide (col ∈ headers)) as [Hh|Hh].
    - destruct (Hin col Hh) as (p' & Hl' & Hp'). congruence.
    - rewrite (Hout col Hh) in Hl. done. }
  split; [done|]. split; [|split; [|split]].
  - intros col. rewrite Hkeys, elem_of_nil. tauto.
  - intros Hnd. apply Hord; [done|]. intros col _. apply not_elem_of_nil.
  - intros col p Hl. specialize (Hprof col p Hl). split; [done|].
    destruct (profile_column_fields _ _ _ Hprof) as (Hc & Ht & _).
    split; [done|]. rewrite Ht. unfold len. by rewrite length_fmap.
  - intros col p Hl Hnone. specialize (Hprof col p Hl).
    assert (non_null_values ((fun r => dict_get r col (VStr "")) <$> rows) = []) as Hnn.
    { clear -Hnone. unfold non_null_values.
      induction Hnone as [|r rows Hr _ IH]; [done|]. csimpl.
      unfold dict_get at 1. rewrite Hr. simpl. exact IH. }
    destruct (profile_column_fields _ _ _ Hprof) as (_ & _ & Hn & Hc & _).
    pose proof (profile_column_stats _ _ _ Hprof) as Hs.
    rewrite Hnn in Hn, Hc, Hs. split; [done|]. split.
    + rewrite Hc. unfold len. rewrite length_fmap. simpl. lia.
    + simpl in Hs. destruct (stats p) as [? ? ? ? ?|top sample].
      * destruct Hs as (? & (x & xs & ? & _) & _). done.
      * destruct Hs as (_ & -> & ->). done.
Qed.

End ProfileDataset.

Lemma profile_dataset_one_profile_per_header_witness :
  exists profiles p,
    profile_dataset (lib := CPython311.lib) ["name"; "age"; "name"]
      [[("name", VStr "Ann")]; [("name", VStr "Bob")]] = Ok profiles
    /\ profiles.*1 = ["name"; "age"]
    /\ dict_lookup "age" profiles = Some p
    /\ null_count p = 2 /\ stats p = Categorical [] [].
Proof.
  set (rows := [[("name", VStr "Ann")]; [("name", VStr "Bob")]]).
  destruct (profile_dataset (lib := CPython311.lib) ["name"; "age"; "name"] rows)
    as [profiles|e] eqn:Hrun; [|vm_compute in Hrun; discriminate].
  destruct (profile_dataset_one_profile_per_header (lib := CPython311.lib)
              _ _ _ Hrun) as (_ & _ & _ & _ & Hnull).
  destruct (dict_lookup "age" profiles) as [p|] eqn:Hage;
    [|vm_compute in Hrun; injection Hrun as <-; discriminate].
  destruct (Hnull "age" p Hage) as (_ & Hnc & Hs).
  { repeat constructor. }
  exists profiles, p. split; [done|]. split.
  { vm_compute in Hrun. by injection Hrun as <-. }
  done.
Defined.

(** ** The records of an aggregation *)

#[local] Instance group_le_trans : Transitive group_le.
Proof.
  intros [[|x] ?] [[|y] ?] [[|z] ?]; unfold group_le; simpl; try done.
  apply transitivity.
Qed.

#[local] Instance group_le_total : Total group_le.
Proof.
  intros [[|x] ?] [[|y] ?]; unfold group_le; simpl; try tauto.
  apply total, _.
Qed.

Lemma group_le_strict (l : list (pyval * list PyFloat.float)) :
  StronglySorted group_le l -> NoDup l.*1 -> Forall (fun g => g.1 <> VNone) l ->
  StronglySorted key_lt l.*1.
Proof.
  induction 1 as [|g l Hl IH Hg]; intros Hnd Hstr; [constructor|].
  rewrite fmap_cons in Hnd |- *. apply NoDup_cons in Hnd as [Hfresh Hnd].
  apply Forall_cons in Hstr as [Hg1 Hstr].
  constructor; [by apply IH|].
  apply Forall_fmap, Forall_forall. intros g' Hg'.
  rewrite Forall_forall in Hg, Hstr. specialize (Hg g' Hg'). specialize (Hstr g' Hg').
  unfold group_le in Hg. unfold key_lt. simpl.
  destruct g as [[|x] vs], g' as [[|y] vs']; simpl in *; try done.
  split; [done|]. intros ->. apply Hfresh.
  apply list_elem_of_fmap. by exists (VStr y, vs').
Qed.

Lemma sorted_groups_sorted groups sorted :
  NoDup groups.*1 ->
  sorted_groups groups = Ok sorted ->
  StronglySorted key_lt sorted.*1.
Proof.
  intros Hnd Hs.
  pose proof (sorted_groups_Permutation _ _ Hs) as Hperm.
  unfold sorted_groups in Hs.
  destruct groups as [|g1 [|g2 groups]].
  - injection Hs as <-. constructor.
  - injection Hs as <-. repeat constructor.
  - case_bool_decide as Hnone; [done|]. injection Hs as <-.
    set (groups' := g1 :: g2 :: groups) in *.
    apply group_le_strict.
    + apply StronglySorted_merge_sort; apply _.
    + by rewrite Hperm.
    + apply Forall_forall. intros g Hg Hk. apply Hnone, Exists_exists.
      exists g. split; [by rewrite <- Hperm|done].
Qed.

Lemma group_sizes_Permutation groups groups' :
  groups ≡ₚ groups' -> group_sizes groups = group_sizes groups'.
Proof.
  unfold group_sizes. induction 1; simpl; lia.
Qed.

Lemma group_sizes_append key val groups :
  group_sizes (group_append key val groups) = group_sizes groups + 1.
Proof.
  unfold group_sizes. induction groups as [|[k vs] groups IH]; simpl.
  - unfold len. simpl. lia.
  - destruct (decide (key = k)); simpl.
    + unfold len. rewrite length_app. simpl. lia.
    + rewrite IH. lia.
Qed.

Lemma collect_groups_sizes rows group_by agg_col :
  group_sizes (collect_groups rows group_by agg_col)
  = len (filter (fun r => included agg_col r = true) rows).
Proof.
  induction rows as [|r rows IH] using rev_ind; [done|].
  rewrite collect_groups_snoc, filter_app, filter_cons, filter_nil. cbv zeta.
  unfold len in *. rewrite length_app. unfold included at 2.
  destruct (agg_value_of agg_col r) as [val|] eqn:Hval.
  - rewrite group_sizes_append, IH.
    rewrite decide_True by (apply bool_decide_eq_true; by eexists).
    cbn [length]. rewrite Nat2Z.inj_add. reflexivity.
  - rewrite IH. rewrite decide_False; [cbn [length]; by rewrite Nat.add_0_r|].
    intros H. apply bool_decide_eq_true in H as [? ?]. congruence.
Qed.

Section AggregateRecords.
Context {lib : NumericLib}.

#[local] Arguments agg_record : simpl never.

Lemma agg_records_counts group_by agg_col agg_func groups out :
  agg_records group_by agg_col agg_func groups = Ok out ->
  total_count out = group_sizes groups.
Proof.
  intros H%agg_records_spec. unfold total_count, group_sizes.
  induction H as [|grp record groups out (agg & _ & ->) _ IH]; [done|].
  simpl. rewrite IH. f_equal.
  unfold record_count. by rewrite agg_record_count.
Qed.

Lemma aggregate_total_count rows group_by agg_col agg_func out :
  aggregate rows group_by agg_col agg_func = Ok out ->
  total_count out = len (filter (fun r => included agg_col r = true) rows).
Proof.
  unfold aggregate.
  destruct (sorted_groups _) as [sorted|] eqn:Hs; simpl; [|done].
  intros Hout%agg_records_counts. rewrite Hout.
  rewrite (group_sizes_Permutation _ _ (sorted_groups_Permutation _ _ Hs)).
  apply collect_groups_sizes.
Qed.

(** Each row that takes part in the aggregation is counted in one
    record: the counts of the records add up to the number of these
    rows, and each record counts one row at least. *)
Theorem aggregate_counts_add_up rows group_by agg_col agg_func out :
  aggregate rows group_by agg_col agg_func = Ok out ->
  total_count out = len (filter (fun r => included agg_col r = true) rows)
  /\ Forall (fun record => 1 <= record_count record) out.
Proof.
  intros Hrun. split; [by eapply aggregate_total_count|].
  unfold aggregate in Hrun.
  destruct (sorted_groups _) as [sorted|] eqn:Hs; simpl in Hrun; [|done].
  pose proof (sorted_groups_members _ _ _ _ Hs) as Hmem.
  apply agg_records_spec in Hrun.
  apply Forall_forall. intros record Hin.
  apply list_elem_of_lookup in Hin as [i Hi].
  destruct (Forall2_lookup_r _ _ _ _ _ Hrun Hi) as (grp & Hgrp & agg & _ & ->).
  unfold record_count. rewrite agg_record_count.
  rewrite Forall_forall in Hmem.
  destruct (Hmem grp) as [_ Hne]; [by eapply list_elem_of_lookup_2|].
  unfold len. destruct grp.2; [done|]. simpl. lia.
Qed.

(** The records of a result come by increasing key, and no key comes
    twice. *)
Theorem aggregate_sorted_by_key rows group_by agg_col agg_func out :
  aggregate rows group_by agg_col agg_func = Ok out ->
  group_by <> "count" -> group_by <> (agg_func ++ "_" ++ agg_col)%string ->
  exists keys,
    dict_lookup group_by <$> out = (fun key => Some (CKey key)) <$> keys
    /\ StronglySorted key_lt keys.
Proof.
  unfold aggregate.
  destruct (sorted_groups _) as [sorted|] eqn:Hs; simpl; [|done].
  intros Hout%agg_records_spec Hc Hv. exists sorted.*1. split.
  - clear Hs. induction Hout as [|grp record groups out (agg & _ & ->) _ IH]; [done|].
    rewrite !fmap_cons, IH. f_equal.
    unfold agg_record. rewrite !dict_lookup_set.
    rewrite !decide_False by done. simpl. by rewrite decide_True.
  - eapply sorted_groups_sorted; [|exact Hs]. apply collect_groups_NoDup.
Qed.

(** A record has the three fields of the group key, the reduced value
    and the count, in this order, when their names differ.  When the
    group-by column has the name of one of the other two fields, the
    record has two fields, and the group key is not in it. *)
Theorem aggregate_record_fields rows group_by agg_col agg_func out record :
  aggregate rows group_by agg_col agg_func = Ok out ->
  record ∈ out ->
  let value_key := (agg_func ++ "_" ++ agg_col)%string in
  exists key agg n,
    (group_by <> "count" -> group_by <> value_key ->
     record = [(group_by, CKey key); (value_key, CNum agg); ("count", CNum (NInt n))])
    /\ (group_by = "count" ->
        record = [("count", CNum (NInt n)); (value_key, CNum agg)])
    /\ (group_by = value_key ->
        record = [(value_key, CNum agg); ("count", CNum (NInt n))]).
Proof.
  unfold aggregate.
  destruct (sorted_groups _) as [sorted|] eqn:Hs; simpl; [|done].
  intros Hout%agg_records_spec Hin.
  apply list_elem_of_lookup in Hin as [i Hi].
  destruct (Forall2_lookup_r _ _ _ _ _ Hout Hi) as (grp & _ & agg & _ & ->).
  exists grp.1, (py_round agg 2), (len grp.2).
  pose proof (value_key_not_count agg_func agg_col) as Hvc.
  unfold agg_record. split; [|split].
  - intros Hc Hv. cbn [dict_set].
    rewrite (decide_False (P := _ = group_by)) by done. cbn [dict_set].
    rewrite (decide_False (P := "count" = group_by)) by done.
    by rewrite (decide_False (P := "count" = _)) by done.
  - intros ->. cbn [dict_set].
    rewrite (decide_False (P := _ = "count")) by done. cbn [dict_set].
    by rewrite (decide_True (P := "count" = "count")) by done.
  - intros ->. cbn [dict_set].
    rewrite decide_True by done. cbn [dict_set].
    by rewrite decide_False by done.
Qed.

(** The result is the empty list exactly when no row takes part; no
    reducer is called then, and none raises. *)
Theorem aggregate_empty_result rows group_by agg_col agg_func :
  aggregate rows group_by agg_col agg_func = Ok []
  <-> Forall (fun r => included agg_col r = false) rows.
Proof.
  assert (filter (fun r => included agg_col r = true) rows = []
          <-> Forall (fun r => included agg_col r = false) rows) as Hfilter.
  { rewrite Forall_forall. split.
    - intros Hnil r Hr. destruct (included agg_col r) eqn:E; [|done].
      assert (r ∈ filter (fun r => included agg_col r = true) rows) as Hin
        by (by apply list_elem_of_filter).
      rewrite Hnil in Hin. by apply elem_of_nil in Hin.
    - intros Hall. induction rows as [|r rows IH]; [done|].
      rewrite filter_cons_False.
      + apply IH. intros r' Hr'. apply Hall. by right.
      + rewrite (Hall r) by (by left). done. }
  rewrite <- Hfilter. split.
  - intros Hrun%aggregate_total_count. unfold total_count, len in Hrun. simpl in Hrun.
    destruct (filter _ rows); [done|]. simpl in Hrun. lia.
  - intros Hnil. unfold aggregate.
    pose proof (collect_groups_keys rows group_by agg_col) as Hkeys.
    rewrite Hnil in Hkeys. simpl in Hkeys. apply Permutation_nil_r in Hkeys.
    destruct (collect_groups rows group_by agg_col); [done|discriminate].
Qed.

End AggregateRecords.

Lemma aggregate_counts_add_up_witness :
  exists out,
    aggregate (lib := CPython311.lib)
      [[("dept", VStr "Eng"); ("pay", VStr "1")]; [("dept", VStr "Ops"); ("pay", VNone)];
       [("dept", VStr "Ops")]; [("dept", VStr "Eng"); ("pay", VStr "x")]]
      "dept" "pay" "sum" = Ok out
    /\ total_count out = 2.
Proof.
  set (rows := [[("dept", VStr "Eng"); ("pay", VStr "1")];
                [("dept", VStr "Ops"); ("pay", VNone)];
                [("dept", VStr "Ops")]; [("dept", VStr "Eng"); ("pay", VStr "x")]]).
  destruct (aggregate (lib := CPython311.lib) rows "dept" "pay" "sum")
    as [out|e] eqn:Hrun; [|vm_compute in Hrun; discriminate].
  destruct (aggregate_counts_add_up (lib := CPython311.lib) _ _ _ _ _ Hrun) as [Hsum _].
  exists out. split; [done|]. rewrite Hsum. vm_compute. reflexivity.
Defined.

Lemma aggregate_sorted_by_key_witness :
  exists out,
    aggregate (lib := CPython311.lib)
      [[("dept", VStr "Ops"); ("pay", VStr "1")]; [("dept", VStr "Eng"); ("pay", VStr "2")];
       [("pay", VStr "3")]]
      "dept" "pay" "max" = Ok out
    /\ dict_lookup "dept" <$> out
       = [Some (CKey (VStr "")); Some (CKey (VStr "Eng")); Some (CKey (VStr "Ops"))].
Proof.
  set (rows := [[("dept", VStr "Ops"); ("pay", VStr "1")];
                [("dept", VStr "Eng"); ("pay", VStr "2")]; [("pay", VStr "3")]]).
  destruct (aggregate (lib := CPython311.lib) rows "dept" "pay" "max")
    as [out|e] eqn:Hrun; [|vm_compute in Hrun; discriminate].
  destruct (aggregate_sorted_by_key (lib := CPython311.lib) _ _ _ _ _ Hrun)
    as (keys & Hkeys & _); [discriminate|discriminate|].
  exists out. split; [done|].
  vm_compute in Hrun. by injection Hrun as <-.
Defined.

Lemma aggregate_record_fields_witness :
  exists out,
    aggregate (lib := CPython311.lib)
      [[("count", VStr "a"); ("pay", VStr "2")]; [("count", VStr "b"); ("pay", VStr "3")]]
      "count" "pay" "sum" = Ok out
    /\ Forall (fun record => length record = 2%nat) out.
Proof.
  set (rows := [[("count", VStr "a"); ("pay", VStr "2")];
                [("count", VStr "b"); ("pay", VStr "3")]]).
  destruct (aggregate (lib := CPython311.lib) rows "count" "pay" "sum")
    as [out|e] eqn:Hrun; [|vm_compute in Hrun; discriminate].
  exists out. split; [done|]. apply Forall_forall. intros record Hin.
  destruct (aggregate_record_fields (lib := CPython311.lib) _ _ _ _ _ _ Hrun Hin)
    as (key & agg & n & _ & Hcount & _).
  by rewrite Hcount.
Defined.

Lemma aggregate_empty_result_witness :
  aggregate (lib := CPython311.lib)
    [[("dept", VStr "Eng"); ("pay", VStr "n/a")]; [("dept", VStr "Ops"); ("pay", VNone)]]
    "dept" "pay" "mean" = Ok [].
Proof.
  apply (aggregate_empty_result (lib := CPython311.lib)).
  repeat constructor.
Defined.

(** ** [normalize_records] *)

Lemma project_dict d fields acc :
  project (JDict d) fields acc
  = Ok (fold_left (fun acc k => dict_set k (dict_get d k JNull) acc) fields acc).
Proof.
  revert acc. induction fields as [|k fields IH]; intros acc; [done|].
  simpl. apply IH.
Qed.

Lemma project_not_dict record k fields acc :
  is_dict record = false -> project record (k :: fields) acc = Raise AttributeError.
Proof. by destruct record. Qed.

Lemma project_fold_spec (d : dict json) fields (acc : dict json) :
  let res := fold_left (fun acc k => dict_set k (dict_get d k JNull) acc) fields acc in
  dict_wf acc ->
  dict_wf res
  /\ (forall k, dict_lookup k res
                = if decide (k ∈ fields) then Some (dict_get d k JNull)
                  else dict_lookup k acc)
  /\ (NoDup fields -> (forall k, k ∈ fields -> k ∉ acc.*1) ->
      res.*1 = acc.*1 ++ fields).
Proof.
  revert acc. induction fields as [|f fields IH]; intros acc res Hwf.
  - split; [done|]. split.
    + intros k. rewrite decide_False; [done|apply not_elem_of_nil].
    + intros _ _. by rewrite app_nil_r.
  - destruct (IH (dict_set f (dict_get d f JNull) acc) (dict_set_wf _ _ _ Hwf))
      as (Hwf' & Hl & Hord).
    split; [done|]. split.
    + intros k. unfold res. cbn [fold_left]. rewrite Hl, dict_lookup_set.
      destruct (decide (k ∈ fields)) as [Hin|Hout].
      * rewrite decide_True; [done|by right].
      * destruct (decide (k = f)) as [->|Hne].
        -- rewrite decide_True; [done|by left].
        -- rewrite decide_False; [done|]. by intros [?|?]%elem_of_cons.
    + intros [Hf Hnd]%NoDup_cons Hfresh. unfold res. cbn [fold_left].
      rewrite Hord; [|done|].
      * rewrite dict_set_keys_fresh by (apply Hfresh; by left).
        by rewrite <- app_assoc.
      * intros k Hk. rewrite elem_of_dict_set_keys.
        intros [->|Hacc]; [done|]. apply (Hfresh k); [by right|done].
Qed.

Lemma project_ext record record' fields acc :
  (forall k, k ∈ fields -> record_get record k = record_get record' k) ->
  project record fields acc = project record' fields acc.
Proof.
  revert acc. induction fields as [|k fields IH]; intros acc Hext; [done|].
  simpl. rewrite <- (Hext k) by (by left).
  destruct (record_get record k); [|done]. simpl.
  apply IH. intros k' Hk'. apply Hext. by right.
Qed.

Lemma project_each_spec records fields out :
  project_each records fields = Ok out ->
  Forall2 (fun record o => exists d', project record fields [] = Ok d' /\ o = JDict d')
    records out.
Proof.
  revert out. induction records as [|record records IH]; intros out; simpl.
  - intros [= <-]. constructor.
  - destruct (project record fields []) as [d'|] eqn:Hp; [|done]. simpl.
    destruct (project_each records fields) as [rest|]; [|done]. simpl.
    intros [= <-]. constructor; [by exists d'|by apply IH].
Qed.

Lemma project_each_returns records f fields :
  project_each records (f :: fields) = Raise AttributeError
  \/ (Forall (fun record => is_dict record = true) records
      /\ exists out, project_each records (f :: fields) = Ok out).
Proof.
  induction records as [|record records IH]; [right; split; [done|by eexists]|].
  cbn [project_each].
  destruct (is_dict record) eqn:Hd.
  - destruct record; try done. rewrite project_dict. simpl.
    destruct IH as [->|[Hall [out ->]]]; [by left|].
    right. split; [by constructor|by eexists].
  - rewrite project_not_dict by done. by left.
Qed.

Lemma normalize_records_spec records fields out :
  fields <> [] ->
  normalize_records records (Some fields) = Ok out ->
  Forall2
    (fun record o =>
       exists d d',
         record = JDict d /\ o = JDict d'
         /\ dict_wf d'
         /\ (forall k, dict_lookup k d'
                       = if decide (k ∈ fields) then Some (dict_get d k JNull)
                         else None)
         /\ (NoDup fields -> d'.*1 = fields))
    records out.
Proof.
  intros Hne. destruct fields as [|f fields]; [done|].
  destruct records as [|record records]; [intros [= <-]; constructor|].
  unfold normalize_records. intros Hout%project_each_spec.
  eapply Forall2_impl; [exact Hout|]. intros r o (d' & Hp & ->).
  destruct (is_dict r) eqn:Hd; [|by rewrite project_not_dict in Hp].
  destruct r as [| | | | | |d]; try done. rewrite project_dict in Hp.
  injection Hp as <-.
  destruct (project_fold_spec d (f :: fields) [] (NoDup_nil_2)) as (Hwf & Hl & Hord).
  eexists d, _. split; [done|]. split; [done|]. split; [done|]. split; [done|].
  intros Hnd. apply Hord; [done|]. intros k _. apply not_elem_of_nil.
Qed.

(** With a list of fields that is not empty, each record that
    [normalize_records] returns is a [dict] with the fields as its keys
    (in their order, if they are distinct); a field has the value that
    the record has for it, and [None] if the record has none. *)
Theorem normalize_records_shape records fields out :
  fields <> [] ->
  normalize_records records (Some fields) = Ok out ->
  Forall2
    (fun record o =>
       exists d d',
         record = JDict d /\ o = JDict d'
         /\ dict_wf d'
         /\ (forall k, dict_lookup k d'
                       = if decide (k ∈ fields) then Some (dict_get d k JNull)
                         else None)
         /\ (NoDup fields -> d'.*1 = fields))
    records out.
Proof. apply normalize_records_spec. Qed.

Lemma normalize_records_shape_witness :
  exists out,
    normalize_records
      [JDict [("id", JInt 1); ("name", JStr "a"); ("extra", JBool true)];
       JDict [("name", JNull)]]
      (Some ["name"; "id"]) = Ok out
    /\ length out = 2%nat
    /\ out = [JDict [("name", JStr "a"); ("id", JInt 1)];
              JDict [("name", JNull); ("id", JNull)]].
Proof.
  set (records := [JDict [("id", JInt 1); ("name", JStr "a"); ("extra", JBool true)];
                   JDict [("name", JNull)]]).
  destruct (normalize_records records (Some ["name"; "id"])) as [out|e] eqn:Hrun;
    [|vm_compute in Hrun; discriminate].
  pose proof (normalize_records_shape records ["name"; "id"] out
                ltac:(discriminate) Hrun) as Hshape.
  exists out. split; [done|]. split.
  - by rewrite <- (Forall2_length _ _ _ Hshape).
  - vm_compute in Hrun. by injection Hrun as <-.
Defined.

(** [normalize_records] raises in one case only: fields are given and a
    record is not a [dict]; the exception is [AttributeError].  Without
    fields, [None] or the empty list, it returns the records as they
    are, whatever they are; an empty list of records gives the empty
    list. *)
Theorem normalize_records_errors records fields :
  (default [] fields = [] -> normalize_records records fields = Ok records)
  /\ (default [] fields <> [] ->
      (Forall (fun record => is_dict record = true) records ->
       exists out, normalize_records records fields = Ok out
                   /\ length out = length records)
      /\ (~ Forall (fun record => is_dict record = true) records ->
          normalize_records records fields = Raise AttributeError)).
Proof.
  split.
  - intros Hf. destruct records as [|record records]; [done|].
    destruct fields as [[|f fields]|]; done.
  - intros Hf. destruct fields as [[|f fields]|]; try done.
    destruct records as [|record records].
    { split; [by exists []|]. intros H. by destruct H. }
    unfold normalize_records.
    destruct (project_each_returns (record :: records) f fields)
      as [Hraise|[Hall [out Hout]]].
    + rewrite Hraise. split; [|done]. intros Hall.
      exfalso. clear Hf. revert Hraise. generalize (record :: records) Hall.
      induction 1 as [|r rs Hr _ IH]; [done|].
      cbn [project_each]. destruct r; try done. rewrite project_dict. simpl.
      destruct (project_each rs (f :: fields)) as [rest|e] eqn:Hrs; [done|].
      simpl. intros [= ->]. by apply IH.
    + rewrite Hout. split; [|done]. intros _. exists out. split; [done|].
      apply project_each_spec, Forall2_length in Hout. done.
Qed.

Lemma normalize_records_errors_witness :
  normalize_records [JStr "a"; JInt 3] (Some []) = Ok [JStr "a"; JInt 3]
  /\ normalize_records [JDict [("id", JInt 1)]; JStr "a"] (Some ["id"])
     = Raise AttributeError.
Proof.
  split.
  - by apply (proj1 (normalize_records_errors [JStr "a"; JInt 3] (Some []))).
  - apply (proj2 (normalize_records_errors [JDict [("id", JInt 1)]; JStr "a"]
                    (Some ["id"]))); [done|].
    intros H. apply Forall_cons in H as [_ H]. apply Forall_cons in H as [H _]. done.
Defined.

Lemma project_each_ext records records' fields :
  Forall2 (fun r r' => forall k, k ∈ fields -> record_get r k = record_get r' k)
    records records' ->
  project_each records fields = project_each records' fields.
Proof.
  induction 1 as [|r r' rs rs' Hr _ IH]; [done|].
  cbn [project_each]. by rewrite (project_ext r r' fields [] Hr), IH.
Qed.

(** Normalizing again narrows: after a normalization to fields [f],
    one to fields [g] among them gives what it gives on the records
    themselves; with [g = f] it gives the normalized records back. *)
Theorem normalize_records_again records f g out :
  f <> [] -> g <> [] -> (forall k, k ∈ g -> k ∈ f) ->
  normalize_records records (Some f) = Ok out ->
  normalize_records out (Some g) = normalize_records records (Some g)
  /\ normalize_records out (Some f) = Ok out.
Proof.
  intros Hf Hg Hsub Hrun.
  pose proof (normalize_records_spec records f out Hf Hrun) as Hshape.
  assert (forall h, h <> [] -> (forall k, k ∈ h -> k ∈ f) ->
            normalize_records out (Some h) = normalize_records records (Some h)) as Hnarrow.
  { intros h Hh Hhf. destruct h as [|h0 h]; [done|].
    destruct Hshape as [|r o rs os Hr Hrs]; [done|]. unfold normalize_records.
    apply project_each_ext. constructor.
    - destruct Hr as (d & d' & -> & -> & _ & Hl & _). intros k Hk. simpl. f_equal.
      unfold dict_get at 1. rewrite Hl. by rewrite decide_True by (by apply Hhf).
    - eapply Forall2_flip, Forall2_impl; [exact Hrs|].
      intros r' o' (d & d' & -> & -> & _ & Hl & _) k Hk. simpl. f_equal.
      unfold dict_get at 1. rewrite Hl. by rewrite decide_True by (by apply Hhf). }
  split; [by apply Hnarrow|]. rewrite Hnarrow by done. exact Hrun.
Qed.

Lemma normalize_records_again_witness :
  exists out,
    normalize_records [JDict [("id", JInt 1); ("name", JStr "a")]] (Some ["name"; "id"])
    = Ok out
    /\ normalize_records out (Some ["id"]) = Ok [JDict [("id", JInt 1)]]
    /\ normalize_records out (Some ["name"; "id"]) = Ok out.
Proof.
  set (records := [JDict [("id", JInt 1); ("name", JStr "a")]]).
  destruct (normalize_records records (Some ["name"; "id"])) as [out|e] eqn:Hrun;
    [|vm_compute in Hrun; discriminate].
  destruct (normalize_records_again records ["name"; "id"] ["id"] out) as [Hg Hf];
    [discriminate|discriminate| |done|].
  { intros k Hk%list_elem_of_singleton. subst. right. by left. }
  exists out. split; [done|]. split; [|done].
  rewrite Hg. vm_compute. reflexivity.
Defined.

(** ** [fetch_paginated] *)

Lemma requests_app t1 t2 : requests (t1 ++ t2) = requests t1 ++ requests t2.
Proof. unfold requests. apply omap_app. Qed.

Lemma pauses_app t1 t2 : pauses (t1 ++ t2) = pauses t1 ++ pauses t2.
Proof. unfold pauses. apply omap_app. Qed.

Lemma page_range_prefix (pre : list Z) (max_pages : Z) :
  pre `prefix_of` page_range max_pages ->
  (length pre <= Z.to_nat max_pages)%nat
  /\ pre = page_range (Z.of_nat (length pre)).
Proof.
  intros [rest Hrest]. unfold page_range in *.
  assert (length pre <= Z.to_nat max_pages)%nat as Hle.
  { apply (f_equal length) in Hrest.
    rewrite length_app, length_fmap, length_seq in Hrest. lia. }
  split; [done|]. rewrite Nat2Z.id.
  apply (f_equal (take (length pre))) in Hrest.
  rewrite take_app_length in Hrest.
  remember (length pre) as n eqn:Hn. rewrite <- Hrest.
  rewrite <- fmap_take. f_equal.
  apply list_eq. intros i. rewrite lookup_take. case_decide as Hi.
  - rewrite !lookup_seq_lt by lia. done.
  - rewrite lookup_seq_ge by lia. done.
Qed.

Lemma page_range_split (n : nat) (max_pages : Z) :
  Z.of_nat n < max_pages ->
  exists rest,
    page_range max_pages = page_range (Z.of_nat n) ++ (Z.of_nat n + 1) :: rest.
Proof.
  intros Hlt. unfold page_range. rewrite Nat2Z.id.
  assert (Z.to_nat max_pages = n + S (Z.to_nat max_pages - S n))%nat as -> by lia.
  rewrite seq_app, fmap_app. cbn [seq fmap list_fmap].
  eexists. f_equal. f_equal. lia.
Qed.

Section FetchPaginatedFacts.
Context {E : Type}.
Variable fetch_json : string -> option (dict string) -> E + json.
Variable time_sleep : PyFloat.float -> result unit.
Variables (base_url page_param per_page_param : string).
Variables (per_page max_pages : Z).
Variable headers : option (dict string).
Variable delay : PyFloat.float.

Abbreviation url := (page_url base_url page_param per_page_param per_page).
Abbreviation loop :=
  (fetch_pages fetch_json time_sleep base_url page_param per_page_param per_page
     headers delay).
Abbreviation good :=
  (good_page fetch_json base_url page_param per_page_param per_page headers).
Abbreviation events := (page_events base_url page_param per_page_param per_page delay).
Abbreviation sleep_ok := (sleep_returns time_sleep delay).
Abbreviation run :=
  (fetch_paginated fetch_json time_sleep base_url page_param per_page_param
     per_page max_pages headers delay).

Lemma fetch_pages_good pages items rest all_items trace :
  sleep_ok ->
  Forall2 good pages items ->
  loop (pages ++ rest) all_items trace
  = loop rest (all_items ++ concat items) (trace ++ concat (events <$> pages)).
Proof.
  intros Hsleep Hgood. revert all_items trace.
  induction Hgood as [|page its pages items (data & Hdata & Hitems) _ IH];
    intros all_items trace.
  - by rewrite !app_nil_r.
  - cbn [app fetch_pages]. rewrite Hdata, Hitems. cbn [fmap list_fmap concat].
    assert (events page
            = Request (url page)
              :: (if PyFloat.ltb (PyFloat.of_Z 0) delay then [Sleep delay] else []))
      as -> by done.
    unfold sleep_returns in Hsleep.
    destruct (PyFloat.ltb (PyFloat.of_Z 0) delay) eqn:Hd.
    + rewrite Hsleep by done. rewrite IH. f_equal.
      * by rewrite <- app_assoc.
      * by rewrite <- !app_assoc.
    + rewrite IH. f_equal.
      * by rewrite <- app_assoc.
      * by rewrite <- !app_assoc.
Qed.

Lemma fetch_pages_trace pages all_items trace :
  exists pre m,
    pre `prefix_of` pages
    /\ (m <= length pre)%nat
    /\ requests (loop pages all_items trace).2 = requests trace ++ (url <$> pre)
    /\ pauses (loop pages all_items trace).2 = pauses trace ++ replicate m delay.
Proof.
  revert all_items trace. induction pages as [|page pages IH]; intros all_items trace.
  - exists [], 0%nat. simpl. by rewrite !app_nil_r.
  - cbn [fetch_pages].
    assert (exists pre m,
              pre `prefix_of` page :: pages /\ (m <= length pre)%nat
              /\ requests (trace ++ [Request (url page)]) = requests trace ++ (url <$> pre)
              /\ pauses (trace ++ [Request (url page)])
                 = pauses trace ++ replicate m delay) as Hstop.
    { exists [page], 0%nat. split; [by exists pages|]. split; [simpl; lia|].
      rewrite requests_app, pauses_app. simpl. by rewrite app_nil_r. }
    assert (forall items tr,
              requests tr = requests trace ++ [url page] ->
              (exists m, (m <= 1)%nat /\ pauses tr = pauses trace ++ replicate m delay) ->
              exists pre m,
                pre `prefix_of` page :: pages /\ (m <= length pre)%nat
                /\ requests (loop pages items tr).2 = requests trace ++ (url <$> pre)
                /\ pauses (loop pages items tr).2 = pauses trace ++ replicate m delay)
      as Hgo.
    { intros items tr Hreq (m0 & Hm0 & Hp).
      destruct (IH items tr) as (pre & m & Hpre & Hm & Hr & Hs).
      exists (page :: pre), (m0 + m)%nat. split; [by apply prefix_cons|].
      split; [simpl; lia|]. rewrite Hr, Hs, Hreq, Hp, replicate_add.
      by rewrite <- !app_assoc. }
    destruct (fetch_json (url page) headers) as [e|data]; [exact Hstop|].
    destruct (page_items data) as [[items|e]|]; [|exact Hstop|exact Hstop].
    destruct (PyFloat.ltb (PyFloat.of_Z 0) delay).
    + destruct (time_sleep delay).
      * apply Hgo.
        -- rewrite !requests_app. simpl. by rewrite app_nil_r.
        -- exists 1%nat. split; [done|]. rewrite !pauses_app. simpl.
           by rewrite app_nil_r.
      * exists [page], 1%nat. split; [by exists pages|]. split; [done|].
        cbn [snd]. rewrite !requests_app, !pauses_app. simpl.
        by rewrite !app_nil_r.
    + apply Hgo.
      * rewrite requests_app. done.
      * exists 0%nat. split; [lia|]. rewrite pauses_app. simpl. by rewrite !app_nil_r.
Qed.

(** [fetch_paginated] asks for the pages 1, 2, ... in this order, each
    once and never for more than [max_pages] of them, whatever the
    answers are; it pauses once at most after each request, for [delay].
    Without a page to ask for it returns the empty list. *)
Theorem fetch_paginated_requests :
  (exists k m : nat,
     (m <= k <= Z.to_nat max_pages)%nat
     /\ requests run.2 = url <$> page_range (Z.of_nat k)
     /\ pauses run.2 = replicate m delay)
  /\ (max_pages <= 0 -> run = (Returned [], [])).
Proof.
  split.
  - unfold fetch_paginated.
    destruct (fetch_pages_trace (page_range max_pages) [] [])
      as (pre & m & Hpre & Hm & Hr & Hs).
    apply page_range_prefix in Hpre as [Hle Hpre].
    exists (length pre), m. split; [lia|]. split; [|done].
    rewrite Hr. simpl. by rewrite <- Hpre.
  - intros Hle. unfold fetch_paginated, page_range.
    by replace (Z.to_nat max_pages) with 0%nat by lia.
Qed.

(** Where the pages 1 to [n] have items and the page after them has
    none, or [n] is [max_pages], [fetch_paginated] returns the items of
    these pages, in their order, after one request for each page that
    it looked at and one pause for each page with items. *)
Theorem fetch_paginated_collects (items : list (list json)) :
  let n := length items in
  sleep_ok ->
  Forall2 good (page_range (Z.of_nat n)) items ->
  (Z.of_nat n = max_pages -> 
   run = (Returned (concat items), concat (events <$> page_range (Z.of_nat n))))
  /\ (Z.of_nat n < max_pages ->
      forall data,
        fetch_json (url (Z.of_nat n + 1)) headers = inr data ->
        page_items data = None ->
        run = (Returned (concat items),
               concat (events <$> page_range (Z.of_nat n))
               ++ [Request (url (Z.of_nat n + 1))])).
Proof.
  intros n Hsleep Hgood. split.
  - intros Hn. unfold fetch_paginated. rewrite <- Hn.
    rewrite <- (app_nil_r (page_range (Z.of_nat n))) at 1.
    by rewrite (fetch_pages_good _ items [] [] [] Hsleep Hgood).
  - intros Hn data Hdata Hnone. unfold fetch_paginated.
    destruct (page_range_split n max_pages Hn) as [rest ->].
    rewrite (fetch_pages_good _ items _ [] [] Hsleep Hgood).
    cbn [fetch_pages]. by rewrite Hdata, Hnone.
Qed.

(** An exception after pages with items is the outcome of the call, and
    the items are not returned: the exception of [fetch_json] as it is,
    [TypeError] where the items of a page cannot be iterated. *)
Theorem fetch_paginated_raises (items : list (list json)) :
  let n := length items in
  sleep_ok ->
  Forall2 good (page_range (Z.of_nat n)) items ->
  Z.of_nat n < max_pages ->
  (forall e, fetch_json (url (Z.of_nat n + 1)) headers = inl e -> run.1 = Passed e)
  /\ (forall data e,
        fetch_json (url (Z.of_nat n + 1)) headers = inr data ->
        page_items data = Some (Raise e) ->
        run.1 = Raised e /\ e = TypeError).
Proof.
  intros n Hsleep Hgood Hn. unfold fetch_paginated.
  destruct (page_range_split n max_pages Hn) as [rest ->].
  rewrite (fetch_pages_good _ items _ [] [] Hsleep Hgood).
  cbn [fetch_pages]. split.
  - intros e ->. done.
  - intros data e -> Hraise. rewrite Hraise. split; [done|].
    unfold page_items in Hraise.
    destruct data as [| | | | |l|d]; try done.
    + by destruct l.
    + destruct (json_truthy _); [|done]. injection Hraise as Hraise.
      unfold json_iter in Hraise. by destruct (dict_get _ _ _); simplify_eq.
Qed.

End FetchPaginatedFacts.

Lemma fetch_paginated_requests_witness :
  fetch_paginated test_server test_sleep "http://api.test/items" "page" "per_page"
    2 0 None half_second
  = (Returned [], []).
Proof.
  by apply (proj2 (fetch_paginated_requests test_server test_sleep
                     "http://api.test/items" "page" "per_page" 2 0 None half_second)).
Defined.

Lemma fetch_paginated_collects_witness :
  fetch_paginated test_server test_sleep "http://api.test/items" "page" "per_page"
    2 10 None half_second
  = (Returned [JInt 1; JInt 2],
     [Request "http://api.test/items?page=1&per_page=2"; Sleep half_second;
      Request "http://api.test/items?page=2&per_page=2"]).
Proof.
  apply (proj2 (fetch_paginated_collects test_server test_sleep
                  "http://api.test/items" "page" "per_page" 2 10 None half_second
                  [[JInt 1; JInt 2]] ltac:(done)
                  ltac:(repeat constructor; by eexists))
           ltac:(done)
           (JDict [("results", JList []); ("items", JList [JInt 9])])).
  - reflexivity.
  - reflexivity.
Defined.

Lemma fetch_paginated_raises_witness :
  (fetch_paginated test_server test_sleep "http://api.test/count" "page" "per_page"
     2 10 None half_second).1
  = Raised TypeError
  /\ (fetch_paginated test_server test_sleep "http://api.test/other" "page" "per_page"
        2 10 None half_second).1
     = Passed "HTTP 404".
Proof.
  split.
  - apply (proj2 (fetch_paginated_raises test_server test_sleep
                    "http://api.test/count" "page" "per_page" 2 10 None half_second
                    [] ltac:(done) ltac:(constructor) ltac:(done))
             (JDict [("results", JInt 5)]) TypeError); reflexivity.
  - apply (proj1 (fetch_paginated_raises test_server test_sleep
                    "http://api.test/other" "page" "per_page" 2 10 None half_second
                    [] ltac:(done) ltac:(constructor) ltac:(done))
             "HTTP 404"). reflexivity.
Defined.

(** ** The objects that [clean_dataset] returns *)

(** The rows that [clean_dataset] returns are objects of their own: no
    two entries of the result are one object, also where the input
    names one object twice, and none is an object of the input. *)
Theorem clean_dataset_returns_distinct_objects headers rows config h cleaned log h' :
  Forall (fun l => l ∈ dom h) rows ->
  clean_dataset_st headers rows config h = (Ok (cleaned, log), h') ->
  NoDup cleaned
  /\ Forall (fun l => l ∉ rows) cleaned
  /\ Forall (fun l => l ∈ dom h') cleaned
  /\ (length cleaned <= length rows)%nat.
Proof.
  intros Hrows Hrun.
  destruct (clean_dataset_st_spec headers rows config h Hrows) as (h1 & He & Hspec).
  destruct (clean_dataset headers (deref h rows) config) as [[out log']|e] eqn:Hclean.
  - destruct Hspec as (cleaned' & Hrun' & Hinv). rewrite Hrun in Hrun'.
    injection Hrun' as <- <- <-.
    destruct Hinv as (_ & Hnd & Hfresh & Hholds).
    split; [done|]. split; [|split].
    + eapply Forall_impl; [exact Hfresh|]. intros l Hl Hin. apply Hl.
      rewrite Forall_forall in Hrows. by apply Hrows.
    + by eapply holds_dom.
    + apply Forall2_length in Hholds. rewrite Hholds.
      clear -Hclean. revert Hclean. rewrite clean_dataset_spec. cbv zeta.
      destruct (all_fillable _ _); [|done]. intros [= <- _].
      rewrite length_rename_transform, length_drop_transform, length_fill_rows.
      unfold dedup_transform, strip_transform, deref.
      destruct (default true (remove_duplicates _)), (default true (strip_whitespace _));
        rewrite ?length_fmap;
        try (etrans; [apply remove_duplicate_rows_length|]); by rewrite ?length_fmap.
  - rewrite Hrun in Hspec. done.
Qed.

Lemma clean_dataset_returns_distinct_objects_witness :
  let a : row := [("name", VStr "Ann")] in
  let h : heap := <[1%positive := a]> ∅ in
  exists cleaned log h',
    clean_dataset_st [] [1; 1]%positive
      (Some (Config None (Some false) None None None)) h
    = (Ok (cleaned, log), h')
    /\ length cleaned = 2%nat /\ NoDup cleaned.
Proof.
  intros a h.
  destruct (clean_dataset_st [] [1; 1]%positive
              (Some (Config None (Some false) None None None)) h)
    as [[[cleaned log]|e] h'] eqn:Hrun; [|vm_compute in Hrun; discriminate].
  exists cleaned, log, h'. split; [done|].
  assert (Forall (fun l => l ∈ dom h) [1; 1]%positive) as Hrows
    by (repeat constructor; apply elem_of_dom; by eexists).
  destruct (clean_dataset_returns_distinct_objects _ _ _ _ _ _ _ Hrows Hrun)
    as (Hnd & _).
  split; [|done]. vm_compute in Hrun. by injection Hrun as <- _ _.
Defined.

(** ** The texts of the cleaned rows *)

Lemma elem_of_dict_set {V} (k : string) (v : V) (d : dict V) (x : string * V) :
  x ∈ dict_set k v d -> x = (k, v) \/ x ∈ d.
Proof.
  induction d as [|[k' v'] d IH]; simpl.
  - intros ?%list_elem_of_singleton. by left.
  - destruct (decide (k = k')) as [->|Hne].
    + intros [->|Hin]%elem_of_cons; [by left|]. right. by right.
    + intros [->|Hin]%elem_of_cons; [right; by left|].
      destruct (IH Hin) as [->|?]; [by left|]. right. by right.
Qed.

Lemma elem_of_rename_row rename (r : row) (k' : string) (v : pyval) :
  (k', v) ∈ rename_row rename r -> exists k, (k, v) ∈ r.
Proof.
  induction r as [|[k0 v0] r IH] using rev_ind; [by intros ?%elem_of_nil|].
  rewrite rename_row_snoc. intros [[= -> ->]|Hin]%elem_of_dict_set.
  - exists k0. apply elem_of_app. right. by left.
  - destruct (IH Hin) as [k Hk]. exists k. apply elem_of_app. by left.
Qed.

Lemma fill_rows_texts (P : string -> Prop) fills rows :
  (forall col fill, (col, fill) ∈ fills -> P (py_str fill)) ->
  Forall (fun r : row => forall k s, (k, VStr s) ∈ r -> P s) rows ->
  Forall (fun r : row => forall k s, (k, VStr s) ∈ r -> P s) (fill_rows fills rows).
Proof.
  unfold fill_rows. revert rows.
  induction fills as [|[col fill] fills IH]; intros rows Hfills Hrows; [done|].
  cbn [fold_left]. apply IH.
  - intros c f Hin. apply (Hfills c f). by right.
  - apply Forall_fmap. eapply Forall_impl; [exact Hrows|].
    intros r Hr k s. simpl. unfold fill_cell.
    destruct (null_cell col r); [|by apply Hr].
    intros [[= -> ->]|Hin]%elem_of_dict_set; [|by eapply Hr].
    apply (Hfills col fill). by left.
Qed.

(** With [strip_whitespace] enabled, each text of the rows that
    [clean_dataset] returns is stripped, unless it is the text of a
    fill value, which is written as it is given. *)
Theorem strip_whitespace_postcondition headers rows cfg out log :
  default true (strip_whitespace cfg) = true ->
  clean_dataset headers rows (Some cfg) = Ok (out, log) ->
  Forall (fun r : row =>
            forall k s, (k, VStr s) ∈ r ->
              stripped_or_filled (default [] (fill_nulls cfg)) s)
    out.
Proof.
  intros Hstrip. rewrite clean_dataset_spec. cbv zeta. simpl.
  destruct (all_fillable _ _); [|done]. intros [= <- _].
  set (fills := default [] (fill_nulls cfg)).
  set (P := stripped_or_filled fills).
  assert (Forall (fun r : row => forall k s, (k, VStr s) ∈ r -> P s)
            (strip_transform cfg rows)) as H1.
  { unfold strip_transform. rewrite Hstrip. apply Forall_fmap, Forall_forall.
    intros r _ k s Hin. simpl in Hin. left.
    apply list_elem_of_fmap in Hin as ([k0 v0] & Heq & _).
    destruct v0 as [|s0]; [done|]. injection Heq as _ ->. apply strip_idemp. }
  assert (Forall (fun r : row => forall k s, (k, VStr s) ∈ r -> P s)
            (dedup_transform cfg (strip_transform cfg rows))) as H2.
  { unfold dedup_transform. destruct (default true (remove_duplicates cfg)); [|done].
    eapply sublist_Forall; [|exact H1].
    rewrite remove_duplicate_rows_eq. apply dedup_from_sublist. }
  pose proof (fill_rows_texts P fills _
                (fun col fill Hin => or_intror (ex_intro _ col (ex_intro _ fill
                                                  (conj Hin eq_refl)))) H2) as H3.
  assert (Forall (fun r : row => forall k s, (k, VStr s) ∈ r -> P s)
            (drop_transform cfg (fill_rows fills (dedup_transform cfg
                                                   (strip_transform cfg rows))))) as H4.
  { unfold drop_transform. destruct (default [] (drop_columns cfg)) as [|c0 cols]; [done|].
    apply Forall_fmap. eapply Forall_impl; [exact H3|].
    intros r Hr k s [_ Hin]%list_elem_of_filter. by eapply Hr. }
  unfold rename_transform.
  destruct (default [] (rename_columns cfg)) as [|kv rename]; [done|].
  apply Forall_fmap. eapply Forall_impl; [exact H4|].
  intros r Hr k s [k0 Hin]%elem_of_rename_row. by eapply Hr.
Qed.

Lemma strip_whitespace_postcondition_witness :
  exists out log,
    clean_dataset [] [[("name", VStr " Ann "); ("city", VStr " ")]]
      (Some (Config None None (Some [("city", FStr " ? ")]) None
               (Some [("name", "who")]))) = Ok (out, log)
    /\ out = [[("who", VStr "Ann"); ("city", VStr " ? ")]]
    /\ Forall (fun r : row =>
                 forall k s, (k, VStr s) ∈ r ->
                   stripped_or_filled [("city", FStr " ? ")] s) out.
Proof.
  set (rows := [[("name", VStr " Ann "); ("city", VStr " ")]]).
  set (cfg := Config None None (Some [("city", FStr " ? ")]) None (Some [("name", "who")])).
  destruct (clean_dataset [] rows (Some cfg)) as [[out log]|e] eqn:Hrun;
    [|vm_compute in Hrun; discriminate].
  pose proof (strip_whitespace_postcondition [] rows cfg out log eq_refl Hrun) as Hpost.
  exists out, log. split; [done|]. split; [|exact Hpost].
  vm_compute in Hrun. by injection Hrun as <- _.
Defined.

(** ** Cleaning, then profiling *)

Lemma has_text_non_null col fill rows :
  PyStr.strip (py_str fill) <> "" ->
  Forall (has_text col fill) rows ->
  non_null_values ((fun r => dict_get r col (VStr "")) <$> rows)
  = (fun r => match dict_get r col (VStr "") with VStr s => s | VNone => "" end)
      <$> rows.
Proof.
  intros Hfill. unfold non_null_values. induction 1 as [|r rows (s & Hs & Hne) _ IH]; [done|].
  rewrite !fmap_cons. cbn [omap list_omap]. rewrite IH.
  unfold dict_get at 1 2. rewrite Hs. cbn [default from_option id].
  destruct (decide (PyStr.strip s = "")) as [Hblank|_]; [by apply Hne in Hblank|].
  unfold dict_get. by rewrite Hs.
Qed.

Lemma fill_rows_wf fills rows :
  Forall dict_wf rows -> Forall dict_wf (fill_rows fills rows).
Proof.
  unfold fill_rows. revert rows.
  induction fills as [|[col fill] fills IH]; intros rows Hwf; [done|].
  cbn [fold_left]. apply IH, Forall_fmap.
  eapply Forall_impl; [exact Hwf|]. intros r Hr. by apply fill_cell_wf.
Qed.

Lemma drop_row_wf cols (r : row) : dict_wf r -> dict_wf (drop_row cols r).
Proof.
  unfold dict_wf. rewrite drop_row_keys. apply NoDup_filter.
Qed.

Lemma last_filter_key (r : row) (col : string) (v : pyval) :
  dict_wf r -> dict_lookup col r = Some v ->
  snd <$> last (filter (fun kv : string * pyval => kv.1 = col) r) = Some v.
Proof.
  unfold dict_wf. induction r as [|[k v0] r IH]; [done|].
  rewrite fmap_cons. intros [Hk Hwf]%NoDup_cons. simpl.
  rewrite filter_cons. simpl. destruct (decide (col = k)) as [->|Hne].
  - intros [= ->]. rewrite decide_True by done.
    assert (filter (fun kv : string * pyval => kv.1 = k) r = []) as ->; [|done].
    clear -Hk. simpl in Hk. induction r as [|[k' v'] r IH]; [done|].
    rewrite fmap_cons in Hk. apply not_elem_of_cons in Hk as [Hne Hk].
    rewrite filter_cons_False by (simpl; intros ->; by apply Hne). by apply IH.
  - intros Hl. rewrite decide_False by done. by apply IH.
Qed.

Lemma has_text_drop_row col fill cols (r : row) :
  col ∉ cols -> has_text col fill r -> has_text col fill (drop_row cols r).
Proof.
  intros Hcol (s & Hs & Hne). exists s. split; [|done].
  rewrite drop_row_lookup. by rewrite decide_False.
Qed.

Lemma has_text_rename_row col fill rename (r : row) :
  dict_wf r ->
  new_name rename col = col ->
  (forall k, new_name rename k = col -> k = col) ->
  has_text col fill r -> has_text col fill (rename_row rename r).
Proof.
  intros Hwf Hcol Hinj (s & Hs & Hne). exists s. split; [|done].
  rewrite rename_row_lookup.
  rewrite (list_filter_iff _ (fun kv : string * pyval => kv.1 = col)).
  - by apply last_filter_key.
  - intros [k v]. simpl. split; [apply Hinj|by intros ->].
Qed.

Section CleanThenProfile.
Context {lib : NumericLib}.

(** A column that [clean_dataset] has filled with a text that is not
    blank has no nulls in a profile of the cleaned rows, provided that
    the column is not dropped, is not renamed, and is not the new name
    of another column. *)
Theorem filled_column_has_no_nulls headers rows cfg out log col fill p :
  Forall dict_wf rows ->
  col ∉ default [] (drop_columns cfg) ->
  new_name (default [] (rename_columns cfg)) col = col ->
  (forall k, new_name (default [] (rename_columns cfg)) k = col -> k = col) ->
  clean_dataset headers rows (Some cfg) = Ok (out, log) ->
  (col, fill) ∈ default [] (fill_nulls cfg) ->
  PyStr.strip (py_str fill) <> "" ->
  profile_column ((fun r => dict_get r col (VStr "")) <$> out) col = Ok p ->
  null_count p = 0 /\ non_null p = len out /\ total_rows p = len out.
Proof.
  intros Hwf Hdrop Hcol Hinj Hrun Hin Hfill Hp.
  assert (Forall (has_text col fill) out) as Htext.
  { revert Hrun. rewrite clean_dataset_spec. cbv zeta. simpl.
    destruct (all_fillable _ _) eqn:Hall; [|done]. intros [= <- _].
    set (r2 := dedup_transform cfg (strip_transform cfg rows)) in *.
    set (r3 := fill_rows (default [] (fill_nulls cfg)) r2).
    assert (Forall dict_wf r3) as Hwf3
      by (by apply fill_rows_wf, dedup_transform_wf, strip_transform_wf).
    assert (Forall (has_text col fill) r3) as H3 by (by apply fill_rows_filled).
    assert (Forall dict_wf (drop_transform cfg r3)
            /\ Forall (has_text col fill) (drop_transform cfg r3)) as [Hwf4 H4].
    { unfold drop_transform.
      destruct (default [] (drop_columns cfg)) as [|c0 cols] eqn:Hcols; [done|].
      split; apply Forall_fmap.
      - eapply Forall_impl; [exact Hwf3|]. intros r Hr. by apply drop_row_wf.
      - eapply Forall_impl; [exact H3|]. intros r Hr. by apply has_text_drop_row. }
    unfold rename_transform.
    destruct (default [] (rename_columns cfg)) as [|kv rename] eqn:Hren; [done|].
    apply Forall_fmap, Forall_forall. intros r Hr.
    rewrite Forall_forall in H4, Hwf4.
    apply has_text_rename_row; [by apply Hwf4|done|done|by apply H4]. }
  destruct (profile_column_fields _ _ _ Hp) as (_ & Ht & Hnn & Hnc & _).
  rewrite (has_text_non_null col fill out Hfill Htext) in Hnn, Hnc.
  unfold len in *. rewrite !length_fmap in *. lia.
Qed.

End CleanThenProfile.

Lemma filled_column_has_no_nulls_witness :
  exists out log p,
    clean_dataset [] [[("city", VStr ""); ("id", VStr "1"); ("zip", VStr "9")];
                      [("name", VStr "Bob")]]
      (Some (Config None None (Some [("city", FStr "Unknown")]) (Some ["zip"])
               (Some [("id", "key")])))
    = Ok (out, log)
    /\ out = [[("city", VStr "Unknown"); ("key", VStr "1")];
              [("name", VStr "Bob"); ("city", VStr "Unknown")]]
    /\ profile_column (lib := CPython311.lib)
         ((fun r => dict_get r "city" (VStr "")) <$> out) "city" = Ok p
    /\ null_count p = 0 /\ non_null p = 2.
Proof.
  set (rows := [[("city", VStr ""); ("id", VStr "1"); ("zip", VStr "9")];
                [("name", VStr "Bob")]]).
  set (cfg := Config None None (Some [("city", FStr "Unknown")]) (Some ["zip"])
                (Some [("id", "key")])).
  destruct (clean_dataset [] rows (Some cfg)) as [[out log]|e] eqn:Hrun;
    [|vm_compute in Hrun; discriminate].
  assert (out = [[("city", VStr "Unknown"); ("key", VStr "1")];
                 [("name", VStr "Bob"); ("city", VStr "Unknown")]])
    as Hout by (vm_compute in Hrun; by injection Hrun as <- _).
  destruct (profile_column (lib := CPython311.lib)
              ((fun r => dict_get r "city" (VStr "")) <$> out) "city") as [p|e] eqn:Hp;
    [|rewrite Hout in Hp; vm_compute in Hp; discriminate].
  destruct (filled_column_has_no_nulls (lib := CPython311.lib)
              [] rows cfg out log "city" (FStr "Unknown") p)
    as (Hnull & Hnn & _).
  - refine (bool_decide_eq_true_1 _ _). vm_compute. reflexivity.
  - simpl. intros Hin%list_elem_of_singleton. discriminate.
  - reflexivity.
  - intros k. unfold new_name, dict_get. simpl.
    destruct (decide (k = "id")) as [->|]; [discriminate|done].
  - exact Hrun.
  - by left.
  - discriminate.
  - exact Hp.
  - exists out, log, p. split; [done|]. split; [done|]. split; [done|].
    split; [done|]. rewrite Hnn, Hout. reflexivity.
Defined.

(** ** Rows that take no part in an aggregation *)

Lemma collect_groups_included rows group_by agg_col :
  collect_groups (filter (fun r => included agg_col r = true) rows) group_by agg_col
  = collect_groups rows group_by agg_col.
Proof.
  induction rows as [|r rows IH] using rev_ind; [done|].
  rewrite filter_app, filter_cons, filter_nil, collect_groups_snoc. cbv zeta.
  destruct (agg_value_of agg_col r) as [val|] eqn:Hval.
  - rewrite decide_True by (apply bool_decide_eq_true; by eexists).
    rewrite collect_groups_snoc. cbv zeta. by rewrite Hval, IH.
  - rewrite decide_False; [by rewrite app_nil_r|].
    intros H. apply bool_decide_eq_true in H as [? ?]. congruence.
Qed.

Section AggregateIncluded.
Context {lib : NumericLib}.

(** The rows that take no part have no effect on the result: without
    them, [aggregate] returns or raises the same. *)
Theorem aggregate_ignores_excluded_rows rows group_by agg_col agg_func :
  aggregate (filter (fun r => included agg_col r = true) rows) group_by agg_col agg_func
  = aggregate rows group_by agg_col agg_func.
Proof. unfold aggregate. by rewrite collect_groups_included. Qed.

End AggregateIncluded.
